(** * OpenNN: the train/test loop, its run directories and the accuracy metric

    A shallow embedding of
      - [opennn_pytorch/algo/traintest.py] ([train], [test]) and
      - [opennn/metrics/accuracy.py] ([accuracy.calc]),
    together with the properties of their checkpoint, logging and
    run-directory bookkeeping, and of
      - [opennn_pytorch/run.py] ([transforms_lst], [run]) and
      - [opennn_pytorch/datasets/custom.py] ([CustomDataset]),
    the caller of the two algorithms and the dataset of a directory of
    images.

    Conventions of the embedding.
      - A Python [float] is an IEEE binary64 number: Rocq's primitive [float].
      - A Python [int] is a [Z].
      - An element of a tensor is an integer of 64 bits or a number of IEEE
        binary32 or binary64, the latter two as the [spec_float] of the
        standard library; conversions and the division round to nearest,
        ties to even.
      - The file system is a finite map from path strings to nodes; every
        [os] call of the source is a function on that map which either
        succeeds or raises one of Python's exceptions.  An exception keeps the
        file system as it was when it was raised.
      - The network, the optimizer, the scheduler, the loss and the metrics
        are collaborators of the loop: they are parameters of the embedding
        and are taken to return normally.
      - File names are ASCII strings. *)

Set Warnings "-inexact-float".
From Stdlib Require Import Floats ZArith Lia DecimalPos DecimalString Ascii String.
From stdpp Require Import base option list gmap strings fin_maps.

Local Open Scope string_scope.
Local Open Scope Z_scope.

(** ** Python exceptions and the monad of file-system effects *)

Inductive exn : Type :=
| ValueError
| ZeroDivisionError
| IndexError
| RuntimeError
| FileNotFoundError
| FileExistsError
| NotADirectoryError
| IsADirectoryError
| OSError.

Inductive result (A : Type) : Type :=
| Ok (a : A)
| Raise (e : exn).
Arguments Ok {A} a.
Arguments Raise {A} e.

(** ** Strings: paths, decimal integers *)

Definition slash : ascii := "/"%char.

Fixpoint has_slash (s : string) : bool :=
  match s with
  | EmptyString => false
  | String c r => Ascii.eqb c slash || has_slash r
  end.

(** [strip_prefix p s] is [Some r] when [s = p ++ r]. *)
Fixpoint strip_prefix (p s : string) : option string :=
  match p, s with
  | EmptyString, _ => Some s
  | String a p', String b s' => if Ascii.eqb a b then strip_prefix p' s' else None
  | String _ _, EmptyString => None
  end.

(** [os.path.split] at the last slash: directory part and base name. *)
Fixpoint split_path (s : string) : option (string * string) :=
  match s with
  | EmptyString => None
  | String c r =>
      match split_path r with
      | Some (d, b) => Some (String c d, b)
      | None => if Ascii.eqb c slash then Some (EmptyString, r) else None
      end
  end.

(** The f-string [f'{d}/{n}'] and the concatenation [d + '/' + n]. *)
Definition path_join (d n : string) : string := d ++ "/" ++ n.

(** [str(z)] for a Python [int]. *)
Definition py_str (z : Z) : string := NilZero.string_of_int (Z.to_int z).

(** The white space [int()] strips from an ASCII string: TAB, LF, VT, FF, CR
    and the space (the separators FS, GS, RS and US are white space for
    [str.isspace], not for [int()]). *)
Definition is_space (c : ascii) : bool :=
  let n := nat_of_ascii c in
  ((9 <=? n) && (n <=? 13) || (n =? 32))%nat.


Fixpoint lstrip (s : string) : string :=
  match s with
  | EmptyString => EmptyString
  | String c r => if is_space c then lstrip r else s
  end.

Fixpoint rstrip (s : string) : string :=
  match s with
  | EmptyString => EmptyString
  | String c r =>
      match rstrip r with
      | EmptyString => if is_space c then EmptyString else String c EmptyString
      | r' => String c r'
      end
  end.

(** Underscores of an integer literal: single, and between two characters of
    the digit run.  [prev] tells whether the previous character was no
    underscore. *)
Fixpoint drop_underscores (prev : bool) (s : string) : option string :=
  match s with
  | EmptyString => if prev then Some EmptyString else None
  | String c r =>
      if Ascii.eqb c "_"%char
      then (if prev then drop_underscores false r else None)
      else String c <$> drop_underscores true r
  end.

(** [int(s)] in base 10: surrounding white space, an optional sign, decimal
    digits with single underscores between them.  [None] is Python's
    [ValueError]. *)
Definition py_int (s : string) : option Z :=
  let s1 := rstrip (lstrip s) in
  let '(neg, s2) :=
    match s1 with
    | String c r =>
        if Ascii.eqb c "-"%char then (true, r)
        else if Ascii.eqb c "+"%char then (false, r)
        else (false, s1)
    | EmptyString => (false, s1)
    end in
  match drop_underscores false s2 with
  | Some ds =>
      match NilEmpty.uint_of_string ds with
      | Some d => Some (if neg then - Z.of_uint d else Z.of_uint d)
      | None => None
      end
  | None => None
  end.


(** The characters of a numeral: digits only. *)
Definition is_digit (c : ascii) : bool :=
  let n := nat_of_ascii c in ((48 <=? n) && (n <=? 57))%nat.

Fixpoint all_digits (s : string) : bool :=
  match s with
  | EmptyString => true
  | String c r => is_digit c && all_digits r
  end.

(** ** Python floats *)

Local Open Scope float_scope.

(** The comparisons [x < y] and [x <= y] of two floats. *)
Definition flt (x y : float) : bool := PrimFloat.ltb x y.
Definition fle (x y : float) : bool := PrimFloat.leb x y.

(** [float(n)] for a Python [int] that is a length. *)
Definition float_of_nat (n : nat) : float :=
  PrimFloat.of_uint63 (Uint63.of_Z (Z.of_nat n)).

(** [x / n] and [x /= n] for a float [x] and an [int] [n]: Python raises
    [ZeroDivisionError] on [n = 0] instead of returning an infinity or a
    NaN. *)
Definition py_truediv (x : float) (n : nat) : result float :=
  if (n =? 0)%nat then Raise ZeroDivisionError else Ok (x / float_of_nat n).

(** [a % b] on Python [int]s: the sign of the result is the sign of [b], as
    for [Z.modulo]; [b = 0] raises. *)
Definition py_mod (a b : Z) : result Z :=
  if (b =? 0)%Z then Raise ZeroDivisionError else Ok (a mod b)%Z.

(** Rounding of the fraction [num / den] ([den > 0]) to the nearest integer,
    ties to even. *)
Definition round_half_even (num den : Z) : Z :=
  let q := (num / den)%Z in
  let r := (num mod den)%Z in
  if (2 * r <? den)%Z then q
  else if (den <? 2 * r)%Z then (q + 1)%Z
  else if Z.even q then q else (q + 1)%Z.

Definition two_digits (n : Z) : string :=
  String (ascii_of_nat (48 + Z.to_nat (n / 10)))
    (String (ascii_of_nat (48 + Z.to_nat (n mod 10))) EmptyString).

(** The format ['{:.2f}'.format(x)]: the exact value of [x], correctly rounded
    to two decimals (ties to even), with Python's spelling of the special
    values. *)
Definition fmt_2f (x : float) : string :=
  match Prim2SF x with
  | S754_nan => "nan"
  | S754_infinity s => if s then "-inf" else "inf"
  | S754_zero s => (if s then "-" else EmptyString) ++ "0.00"
  | S754_finite s m e =>
      let h := if (0 <=? e)%Z
               then (Zpos m * 2 ^ e * 100)%Z
               else round_half_even (Zpos m * 100) (2 ^ (- e)) in
      (if s then "-" else EmptyString) ++ py_str (h / 100) ++ "." ++ two_digits (h mod 100)
  end.

Local Close Scope float_scope.

(** ** The file system *)

(** A node is a directory or a regular file.  A file holds what [torch.save]
    serialised into it, if anything, followed by the text appended to it. *)
Inductive node (W : Type) : Type :=
| Dir
| File (blob : option W) (text : string).
Arguments Dir {W}.
Arguments File {W} blob text.

Definition is_dir {W} (n : option (node W)) : bool :=
  match n with Some Dir => true | _ => false end.

(** Effects: a function of the file system that returns a value or raises,
    and the file system it leaves. *)
Definition M (W A : Type) : Type :=
  gmap string (node W) -> result A * gmap string (node W).

Definition ret {W A} (a : A) : M W A := fun fs => (Ok a, fs).
Definition raise {W A} (e : exn) : M W A := fun fs => (Raise e, fs).
Definition bind {W A B} (m : M W A) (k : A -> M W B) : M W B :=
  fun fs => match m fs with
            | (Ok a, fs') => k a fs'
            | (Raise e, fs') => (Raise e, fs')
            end.
Definition lift {W A} (r : result A) : M W A := fun fs => (r, fs).

Declare Scope eff_scope.
Delimit Scope eff_scope with eff.
Notation "'do' x <- m ; k" := (bind m (fun x => k))
  (at level 10, x pattern, m at level 100, k at level 200) : eff_scope.
Notation "'do_' m ; k" := (bind m (fun _ => k))
  (at level 10, m at level 100, k at level 200) : eff_scope.
Local Open Scope eff_scope.

(** [for x in l: st = body(st, x)], stopping at the first exception. *)
Fixpoint for_each {W A S} (l : list A) (body : S -> A -> M W S) (st : S) : M W S :=
  match l with
  | [] => ret st
  | x :: l' => do st' <- body st x; for_each l' body st'
  end.

Section FileSystem.
Context {W : Type}.
Implicit Types (fs : gmap string (node W)) (p d n : string).

(** The name under which [k] is an immediate child of [d], if it is one. *)
Definition child_name d k : option string :=
  match strip_prefix (d ++ "/") k with
  | Some n => if has_slash n || String.eqb n EmptyString then None else Some n
  | None => None
  end.

(** The directory a path lies in must exist.  A path without a slash is
    relative to the working directory; the root always exists. *)
Definition check_parent fs p : result unit :=
  match split_path p with
  | Some (d, _) =>
      if String.eqb d EmptyString then Ok tt
      else match fs !! d with
           | Some Dir => Ok tt
           | Some (File _ _) => Raise NotADirectoryError
           | None => Raise FileNotFoundError
           end
  | None => Ok tt
  end.

Definition children d fs : list string :=
  omap (child_name d) (map fst (map_to_list fs)).

(** [os.listdir(d)]: the names of the immediate children, in the order of
    the directory. *)
Definition os_listdir d : M W (list string) := fun fs =>
  match fs !! d with
  | Some Dir => (Ok (children d fs), fs)
  | Some (File _ _) => (Raise NotADirectoryError, fs)
  | None => (Raise FileNotFoundError, fs)
  end.

(** [os.mkdir(p)]. *)
Definition os_mkdir p : M W unit := fun fs =>
  match fs !! p with
  | Some _ => (Raise FileExistsError, fs)
  | None =>
      match check_parent fs p with
      | Ok _ => (Ok tt, <[p := Dir]> fs)
      | Raise e => (Raise e, fs)
      end
  end.

(** [torch.save(w, p)]: creates or truncates the file [p]. *)
Definition torch_save (w : W) p : M W unit := fun fs =>
  match fs !! p with
  | Some Dir => (Raise IsADirectoryError, fs)
  | _ =>
      match check_parent fs p with
      | Ok _ => (Ok tt, <[p := File (Some w) EmptyString]> fs)
      | Raise e => (Raise e, fs)
      end
  end.

(** [with open(p, 'a') as f: f.write(s)]. *)
Definition append_text p (s : string) : M W unit := fun fs =>
  match fs !! p with
  | Some Dir => (Raise IsADirectoryError, fs)
  | Some (File b t) => (Ok tt, <[p := File b (t ++ s)]> fs)
  | None =>
      match check_parent fs p with
      | Ok _ => (Ok tt, <[p := File None s]> fs)
      | Raise e => (Raise e, fs)
      end
  end.

(** Where a path goes when the directory [src] is renamed to [dst]. *)
Definition move_key (src dst k : string) : string :=
  match strip_prefix src k with
  | Some r =>
      match r with
      | EmptyString => dst
      | String c _ => if Ascii.eqb c slash then dst ++ r else k
      end
  | None => k
  end.

(** [os.rename(src, dst)] (POSIX): a regular file replaces a regular file at
    [dst]; a directory moves with all it contains, to a path that does not
    exist yet or onto an empty directory. *)
Definition os_rename (src dst : string) : M W unit := fun fs =>
  match fs !! src with
  | None => (Raise FileNotFoundError, fs)
  | Some (File b t) =>
      match fs !! dst with
      | Some Dir => (Raise IsADirectoryError, fs)
      | _ =>
          match check_parent fs dst with
          | Ok _ => (Ok tt, <[dst := File b t]> (delete src fs))
          | Raise e => (Raise e, fs)
          end
      end
  | Some Dir =>
      let moved := list_to_map (map (fun kv => (move_key src dst kv.1, kv.2))
                                    (map_to_list (delete dst fs))) in
      match fs !! dst with
      | Some (File _ _) => (Raise NotADirectoryError, fs)
      | Some Dir =>
          match children dst fs with
          | [] => (Ok tt, moved)
          | _ :: _ => (Raise OSError, fs)
          end
      | None =>
          match check_parent fs dst with
          | Ok _ => (Ok tt, moved)
          | Raise e => (Raise e, fs)
          end
      end
  end.

(** A file system is well formed when every node but the root lies in a
    directory that exists. *)
Definition parent_exists fs (k : string) : bool :=
  match split_path k with
  | Some (d, _) => String.eqb d EmptyString || is_dir (fs !! d)
  | None => true
  end.

Definition wf_fs fs : bool :=
  forallb (fun kv => parent_exists fs kv.1) (map_to_list fs).

(** The "best" checkpoint files of a directory: [best.pt] and, after the
    rename, [best_{epoch}_{loss}.pt]; any name that starts with [best]. *)
Definition is_best_file (n : string) : bool :=
  match strip_prefix "best" n with Some _ => true | None => false end.

Definition best_files d fs : list string :=
  List.filter is_best_file (children d fs).

End FileSystem.

(** ** The run-directory allocator

    [traintest.py] lines 56-59 and 61-64 ([train]) and 188-191 ([test]) are
    the same four statements, on [checkpoints] or on [logs]:
<<
    folder = list(map(int, os.listdir(parent)))
    folder = max(folder) + 1 if folder != [] else 0
    os.mkdir(f'{parent}/{folder}', mode=0o777)
    parent = f'{parent}/{folder}'
>> *)

(** [list(map(int, names))]: the first name that is no integer raises. *)
Fixpoint map_int (names : list string) : result (list Z) :=
  match names with
  | [] => Ok []
  | n :: names' =>
      match py_int n with
      | None => Raise ValueError
      | Some z =>
          match map_int names' with
          | Ok zs => Ok (z :: zs)
          | Raise e => Raise e
          end
      end
  end.

(** [max(l)] of a non-empty list of [int]s, from its first element on. *)
Definition py_max (z : Z) (zs : list Z) : Z := fold_left Z.max zs z.

Definition next_id (ids : list Z) : Z :=
  match ids with
  | [] => 0
  | z :: zs => py_max z zs + 1
  end.

Definition alloc_run_dir {W} (parent : string) : M W string :=
  do names <- os_listdir parent;
  do folder <- lift (map_int names);
  let folder := next_id folder in
  do_ os_mkdir (path_join parent (py_str folder));
  ret (path_join parent (py_str folder)).

(** ** The collaborators of the loop

    What [train] and [test] receive and only call: the network with its
    optimizer and scheduler, the loss, the tensors.  [Net] is everything the
    loop mutates through these calls. *)
Class Collaborators : Type := {
  Imgs : Type;
  Labels : Type;
  Preds : Type;
  Net : Type;
  StateDict : Type;
  (** the value of [metric.calc(preds, labels).cpu()] *)
  Scalar : Type;
  (** [F.one_hot(labels, nc).float()] *)
  one_hot_float : Labels -> Labels;
  (** [model(imgs)], after [model.train()] ([true]) or [model.eval()] *)
  forward : bool -> Net -> Imgs -> Preds;
  (** [loss_fn(preds, labels).item()] *)
  loss_item : Preds -> Labels -> float;
  (** [optimizer.zero_grad(); loss.backward(); optimizer.step()] *)
  optim_step : Net -> Imgs -> Labels -> Net;
  (** [scheduler.step()] *)
  sched_step : Net -> Net;
  (** [model.state_dict()] *)
  state_dict : Net -> StateDict;
  (** the [0.0] every accumulator starts from, [+=] on it, and the division
      of [np.array(...)] by a length, which never raises *)
  scalar_zero : Scalar;
  scalar_add : Scalar -> Scalar -> Scalar;
  scalar_div : Scalar -> nat -> Scalar;
  (** the f-string renderings [f'{x}'] of an averaged metric and of a float *)
  scalar_repr : Scalar -> string;
  float_repr : float -> string
}.

(** A metric object: its [calc] and [name] methods. *)
Record Metric `{Collaborators} : Type := {
  calc : Preds -> Labels -> Scalar;
  name : string
}.

Section TrainTest.
Context `{C : Collaborators}.

Abbreviation Batch := (Imgs * Labels)%type.
Abbreviation Eff := (M StateDict).

(** [enumerate(l)] *)
Definition enumerate {A} (l : list A) : list (nat * A) :=
  zip (seq 0 (length l)) l.

(** Lines 89-90, 111-112 and 210-211:
<<
    for mi, metric in enumerate(metrics):
        mvct[mi] += metric.calc(preds, labels).cpu()
>> *)
Definition accumulate_metrics (metrics : list Metric) (preds : Preds)
    (labels : Labels) (mvct : list Scalar) : list Scalar :=
  fold_left
    (fun mvct '(mi, metric) =>
       alter (fun x => scalar_add x (calc metric preds labels)) mi mvct)
    (enumerate metrics) mvct.

(** The state of one pass over a dataloader. *)
Record pass_state : Type := {
  ps_net : Net;
  ps_loss : float;
  ps_mvct : list Scalar
}.

(** Lines 72-76: the accumulators of an epoch start from zero. *)
Definition pass_init (metrics : list Metric) (net : Net) : pass_state :=
  {| ps_net := net; ps_loss := 0%float;
     ps_mvct := replicate (length metrics) scalar_zero |}.

(** Lines 79-96, the body of [for batch in train_dataloader]. *)
Definition train_batch (metrics : list Metric) (one_hot : bool)
    (st : pass_state) (batch : Batch) : pass_state :=
  let '(imgs, labels) := batch in
  let labels := if one_hot then one_hot_float labels else labels in
  let preds := forward true (ps_net st) imgs in
  let loss := loss_item preds labels in
  let mvct := accumulate_metrics metrics preds labels (ps_mvct st) in
  let net := optim_step (ps_net st) imgs labels in
  {| ps_net := net; ps_loss := (ps_loss st + loss)%float; ps_mvct := mvct |}.

(** Lines 101-114 and 200-213, the body of the loops under
    [torch.no_grad()]. *)
Definition eval_batch (metrics : list Metric) (one_hot : bool)
    (st : pass_state) (batch : Batch) : pass_state :=
  let '(imgs, labels) := batch in
  let labels := if one_hot then one_hot_float labels else labels in
  let preds := forward false (ps_net st) imgs in
  let loss := loss_item preds labels in
  let mvct := accumulate_metrics metrics preds labels (ps_mvct st) in
  {| ps_net := ps_net st; ps_loss := (ps_loss st + loss)%float; ps_mvct := mvct |}.

Definition train_pass (metrics : list Metric) (one_hot : bool)
    (dl : list Batch) (net : Net) : pass_state :=
  fold_left (train_batch metrics one_hot) dl (pass_init metrics net).

Definition eval_pass (metrics : list Metric) (one_hot : bool)
    (dl : list Batch) (net : Net) : pass_state :=
  fold_left (eval_batch metrics one_hot) dl (pass_init metrics net).

(** *** Per-batch values and their average

    The values [f(preds, labels)] of the batches of a pass, in the order of
    the dataloader; in a training pass every batch sees the network the
    previous batches left. *)
Fixpoint train_values {X} (f : Preds -> Labels -> X) (one_hot : bool)
    (dl : list Batch) (net : Net) : list X :=
  match dl with
  | [] => []
  | (imgs, labels) :: dl' =>
      let labels := if one_hot then one_hot_float labels else labels in
      f (forward true net imgs) labels
        :: train_values f one_hot dl' (optim_step net imgs labels)
  end.

Definition eval_values {X} (f : Preds -> Labels -> X) (one_hot : bool)
    (dl : list Batch) (net : Net) : list X :=
  map (fun batch : Batch =>
         let labels := if one_hot then one_hot_float batch.2 else batch.2 in
         f (forward false net batch.1) labels) dl.

(** The sum over the batches, from zero on, divided by their number. *)
Definition float_mean (l : list float) : float :=
  (fold_left PrimFloat.add l 0 / float_of_nat (length l))%float.

Definition scalar_mean (l : list Scalar) : Scalar :=
  scalar_div (fold_left scalar_add l scalar_zero) (length l).

(** [np.array(mvct) / len(dataloader)] *)
Definition average_metrics (mvct : list Scalar) (n : nat) : list Scalar :=
  map (fun x => scalar_div x n) mvct.

(** Lines 136-138: [train_str]. *)
Definition train_str (names : list string) (mvct : list Scalar) : string :=
  fold_left
    (fun acc '(i, metric) =>
       acc ++ "train_" ++ default EmptyString (names !! i) ++ ": " ++ scalar_repr metric ++ " ")
    (enumerate mvct) EmptyString.

(** Lines 141-146 ([prefix] is ["valid_"]) and 219-223 ([prefix] is empty):
    the last metric ends the line. *)
Definition last_str (prefix : string) (names : list string)
    (mvct : list Scalar) : string :=
  fold_left
    (fun acc '(i, metric) =>
       if bool_decide (i ≠ (length mvct - 1)%nat)
       then acc ++ prefix ++ default EmptyString (names !! i) ++ ": " ++ scalar_repr metric ++ " "
       else acc ++ prefix ++ default EmptyString (names !! i) ++ ": " ++ scalar_repr metric
                ++ String (ascii_of_nat 10) EmptyString)
    (enumerate mvct) EmptyString.

(** Line 151: the record of one epoch. *)
Definition epoch_line (epoch epochs : Z) (train_loss valid_loss : float)
    (names : list string) (train_mvct valid_mvct : list Scalar) : string :=
  "epoch: " ++ py_str (epoch + 1) ++ "/" ++ py_str epochs
    ++ " train loss: " ++ float_repr train_loss
    ++ " valid loss: " ++ float_repr valid_loss ++ " "
    ++ train_str names train_mvct ++ last_str "valid_" names valid_mvct.

(** Line 226. *)
Definition test_line (test_loss : float) (names : list string)
    (test_mvct : list Scalar) : string :=
  "test loss: " ++ float_repr test_loss ++ " " ++ last_str EmptyString names test_mvct.

(** The local variables of [train] that live across epochs. *)
Record loop_state : Type := {
  ls_net : Net;
  best_loss : float;
  best_epoch : Z
}.

(** Lines 67-68. *)
Definition loop_init (model : Net) : loop_state :=
  {| ls_net := model; best_loss := 99999999.0%float; best_epoch := 0 |}.

Definition plan_name (epoch : Z) (valid_loss : float) : string :=
  "plan_" ++ py_str epoch ++ "_" ++ fmt_2f valid_loss ++ ".pt".

Definition best_name (epoch : Z) (loss : float) : string :=
  "best_" ++ py_str epoch ++ "_" ++ fmt_2f loss ++ ".pt".

Section Loop.
Variables (train_dataloader valid_dataloader : list Batch).
Variables (metrics : list Metric) (epochs : Z).
Variables (checkpoints logs : string).
Variables (save_every : Z) (one_hot : bool).

(** Lines 71-154, the body of [for epoch in tqdm_iter]; [checkpoints] and
    [logs] are the run directories here.  The progress bar is display
    only. *)
Definition epoch_body (st : loop_state) (epoch : Z) : Eff loop_state :=
  let metric_names := map name metrics in
  let tp := train_pass metrics one_hot train_dataloader (ls_net st) in
  let vp := eval_pass metrics one_hot valid_dataloader (ps_net tp) in
  let net := ps_net tp in
  let train_mvct := average_metrics (ps_mvct tp) (length train_dataloader) in
  let valid_mvct := average_metrics (ps_mvct vp) (length valid_dataloader) in
  do train_loss <- lift (py_truediv (ps_loss tp) (length train_dataloader));
  do valid_loss <- lift (py_truediv (ps_loss vp) (length valid_dataloader));
  do r <- lift (py_mod epoch save_every);
  do_ (if (r =? 0) || (epoch =? epochs - 1)
       then torch_save (state_dict net)
              (checkpoints ++ "/" ++ plan_name epoch valid_loss)
       else ret tt);
  do best <- (if flt valid_loss (best_loss st)
              then do_ torch_save (state_dict net) (checkpoints ++ "/best.pt");
                   ret (valid_loss, epoch)
              else ret (best_loss st, best_epoch st));
  do_ append_text (logs ++ "/trainval.log")
        (epoch_line epoch epochs train_loss valid_loss metric_names
           train_mvct valid_mvct);
  ret {| ls_net := sched_step net; best_loss := best.1; best_epoch := best.2 |}.

(** [range(epochs)] *)
Definition py_range (n : Z) : list Z := seqZ 0 n.

(** Lines 66-155, in the run directories. *)
Definition train_loop (model : Net) : Eff unit :=
  do st <- for_each (py_range epochs) epoch_body (loop_init model);
  os_rename (checkpoints ++ "/best.pt")
    (checkpoints ++ "/" ++ best_name (best_epoch st) (best_loss st)).

(** *** Quantities of a run

    What the statements about a run speak of: the loop after its first
    [n] iterations, the network of every epoch, the averaged losses, the
    running best. *)

(** The first [n] iterations of the epoch loop. *)
Definition epochs_prefix (n : nat) (model : Net) : Eff loop_state :=
  for_each (py_range (Z.of_nat n)) epoch_body (loop_init model).

(** The network at the start of epoch [e]. *)
Fixpoint net_at (model : Net) (e : nat) : Net :=
  match e with
  | O => model
  | S e' => sched_step
              (ps_net (train_pass metrics one_hot train_dataloader (net_at model e')))
  end.

(** The two passes of epoch [e]. *)
Definition train_pass_at (model : Net) (e : nat) : pass_state :=
  train_pass metrics one_hot train_dataloader (net_at model e).

Definition valid_pass_at (model : Net) (e : nat) : pass_state :=
  eval_pass metrics one_hot valid_dataloader (ps_net (train_pass_at model e)).

(** The weights every checkpoint of epoch [e] holds. *)
Definition weights_at (model : Net) (e : nat) : StateDict :=
  state_dict (ps_net (train_pass_at model e)).

Definition train_loss_at (model : Net) (e : nat) : float :=
  (ps_loss (train_pass_at model e) / float_of_nat (length train_dataloader))%float.

Definition valid_loss_at (model : Net) (e : nat) : float :=
  (ps_loss (valid_pass_at model e) / float_of_nat (length valid_dataloader))%float.

(** The condition of line 121. *)
Definition save_due (epoch : Z) : bool :=
  (epoch mod save_every =? 0) || (epoch =? epochs - 1).

(** [best_loss] and [best_epoch] after [n] epochs. *)
Fixpoint best_after (model : Net) (n : nat) : float * Z :=
  match n with
  | O => (99999999.0%float, 0)
  | S n' =>
      if flt (valid_loss_at model n') (best_after model n').1
      then (valid_loss_at model n', Z.of_nat n')
      else best_after model n'
  end.

(** The record of epoch [e]. *)
Definition line_at (model : Net) (e : nat) : string :=
  epoch_line (Z.of_nat e) epochs (train_loss_at model e) (valid_loss_at model e)
    (map name metrics)
    (average_metrics (ps_mvct (train_pass_at model e)) (length train_dataloader))
    (average_metrics (ps_mvct (valid_pass_at model e)) (length valid_dataloader)).

(** The record of epoch [e], were every logged value the average over
    the batches of that epoch. *)
Definition mean_line (model : Net) (e : nat) : string :=
  let net := net_at model e in
  let net' := ps_net (train_pass_at model e) in
  epoch_line (Z.of_nat e) epochs
    (float_mean (train_values loss_item one_hot train_dataloader net))
    (float_mean (eval_values loss_item one_hot valid_dataloader net'))
    (map name metrics)
    (map (fun m => scalar_mean (train_values (calc m) one_hot train_dataloader net))
         metrics)
    (map (fun m => scalar_mean (eval_values (calc m) one_hot valid_dataloader net'))
         metrics).

Fixpoint mean_log (model : Net) (n : nat) : string :=
  match n with
  | O => EmptyString
  | S n' => mean_log model n' ++ mean_line model n'
  end.

(** The log after [n] epochs. *)
Fixpoint log_after (model : Net) (n : nat) : string :=
  match n with
  | O => EmptyString
  | S n' => log_after model n' ++ line_at model n'
  end.

(** The file system after [n] epochs that did not raise. *)
Fixpoint fs_after (model : Net) (fs : gmap string (node StateDict)) (n : nat)
    : gmap string (node StateDict) :=
  match n with
  | O => fs
  | S n' =>
      let f := fs_after model fs n' in
      let e := Z.of_nat n' in
      let f1 := if save_due e
                then <[checkpoints ++ "/" ++ plan_name e (valid_loss_at model n')
                       := File (Some (weights_at model n')) EmptyString]> f
                else f in
      let f2 := if flt (valid_loss_at model n') (best_after model n').1
                then <[checkpoints ++ "/best.pt"
                       := File (Some (weights_at model n')) EmptyString]> f1
                else f1 in
      <[logs ++ "/trainval.log" := File None (log_after model (S n'))]> f2
  end.

(** The epoch of the minimum among the validation losses of the first
    [n] epochs: its loss is below the initial [best_loss], no loss is
    below it, and no earlier loss is as low. *)
Definition first_min (model : Net) (n : nat) (b : nat) : Prop :=
  (b < n)%nat /\
  flt (valid_loss_at model b) 99999999.0%float = true /\
  (forall k, (k < n)%nat ->
             flt (valid_loss_at model k) (valid_loss_at model b) = false) /\
  (forall j, (j < b)%nat ->
             fle (valid_loss_at model j) (valid_loss_at model b) = false).

(** The run directories right after their allocation: they exist, and
    hold nothing but, possibly, other run directories (entries with an
    integer name). *)
Definition fresh_run (fs : gmap string (node StateDict)) : Prop :=
  fs !! checkpoints = Some Dir /\
  fs !! logs = Some Dir /\
  (forall n, has_slash n = false -> py_int n = None ->
             fs !! (checkpoints ++ "/" ++ n) = None /\
             fs !! (logs ++ "/" ++ n) = None).
End Loop.

(** [train] (lines 8-155); [device] only places tensors, [nc] is the
    argument of [one_hot_float]. *)
Definition train (train_dataloader valid_dataloader : list Batch) (model : Net)
    (metrics : list Metric) (epochs : Z) (checkpoints logs : string)
    (save_every : Z) (one_hot : bool) : Eff unit :=
  do checkpoints <- alloc_run_dir checkpoints;
  do logs <- alloc_run_dir logs;
  train_loop train_dataloader valid_dataloader metrics epochs checkpoints logs
    save_every one_hot model.

(** [test] (lines 158-228). *)
Definition test (test_dataloader : list Batch) (model : Net)
    (metrics : list Metric) (logs : string) (one_hot : bool) : Eff string :=
  do logs <- alloc_run_dir logs;
  let metric_names := map name metrics in
  let tp := eval_pass metrics one_hot test_dataloader model in
  let test_mvct := average_metrics (ps_mvct tp) (length test_dataloader) in
  do test_loss <- lift (py_truediv (ps_loss tp) (length test_dataloader));
  do_ append_text (logs ++ "/test.log") (test_line test_loss metric_names test_mvct);
  ret logs.

End TrainTest.

(** ** Tensors, as far as [accuracy.calc] uses them *)

(** The element types: [torch.int64], [torch.float32] and [torch.float64]. *)
Inductive scalar_type : Type := Int64 | Float32 | Float64.

Definition scalar_type_eqb (a b : scalar_type) : bool :=
  match a, b with
  | Int64, Int64 | Float32, Float32 | Float64, Float64 => true
  | _, _ => false
  end.

Definition is_floating (dt : scalar_type) : bool :=
  match dt with Int64 => false | _ => true end.

(** An element: an integer, or a floating-point number in the format of its
    tensor. *)
Inductive elt : Type :=
| EInt (z : Z)
| EFloat (f : spec_float).

(** A tensor: the type of its elements, its shape and its elements in
    row-major order. *)
Record tensor : Type := {
  dtype : scalar_type;
  shape : list nat;
  data : list elt
}.

(** The precision and the exponent bound of a floating type. *)
Definition float_format (dt : scalar_type) : Z * Z :=
  match dt with Float64 => (53, 1024) | _ => (24, 128) end.

(** The conversion of an integer and of a floating-point number to a floating
    type: to the nearest number of the format, ties to even. *)
Definition round_Z (dt : scalar_type) (z : Z) : spec_float :=
  binary_normalize (float_format dt).1 (float_format dt).2 z 0 false.

Definition round_SF (dt : scalar_type) (f : spec_float) : spec_float :=
  match f with
  | S754_finite s m e =>
      binary_normalize (float_format dt).1 (float_format dt).2
        (if s then Z.neg m else Z.pos m) e s
  | _ => f
  end.

(** The conversion of an element to a floating type ([accuracy.calc] never
    converts to [torch.int64]). *)
Definition cast (dt : scalar_type) (x : elt) : elt :=
  match dt, x with
  | Int64, _ => x
  | _, EInt z => EFloat (round_Z dt z)
  | _, EFloat f => EFloat (round_SF dt f)
  end.

(** [t.to(dt)]: a tensor that has the type already is returned as it is. *)
Definition as_type (dt : scalar_type) (t : tensor) : tensor :=
  if scalar_type_eqb (dtype t) dt then t
  else {| dtype := dt; shape := shape t; data := map (cast dt) (data t) |}.

(** [t.float()] *)
Definition to_float (t : tensor) : tensor := as_type Float32 t.

Definition sf_is_nan (f : spec_float) : bool :=
  match f with S754_nan => true | _ => false end.

(** [x == y] on two elements of one type. *)
Definition elt_eqb (x y : elt) : bool :=
  match x, y with
  | EInt a, EInt b => a =? b
  | EFloat f, EFloat g => SFeqb f g
  | _, _ => false
  end.

(** [x] replaces the running maximum [y]: it is greater, or it is the first
    NaN. *)
Definition elt_gt (x y : elt) : bool :=
  match x, y with
  | EInt a, EInt b => b <? a
  | EFloat f, EFloat g => SFltb g f || sf_is_nan f && negb (sf_is_nan g)
  | _, _ => false
  end.

(** The number of elements of a shape. *)
Definition numel (s : list nat) : nat := fold_left Nat.mul s 1%nat.

(** The index of the first maximum of [x :: l]. *)
Definition argmax_list (x : elt) (l : list elt) : Z :=
  (fold_left
     (fun '(bi, bv, i) y => if elt_gt y bv then (i, y, i + 1) else (bi, bv, i + 1))
     l (0, x, 1)).1.1.

(** [t.argmax(dim=1)]: axis 1 must exist and be non-empty; the indices are of
    [torch.int64]. *)
Definition argmax_dim1 (t : tensor) : result tensor :=
  match shape t with
  | d0 :: d1 :: rest =>
      if (d1 =? 0)%nat then Raise IndexError
      else
        let inner := numel rest in
        let at_ (i j r : nat) := nth ((i * d1 + j) * inner + r) (data t) (EInt 0) in
        Ok {| dtype := Int64;
              shape := d0 :: rest;
              data := flat_map
                        (fun i => map (fun r => EInt (argmax_list (at_ i 0%nat r)
                                               (map (fun j => at_ i j r) (seq 1 (d1 - 1)))))
                                    (seq 0 inner))
                        (seq 0 d0) |}
  | _ => Raise IndexError
  end.

(** [t.unsqueeze(1)] *)
Definition unsqueeze1 (t : tensor) : result tensor :=
  match shape t with
  | d0 :: rest => Ok {| dtype := dtype t; shape := d0 :: 1%nat :: rest; data := data t |}
  | [] => Raise IndexError
  end.

(** Broadcasting of two shapes, both given from the last axis on. *)
Fixpoint broadcast_rev (a b : list nat) : option (list nat) :=
  match a, b with
  | [], _ => Some b
  | _, [] => Some a
  | x :: a', y :: b' =>
      if (x =? y)%nat then cons x <$> broadcast_rev a' b'
      else if (x =? 1)%nat then cons y <$> broadcast_rev a' b'
      else if (y =? 1)%nat then cons x <$> broadcast_rev a' b'
      else None
  end.

Definition broadcast_shape (a b : list nat) : option (list nat) :=
  match broadcast_rev (rev a) (rev b) with
  | Some s => Some (rev s)
  | None => None
  end.

(** The elements of a tensor of shape [src] seen at shape [tgt]: an axis of
    size one is repeated. *)
Fixpoint expand_data (src tgt : list nat) (l : list elt) : list elt :=
  match src, tgt with
  | d :: src', t :: tgt' =>
      let inner := numel src' in
      if (d =? t)%nat
      then flat_map (fun i => expand_data src' tgt' (take inner (drop (i * inner) l)))
                    (seq 0 d)
      else flat_map (fun _ => expand_data src' tgt' l) (seq 0 t)
  | _, _ => l
  end.

Definition expand (t : tensor) (tgt : list nat) : list elt :=
  expand_data (replicate (length tgt - length (shape t)) 1%nat ++ shape t) tgt (data t).

(** The type at which two tensors are compared: a floating type wins over
    [torch.int64], and a tensor without axes gives way to a tensor with axes
    unless it alone is floating. *)
Definition promote (a b : scalar_type) : scalar_type :=
  match a, b with
  | Float64, _ | _, Float64 => Float64
  | Float32, _ | _, Float32 => Float32
  | Int64, Int64 => Int64
  end.

Definition result_type (a b : tensor) : scalar_type :=
  match shape a, shape b with
  | [], [] | _ :: _, _ :: _ => promote (dtype a) (dtype b)
  | _ :: _, [] =>
      if is_floating (dtype a) || negb (is_floating (dtype b)) then dtype a else dtype b
  | [], _ :: _ =>
      if is_floating (dtype b) || negb (is_floating (dtype a)) then dtype b else dtype a
  end.

(** The number of positions at which two lists of elements are equal. *)
Definition count_equal (l1 l2 : list elt) : nat :=
  length (filter (fun b : bool => b = true) (zip_with elt_eqb l1 l2)).

(** [(a == b).sum()]: the number of equal entries after the conversion to the
    common type and broadcasting. *)
Definition eq_sum (a b : tensor) : result nat :=
  match broadcast_shape (shape a) (shape b) with
  | Some s =>
      let dt := result_type a b in
      Ok (count_equal (expand (as_type dt a) s) (expand (as_type dt b) s))
  | None => Raise RuntimeError
  end.

Definition rbind {A B} (r : result A) (k : A -> result B) : result B :=
  match r with Ok a => k a | Raise e => Raise e end.

Notation "'try' x <- m ; k" := (rbind m (fun x => k))
  (at level 10, x pattern, m at level 100, k at level 200).

(** [t[i]] on a tuple *)
Definition py_index {A} (l : list A) (i : nat) : result A :=
  match l !! i with Some x => Ok x | None => Raise IndexError end.

(** ** The accuracy metric ([opennn/metrics/accuracy.py]) *)

Module accuracy.

(** The quotient of the last line is a tensor of [torch.float32]: the count
    and [np] are converted to that type and divided in it (the division of
    IEEE 754, as on the CPU). *)
Definition calc (preds labels : tensor) : result spec_float :=
  let np := 1%nat in
  let shapes := shape preds in
  try preds <-
    (if (length shapes =? length (shape labels))%nat
     then try s1 <- py_index shapes 1;
          try l1 <- py_index (shape labels) 1;
          if negb (s1 =? l1)%nat
          then try a <- argmax_dim1 preds; unsqueeze1 a
          else Ok preds
     else if (length (shape labels) <? length shapes)%nat
          then argmax_dim1 preds
          else Ok preds);
  try pl <-
    (if (length (shape labels) =? 2)%nat
     then try p <- argmax_dim1 preds;
          try l <- argmax_dim1 labels;
          Ok (to_float p, to_float l)
     else Ok (preds, labels));
  let '(preds, labels) := pl in
  let np := fold_left (fun np shape => (np * shape)%nat) (shape labels) np in
  try s <- eq_sum preds labels;
  Ok (SFdiv 24 128 (round_Z Float32 (Z.of_nat s)) (round_Z Float32 (Z.of_nat np))).

Definition name : string := "accuracy".

End accuracy.

(** ** What the arg-max and a well-formed tensor are *)

(** [x] is below [y]: smaller, or [y] is NaN and [x] is not. *)
Definition below (x y : elt) : Prop :=
  match x, y with
  | EInt a, EInt b => a < b
  | EFloat f, EFloat g => SFcompare f g = Some Lt \/ (g = S754_nan /\ f <> S754_nan)
  | _, _ => False
  end.

(** Two elements are both integers or both floating-point numbers. *)
Definition same_kind (x y : elt) : Prop :=
  match x, y with
  | EInt _, EInt _ | EFloat _, EFloat _ => True
  | _, _ => False
  end.

(** [j] is the index of the first greatest element of [row]. *)
Definition is_argmax (row : list elt) (j : nat) : Prop :=
  exists x, row !! j = Some x /\
    (forall k y, row !! k = Some y -> ~ below x y) /\
    (forall k y, (k < j)%nat -> row !! k = Some y -> below y x).

(** The slice of a tensor along axis 1 of size [d1], at the row [i] and the
    position [r] of the [inner] positions of the later axes. *)
Definition slice1 (t : tensor) (d1 inner i r : nat) : list elt :=
  map (fun j => nth ((i * d1 + j) * inner + r)%nat (data t) (EInt 0)) (seq 0 d1).

(** An element of the type [dt]: an integer of 64 bits, or a number of the
    floating format. *)
Definition elt_of (dt : scalar_type) (x : elt) : bool :=
  match dt, x with
  | Int64, EInt z => (- 2 ^ 63 <=? z) && (z <? 2 ^ 63)
  | Float32, EFloat f => SpecFloat.valid_binary 24 128 f
  | Float64, EFloat f => SpecFloat.valid_binary 53 1024 f
  | _, _ => false
  end.

(** A tensor has as many elements as its shape says, all of its type. *)
Definition wf_tensor (t : tensor) : bool :=
  (length (data t) =? numel (shape t))%nat && forallb (elt_of (dtype t)) (data t).


(** ** Concrete inputs *)

(** A network that replays a table of losses: the network is the number of
    scheduler steps taken so far, and its loss on any batch is the entry of
    the table at that number.  With one batch per dataloader, the validation
    loss of epoch [e] is the [e]-th entry. *)
Definition replay (table : list float) : Collaborators :=
  {| Imgs := unit; Labels := unit; Preds := nat; Net := nat; StateDict := nat;
     Scalar := float;
     one_hot_float := fun l => l;
     forward := fun _ net _ => net;
     loss_item := fun p _ => nth p table 0%float;
     optim_step := fun net _ _ => net;
     sched_step := S;
     state_dict := fun net => net;
     scalar_zero := 0%float;
     scalar_add := PrimFloat.add;
     scalar_div := fun x n => (x / float_of_nat n)%float;
     scalar_repr := fmt_2f;
     float_repr := fmt_2f |}.

(** A metric of [replay]: the number of the network. *)
Definition steps_metric (table : list float) : @Metric (replay table) :=
  {| calc := fun (p : @Preds (replay table)) _ => float_of_nat p; name := "steps" |}.

(** Two empty parent directories. *)
Definition fs_empty_parents {W} : gmap string (node W) :=
  <["ck" := Dir]> (<["lg" := Dir]> ∅).

(** A parent directory with the runs 0 and 1, the second with a checkpoint. *)
Definition fs_two_runs {W} : gmap string (node W) :=
  <["ck" := Dir]> (<["ck/0" := Dir]> (<["ck/1" := Dir]>
    (<["ck/1/best_0_0.10.pt" := File None EmptyString]> (<["lg" := Dir]> ∅)))).


(** A number of [torch.float32] from a literal. *)
Definition f32 (x : float) : elt := EFloat (round_SF Float32 (Prim2SF x)).

(** The predictions [[0.1, 0.9], [0.8, 0.2]] and the labels [1, 0]. *)
Definition ex_preds : tensor :=
  {| dtype := Float32; shape := [2; 2]%nat;
     data := [f32 0.1; f32 0.9; f32 0.8; f32 0.2] |}.

Definition ex_labels : tensor :=
  {| dtype := Int64; shape := [2]%nat; data := [EInt 1; EInt 0] |}.

(** The same labels, one-hot. *)
Definition ex_one_hot : tensor :=
  {| dtype := Float32; shape := [2; 2]%nat;
     data := [f32 0; f32 1; f32 1; f32 0] |}.

(** Three rows of predictions over three classes, whose greatest entries are
    at the classes 2, 0 and 1, and the labels [2, 1, 0]: one row of three is
    right. *)
Definition ex_preds3 : tensor :=
  {| dtype := Float32; shape := [3; 3]%nat;
     data := [f32 0.1; f32 0.2; f32 0.7;
              f32 0.5; f32 0.25; f32 0.25;
              f32 0.3; f32 0.4; f32 0.3] |}.


(** Numbers of [torch.float32]: 1, 1/3 and 2/3 rounded, 1/2 and 0. *)
Definition f32_one : spec_float := S754_finite false 8388608 (-23).
Definition f32_third : spec_float := S754_finite false 11184811 (-25).
Definition f32_two_thirds : spec_float := S754_finite false 11184811 (-24).
Definition f32_zero : spec_float := S754_zero false.

(** The tables of two runs of [replay]: the validation losses 0.5, 0.3 and
    0.4 of three epochs, and one epoch whose loss is not below the initial
    [best_loss]. *)
Definition demo_table : list float := [0.5; 0.3; 0.4]%float.
Definition high_table : list float := [100000000.0]%float.

(** A dataloader of one batch. *)
Definition one_batch (table : list float)
    : list (@Imgs (replay table) * @Labels (replay table)) :=
  [(tt, tt)].

(** [fs_empty_parents] after the allocation of the run directories. *)
Definition fs_ck0 {W} : gmap string (node W) := <["ck/0" := Dir]> fs_empty_parents.
Definition fs_ck0_lg0 {W} : gmap string (node W) := <["lg/0" := Dir]> fs_ck0.

(** Three epochs, a periodic checkpoint every second epoch. *)
Definition demo_train : result unit * gmap string (node nat) :=
  train (C := replay demo_table) (one_batch demo_table) (one_batch demo_table) 0%nat
    [steps_metric demo_table] 3 "ck" "lg" 2 false fs_empty_parents.

(** One epoch whose validation loss is 100000000.0. *)
Definition high_train : result unit * gmap string (node nat) :=
  train (C := replay high_table) (one_batch high_table) (one_batch high_table) 0%nat
    [] 1 "ck" "lg" 1 false fs_empty_parents.

(** No epoch and no batch. *)
Definition idle_train : result unit * gmap string (node nat) :=
  train (C := replay []) [] [] 0%nat [] 0 "ck" "lg" 1 false fs_empty_parents.

(** A network whose loss on a batch is the number the batch carries as its
    images, with the metric [twice], twice that number; three training
    batches of the losses 0.5, 0.25 and 0.75, two validation batches of the
    losses 1 and 2, and one epoch over them. *)
Definition per_batch : Collaborators :=
  {| Imgs := float; Labels := unit; Preds := float; Net := nat; StateDict := nat;
     Scalar := float;
     one_hot_float := fun l => l;
     forward := fun _ _ imgs => imgs;
     loss_item := fun p _ => p;
     optim_step := fun net _ _ => net;
     sched_step := S;
     state_dict := fun net => net;
     scalar_zero := 0%float;
     scalar_add := PrimFloat.add;
     scalar_div := fun x n => (x / float_of_nat n)%float;
     scalar_repr := fmt_2f;
     float_repr := fmt_2f |}.

Definition twice : @Metric per_batch :=
  {| calc := fun (p : @Preds per_batch) _ => (p + p)%float; name := "twice" |}.

Definition three_batches : list (@Imgs per_batch * @Labels per_batch) :=
  [(0.5%float, tt); (0.25%float, tt); (0.75%float, tt)].

Definition two_batches : list (@Imgs per_batch * @Labels per_batch) :=
  [(1%float, tt); (2%float, tt)].

Definition batches_train : result unit * gmap string (node nat) :=
  train (C := per_batch) three_batches two_batches 0%nat [twice] 1 "ck" "lg" 1 false
    fs_empty_parents.

(** One epoch and no batch. *)
Definition empty_train : result unit * gmap string (node nat) :=
  train (C := replay []) [] [] 0%nat [] 1 "ck" "lg" 1 false fs_empty_parents.

(** A parent directory whose runs are not numbered from zero on: the runs
    0 and 5 and a run that was named [007] by hand. *)
Definition fs_gaps {W} : gmap string (node W) :=
  <["lg" := Dir]> (<["lg/0" := Dir]> (<["lg/5" := Dir]> (<["lg/007" := Dir]> ∅))).

(** The record [test] writes, every value an average over the batches. *)
Definition test_record `{C : Collaborators} (dl : list (Imgs * Labels)) (model : Net)
    (metrics : list Metric) (one_hot : bool) : string :=
  test_line (float_mean (eval_values loss_item one_hot dl model))
    (map name metrics)
    (map (fun m => scalar_mean (eval_values (calc m) one_hot dl model)) metrics).

(** The class indices [0, 0] as a column of shape [2, 1], and the one-hot
    labels of three classes for the classes 2 and 0. *)
Definition ex_column : tensor :=
  {| dtype := Int64; shape := [2; 1]%nat; data := [EInt 0; EInt 0] |}.

Definition ex_one_hot3 : tensor :=
  {| dtype := Float32; shape := [2; 3]%nat;
     data := [f32 0; f32 0; f32 1; f32 1; f32 0; f32 0] |}.

(** Class indices as predictions, of the shape of [ex_labels]. *)
Definition ex_classes : tensor :=
  {| dtype := Int64; shape := [2]%nat; data := [EInt 1; EInt 0] |}.

(** The one-hot labels of the classes 2, 1 and 0, for [ex_preds3]. *)
Definition ex_one_hot33 : tensor :=
  {| dtype := Float32; shape := [3; 3]%nat;
     data := [f32 0; f32 0; f32 1;
              f32 0; f32 1; f32 0;
              f32 1; f32 0; f32 0] |}.

(** Predictions [[0.9, 0.1], [0.2, 0.8], [0.6, 0.4]] over two classes against
    the one-hot labels of three classes for the classes 0, 2 and 0. *)
Definition ex_preds32 : tensor :=
  {| dtype := Float32; shape := [3; 2]%nat;
     data := [f32 0.9; f32 0.1; f32 0.2; f32 0.8; f32 0.6; f32 0.4] |}.

Definition ex_labels_0_2_0 : tensor :=
  {| dtype := Float32; shape := [3; 3]%nat;
     data := [f32 1; f32 0; f32 0;
              f32 0; f32 0; f32 1;
              f32 1; f32 0; f32 0] |}.



(** Two epochs of [replay], the validation loss of the second being a NaN
    (a diverged run). *)
Definition nan_table : list float := [0.5; PrimFloat.nan]%float.

(** One metric of a record: [f'{prefix}{name}: {value}']. *)
Definition metric_entry `{C : Collaborators} (prefix name : string) (v : Scalar)
    : string :=
  prefix ++ name ++ ": " ++ scalar_repr v.

(** ** YAML documents and Python's conversions

    What [yaml.safe_load] returns, as far as [run.py] and
    [datasets/custom.py] look at it.  A mapping keeps its entries in the
    order of the document. *)
Set Warnings "-register-all".
Inductive yaml : Type :=
| YNull
| YBool (b : bool)
| YInt (z : Z)
| YFloat (f : float)
| YStr (s : string)
| YList (l : list yaml)
| YDict (d : list (yaml * yaml)).

(** The exceptions of these modules: those of [exn] and three more. *)
Inductive py_exn : Type :=
| Exn (e : exn)
| TypeError
| OverflowError
| KeyError (key : string)
| AttributeError.

Inductive outcome (A : Type) : Type :=
| Done (a : A)
| Raises (e : py_exn).
Arguments Done {A} a.
Arguments Raises {A} e.

Definition obind {A B} (r : outcome A) (k : A -> outcome B) : outcome B :=
  match r with Done a => k a | Raises e => Raises e end.

Notation "'get' x <- m ; k" := (obind m (fun x => k))
  (at level 10, x pattern, m at level 100, k at level 200).

Definition of_result {A} (r : result A) : outcome A :=
  match r with Ok a => Done a | Raise e => Raises (Exn e) end.

(** [k == s] for a key [k] and a string literal [s]. *)
Definition key_is (k : yaml) (s : string) : bool :=
  match k with YStr t => String.eqb t s | _ => false end.

(** The value of the key [k] in a mapping, if it has that key. *)
Fixpoint dict_get (d : list (yaml * yaml)) (k : string) : option yaml :=
  match d with
  | [] => None
  | (k', v) :: d' => if key_is k' k then Some v else dict_get d' k
  end.

(** [k in d.keys()] *)
Definition dict_has (d : list (yaml * yaml)) (k : string) : bool :=
  match dict_get d k with Some _ => true | None => false end.

(** [d[k]] on a mapping. *)
Definition dict_getitem (d : list (yaml * yaml)) (k : string) : outcome yaml :=
  match dict_get d k with Some v => Done v | None => Raises (KeyError k) end.

(** [v[k]] for a string [k], on whatever was loaded: only a mapping can be
    indexed by a string. *)
Definition yaml_getitem (v : yaml) (k : string) : outcome yaml :=
  match v with
  | YDict d => dict_getitem d k
  | _ => Raises TypeError
  end.

(** The truth value of [v] in a condition. *)
Definition truthy (v : yaml) : bool :=
  match v with
  | YNull => false
  | YBool b => b
  | YInt z => negb (z =? 0)
  | YFloat f => negb (PrimFloat.eqb f 0%float)
  | YStr s => negb (String.eqb s EmptyString)
  | YList l => match l with [] => false | _ => true end
  | YDict d => match d with [] => false | _ => true end
  end.

(** [int(f)] for a float: truncation toward zero. *)
Definition float_trunc (f : float) : outcome Z :=
  match Prim2SF f with
  | S754_nan => Raises (Exn ValueError)
  | S754_infinity _ => Raises OverflowError
  | S754_zero _ => Done 0
  | S754_finite s m e =>
      let a := if 0 <=? e then Zpos m * 2 ^ e else Zpos m / 2 ^ (- e) in
      Done (if s then - a else a)
  end.

(** [int(v)] *)
Definition yaml_int (v : yaml) : outcome Z :=
  match v with
  | YBool b => Done (if b then 1 else 0)
  | YInt z => Done z
  | YFloat f => float_trunc f
  | YStr s => match py_int s with Some z => Done z | None => Raises (Exn ValueError) end
  | YNull | YList _ | YDict _ => Raises TypeError
  end.

(** [l[i]] on a list, for any [int]: a negative index counts from the
    end. *)
Definition list_getitem {A} (l : list A) (i : Z) : outcome A :=
  let n := Z.of_nat (length l) in
  let j := if i <? 0 then i + n else i in
  if (j <? 0) || (n <=? j) then Raises (Exn IndexError)
  else match l !! Z.to_nat j with
       | Some x => Done x
       | None => Raises (Exn IndexError)
       end.

(** ** [run.py]: the list of transforms *)

(** The two transforms [transforms_lst] builds: [transforms.ToTensor()] and
    [transforms.Resize((h, w))]. *)
Inductive transform : Type :=
| ToTensor
| Resize (h w : Z).

(** Lines 37-44, the loop over the keys of the mapping. *)
Fixpoint transforms_loop (transform_config : list (yaml * yaml)) (keys : list yaml)
    (lst : list transform) : outcome (list transform) :=
  match keys with
  | [] => Done lst
  | el :: keys' =>
      get is_tensor <-
        (if key_is el "tensor"
         then get v <- dict_getitem transform_config "tensor"; Done (truthy v)
         else Done false);
      if is_tensor
      then transforms_loop transform_config keys' (lst ++ [ToTensor])
      else if key_is el "resize"
           then get v <- dict_getitem transform_config "resize";
                get size <- yaml_int v;
                transforms_loop transform_config keys' (lst ++ [Resize size size])
           else Raises (Exn ValueError)
  end.

(** [transforms_lst] (lines 27-45); only a mapping has [keys()]. *)
Definition transforms_lst (transform_config : yaml) : outcome (list transform) :=
  match transform_config with
  | YDict d => transforms_loop d (map fst d) []
  | _ => Raises AttributeError
  end.

(** ** [datasets/custom.py]: the dataset of a directory of images *)

Module custom.
Section CustomDataset.
Context {W : Type}.
(** The collaborators: the transform object, PIL's image and
  [Image.open] on the content of a file, the call of the transform
  followed by [.float()], and [yaml.safe_load] on the content of a
  file. *)
Variables (Transform Image Sample : Type).
Variable image_open : option W -> string -> outcome Image.
Variable apply_transform : Transform -> Image -> outcome Sample.
Variable safe_load : option W -> string -> outcome yaml.

Record CustomDataset : Type := {
images : list string;
labels : yaml;
transform : Transform
}.

(** [open(p, 'r')] and what is read from it. *)
Definition open_read (p : string) (fs : gmap string (node W))
  : outcome (option W * string) :=
match fs !! p with
| Some (File b t) => Done (b, t)
| Some Dir => Raises (Exn IsADirectoryError)
| None =>
    match check_parent fs p with
    | Raise NotADirectoryError => Raises (Exn NotADirectoryError)
    | _ => Raises (Exn FileNotFoundError)
    end
end.

(** [CustomDataset.__init__] (lines 63-80); it only reads the file
  system. *)
Definition init (img_dir annotation_file : string) (transform : Transform)
  (fs : gmap string (node W)) : outcome CustomDataset :=
get images_files <- of_result (os_listdir img_dir fs).1;
let images := map (fun img => img_dir ++ "/" ++ img) images_files in
get stream <- open_read annotation_file fs;
get labels <- safe_load stream.1 stream.2;
Done {| images := images; labels := labels; transform := transform |}.

(** [load_sample] (lines 82-92) *)
Definition load_sample (file : string) (fs : gmap string (node W)) : outcome Image :=
get content <- open_read file fs;
image_open content.1 content.2.

(** [__len__] (lines 94-98) *)
Definition len (self : CustomDataset) : nat := length (images self).

(** [__getitem__] (lines 100-111) *)
Definition getitem (self : CustomDataset) (idx : Z) (fs : gmap string (node W))
  : outcome (Sample * Z) :=
get file <- list_getitem (images self) idx;
get v <- yaml_getitem (labels self) file;
get label <- yaml_int v;
get file' <- list_getitem (images self) idx;
get image <- load_sample file' fs;
get image <- apply_transform (transform self) image;
Done (image, label).

End CustomDataset.

Arguments images {Transform} _.
Arguments labels {Transform} _.
Arguments transform {Transform} _.
Arguments init {W Transform} safe_load img_dir annotation_file transform fs.
Arguments load_sample {W Image} image_open file fs.
Arguments len {Transform} self.
Arguments getitem {W Transform Image Sample} image_open apply_transform self idx fs.
End custom.

(** A transform configuration that switches the tensor conversion off, and
    one that resizes first. *)
Definition cfg_tensor_off : list (yaml * yaml) := [(YStr "tensor", YBool false)].

Definition cfg_resize_tensor : list (yaml * yaml) :=
  [(YStr "resize", YStr "32"); (YStr "tensor", YBool true)].

(** A directory of two images and a sub-directory, with an annotation file
    keyed by the bare file names; the stub of [yaml.safe_load] returns that
    annotation. *)
Definition fs_images : gmap string (node nat) :=
  <["imgs" := Dir]> (<["imgs/a.png" := File None "A"]> (<["imgs/b.png" := File None "B"]>
    (<["imgs/raw" := Dir]> (<["ann.yaml" := File None "a.png: 0"]> ∅)))).

Definition ann_bare : yaml := YDict [(YStr "a.png", YInt 0); (YStr "b.png", YInt 1)].

Definition ann_joined : yaml :=
  YDict [(YStr "imgs/a.png", YInt 0); (YStr "imgs/b.png", YStr "1")].

(** ** [run.py]: the pipeline built from two configuration files *)

(** [iter(v)] for a loaded value: the elements of a list, the characters of
    a string, the keys of a mapping. *)
Definition yaml_iter (v : yaml) : outcome (list yaml) :=
  match v with
  | YList l => Done l
  | YStr s => Done (map (fun c => YStr (String c EmptyString)) (list_ascii_of_string s))
  | YDict d => Done (map fst d)
  | _ => Raises TypeError
  end.

(** [list(map(f, l))]: the first element [f] raises on raises. *)
Fixpoint map_outcome {A B} (f : A -> outcome B) (l : list A) : outcome (list B) :=
  match l with
  | [] => Done []
  | x :: l' =>
      get y <- f x;
      get ys <- map_outcome f l';
      Done (y :: ys)
  end.

(** [k in v.keys()] *)
Definition yaml_has (v : yaml) (k : string) : outcome bool :=
  match v with
  | YDict d => Done (dict_has d k)
  | _ => Raises AttributeError
  end.

(** [i == f] for an [int] and a float: the comparison is exact. *)
Definition float_is_int (f : float) (i : Z) : bool :=
  match Prim2SF f with
  | S754_zero _ => i =? 0
  | S754_finite s m e =>
      let v := if s then - Zpos m else Zpos m in
      if 0 <=? e then v * 2 ^ e =? i else v =? i * 2 ^ (- e)
  | _ => false
  end.

(** [k == i] for a key of a mapping and an [int]. *)
Definition key_is_int (k : yaml) (i : Z) : bool :=
  match k with
  | YInt z => z =? i
  | YBool b => (if b then 1 else 0) =? i
  | YFloat f => float_is_int f i
  | _ => false
  end.

(** [v[i]] for an [int] [i]. *)
Definition yaml_getitem_int (v : yaml) (i : Z) : outcome yaml :=
  match v with
  | YList l => list_getitem l i
  | YStr s =>
      list_getitem (map (fun c => YStr (String c EmptyString)) (list_ascii_of_string s)) i
  | YDict d =>
      match List.find (fun kv : yaml * yaml => key_is_int kv.1 i) d with
      | Some kv => Done kv.2
      | None => Raises (KeyError (py_str i))
      end
  | _ => Raises TypeError
  end.

(** Everything [run] calls acts on the world outside: files, the random
    generators, the devices.  A call returns or raises, and leaves a
    world. *)
Definition Act (World A : Type) : Type := World -> outcome A * World.

Definition wret {World A} (a : A) : Act World A := fun w => (Done a, w).
Definition wraise {World A} (e : py_exn) : Act World A := fun w => (Raises e, w).
Definition wlift {World A} (r : outcome A) : Act World A := fun w => (r, w).
Definition wbind {World A B} (m : Act World A) (k : A -> Act World B) : Act World B :=
  fun w => match m w with
           | (Done a, w') => k a w'
           | (Raises e, w') => (Raises e, w')
           end.

Declare Scope world_scope.
Delimit Scope world_scope with world.
Notation "'call' x <- m ; k" := (wbind m (fun x => k))
  (at level 10, x pattern, m at level 100, k at level 200) : world_scope.
Notation "'call_' m ; k" := (wbind m (fun _ => k))
  (at level 10, m at level 100, k at level 200) : world_scope.

Module run_py.
Local Open Scope world_scope.

(** The local variables of [run] that lines 148-205 read from the
  configuration.  [names] is bound exactly when [viz] is true. *)
Record settings : Type := {
encoder_name : yaml;
decoder_name : yaml;
decoder_mode : option string;
inc : Z;
nc : Z;
device : yaml;
algorithm : yaml;
dataset : yaml;
train_part : float;
valid_part : float;
seed : Z;
bs : Z;
epochs : Z;
logs : yaml;
loss_fn : yaml;
metrics : yaml;
checkpoints : yaml;
names : option yaml;
checkpoint : yaml;
se : Z;
lr : float;
wd : float;
opt_eps : float;
betas : list float;
optim : yaml;
sched : yaml;
step : Z;
gamma : float;
milestones : list Z
}.

(** The collaborators of [run], in the order of their first call: Python's
  [float()], whose conversion of a decimal string is not modelled; the
  objects of [torch], [numpy] and [yaml]; the factories of the package
  that are no part of these sources; the three algorithms.  [train_call]
  and [test_call] are the calls of lines 231 and 233, with the arguments
  of the source. *)
Class Env : Type := {
World : Type;
Encoder : Type;
Model : Type;
Weights : Type;
Data : Type;
Optimizer : Type;
Scheduler : Type;
Loss : Type;
Metrics : Type;
Loader : Type;
py_float : yaml -> outcome float;
empty_cache : Act World unit;
(** [open(path, 'r')] and [yaml.safe_load] of the stream *)
open_safe_load : string -> Act World yaml;
np_random_seed : Z -> Act World unit;
torch_manual_seed : Z -> Act World unit;
get_encoder : yaml -> Z -> Act World Encoder;
(** [encoder.to(device)] and [model.to(device)] *)
encoder_to : Encoder -> yaml -> Act World Encoder;
get_decoder : yaml -> Encoder -> Z -> option string -> yaml -> Act World Model;
model_to : Model -> yaml -> Act World Model;
torch_load : yaml -> Act World Weights;
(** [model.load_state_dict(state_dict)]: the model afterwards *)
load_state_dict : Model -> Weights -> Act World Model;
get_dataset : yaml -> float -> float -> list transform -> Act World (Data * Data * Data);
get_optimizer : yaml -> Model -> float -> list float -> float -> float
                -> Act World Optimizer;
get_scheduler : yaml -> Optimizer -> Z -> float -> list Z -> Act World Scheduler;
get_loss : yaml -> Act World (Loss * bool);
get_metrics : yaml -> Z -> Act World Metrics;
(** [torch.utils.data.DataLoader(data, batch_size=bs, shuffle=b)] *)
DataLoader : Data -> Z -> bool -> Act World Loader;
train_call : Loader -> Loader -> Model -> Optimizer -> Scheduler -> Loss
             -> Metrics -> Z -> yaml -> yaml -> yaml -> Z -> bool -> Z
             -> Act World unit;
test_call : Loader -> Model -> Loss -> Metrics -> yaml -> yaml -> bool -> Z
            -> Act World unit;
vizualize : Data -> Model -> yaml -> list (Z * yaml) -> Act World unit
}.

Section Run.
Context `{E : Env}.

(** [float(config[k])] if [k in config.keys()] else [dflt], and the like
  (lines 174-177 and 180-205). *)
Definition optional {A} (config : yaml) (k : string) (conv : yaml -> outcome A)
  (dflt : A) : outcome A :=
get has <- yaml_has config k;
if has then get v <- yaml_getitem config k; conv v else Done dflt.

(** Lines 148-205. *)
Definition read_config (config : yaml) : outcome settings :=
get encoder_name <- yaml_getitem config "encoder";
get has_decoder <- yaml_has config "decoder";
get decoder <-
  (if has_decoder
   then get v <- yaml_getitem config "decoder"; Done (v, @None string)
   else get v <- yaml_getitem config "multidecoder"; Done (v, Some "multidecoder"));
get inc <- (get v <- yaml_getitem config "in_channels"; yaml_int v);
get nc <- (get v <- yaml_getitem config "number_classes"; yaml_int v);
get device <- yaml_getitem config "device";
get algorithm <- yaml_getitem config "algorithm";
get dataset <- yaml_getitem config "dataset";
get train_part <- (get v <- yaml_getitem config "train_part"; py_float v);
get valid_part <- (get v <- yaml_getitem config "valid_part"; py_float v);
get seed <- (get v <- yaml_getitem config "seed"; yaml_int v);
get bs <- (get v <- yaml_getitem config "batch_size"; yaml_int v);
get epochs <- (get v <- yaml_getitem config "epochs"; yaml_int v);
get logs <- yaml_getitem config "logs";
get loss_fn <- yaml_getitem config "loss";
get metrics <- yaml_getitem config "metrics";
get checkpoints <- yaml_getitem config "checkpoints";
get names <-
  (if key_is algorithm "test"
   then get has <- yaml_has config "class_names";
        if has then get v <- yaml_getitem config "class_names"; Done (Some v)
        else Done None
   else Done None);
get checkpoint <- optional config "checkpoint" Done YNull;
get se <- (get v <- yaml_getitem config "save_every"; yaml_int v);
get lr <- (get v <- yaml_getitem config "learning_rate"; py_float v);
get wd <- optional config "weight_decay" py_float 0.0%float;
get opt_eps <- optional config "optimizer_eps" py_float 1e-8%float;
get betas <- optional config "optimizer_betas"
               (fun v => get l <- yaml_iter v; map_outcome py_float l)
               [0.9; 0.999]%float;
get optim <- yaml_getitem config "optimizer";
get sched <- yaml_getitem config "scheduler";
get step <- optional config "step" yaml_int 10;
get gamma <- optional config "gamma" py_float 0.1%float;
get milestones <- optional config "milestones"
                    (fun v => get l <- yaml_iter v; map_outcome yaml_int l)
                    [10; 30; 70; 150];
Done {| encoder_name := encoder_name; decoder_name := decoder.1;
        decoder_mode := decoder.2; inc := inc; nc := nc; device := device;
        algorithm := algorithm; dataset := dataset; train_part := train_part;
        valid_part := valid_part; seed := seed; bs := bs; epochs := epochs;
        logs := logs; loss_fn := loss_fn; metrics := metrics;
        checkpoints := checkpoints; names := names; checkpoint := checkpoint;
        se := se; lr := lr; wd := wd; opt_eps := opt_eps; betas := betas;
        optim := optim; sched := sched; step := step; gamma := gamma;
        milestones := milestones |}.

(** [parse_yaml] (lines 15-24) *)
Definition parse_yaml (config : string) : Act World yaml := open_safe_load config.

(** [{i: names[i] for i in range(nc)}] *)
Definition names_dict (names : yaml) (nc : Z) : outcome (list (Z * yaml)) :=
map_outcome (fun i => get n <- yaml_getitem_int names i; Done (i, n)) (seqZ 0 nc).

(** Lines 235-236, [n] times. *)
Fixpoint viz_loop (n : nat) (valid_data : Data) (model : Model) (device : yaml)
  (names : yaml) (nc : Z) : Act World unit :=
match n with
| O => wret tt
| S n' =>
    call d <- wlift (names_dict names nc);
    call_ vizualize valid_data model device d;
    viz_loop n' valid_data model device names nc
end.

(** Lines 145-238: [run] once the two files are parsed. *)
Definition run_configs (config transform_config : yaml) : Act World unit :=
call transform_lst <- wlift (transforms_lst transform_config);
call s <- wlift (read_config config);
call_ np_random_seed (seed s);
call_ torch_manual_seed (seed s);
if negb (key_is (device s) "cpu") && negb (key_is (device s) "cuda")
then wraise (Exn ValueError)
else
  call encoder <- get_encoder (encoder_name s) (inc s);
  call encoder <- encoder_to encoder (device s);
  call model <- get_decoder (decoder_name s) encoder (nc s) (decoder_mode s) (device s);
  call model <- model_to model (device s);
  call model <-
    (match checkpoint s with
     | YNull => wret model
     | _ => call state_dict <- torch_load (checkpoint s);
            load_state_dict model state_dict
     end);
  call data <- get_dataset (dataset s) (train_part s) (valid_part s) transform_lst;
  let '(train_data, valid_data, test_data) := data in
  call optimizer <- get_optimizer (optim s) model (lr s) (betas s) (opt_eps s) (wd s);
  call scheduler <- get_scheduler (sched s) optimizer (step s) (gamma s) (milestones s);
  call loss <- get_loss (loss_fn s);
  let '(loss_fn, one_hot) := loss in
  call metrics_fn <- get_metrics (metrics s) (nc s);
  call train_dataloader <- DataLoader train_data (bs s) true;
  call valid_dataloader <- DataLoader valid_data (bs s) false;
  call test_dataloader <- DataLoader test_data 1 false;
  if key_is (algorithm s) "train"
  then train_call train_dataloader valid_dataloader model optimizer scheduler
         loss_fn metrics_fn (epochs s) (checkpoints s) (logs s) (device s)
         (se s) one_hot (nc s)
  else if key_is (algorithm s) "test"
       then call_ test_call test_dataloader model loss_fn metrics_fn (logs s)
                    (device s) one_hot (nc s);
            match names s with
            | Some names => viz_loop 10 valid_data model (device s) names (nc s)
            | None => wret tt
            end
       else wraise (Exn ValueError).

(** [run] (lines 48-238). *)
Definition run (yaml transform_yaml : string) : Act World unit :=
call_ empty_cache;
call config <- parse_yaml yaml;
call transform_config <- parse_yaml transform_yaml;
run_configs config transform_config.

End Run.
End run_py.

(** A configuration with both [decoder] and [multidecoder], for a device
    and an algorithm. *)
Definition demo_config (device algorithm : string) : yaml :=
  YDict [(YStr "encoder", YStr "lenet");
         (YStr "multidecoder", YList [YStr "lenet"; YStr "alexnet"]);
         (YStr "decoder", YStr "lenet");
         (YStr "in_channels", YInt 1);
         (YStr "number_classes", YStr "2");
         (YStr "device", YStr device);
         (YStr "algorithm", YStr algorithm);
         (YStr "dataset", YStr "mnist");
         (YStr "train_part", YFloat 0.7);
         (YStr "valid_part", YFloat 0.2);
         (YStr "seed", YInt 1);
         (YStr "batch_size", YInt 16);
         (YStr "epochs", YInt 3);
         (YStr "logs", YStr "lg");
         (YStr "loss", YStr "ce");
         (YStr "metrics", YList [YStr "accuracy"]);
         (YStr "checkpoints", YStr "ck");
         (YStr "class_names", YList [YStr "cat"; YStr "dog"]);
         (YStr "save_every", YInt 2);
         (YStr "learning_rate", YFloat 0.001);
         (YStr "optimizer", YStr "adam");
         (YStr "scheduler", YStr "steplr")].

(** A world that records the names of the collaborators called; every
    collaborator returns.  [float()] is applied to floats and small
    integers only, and three files can be opened: [transform.yaml],
    [gpu.yaml] (training on the device [gpu]) and any other path (testing
    on the device [cpu]). *)
Definition log_call {A} (name : string) (a : A) : Act (list string) A :=
  fun w => (Done a, (w ++ [name])%list).

Definition demo_files (path : string) : yaml :=
  if String.eqb path "transform.yaml" then YDict cfg_resize_tensor
  else if String.eqb path "gpu.yaml" then demo_config "gpu" "train"
  else demo_config "cpu" "test".

Definition demo_env : run_py.Env :=
  {| run_py.World := list string;
     run_py.Encoder := unit; run_py.Model := unit; run_py.Weights := unit;
     run_py.Data := unit; run_py.Optimizer := unit; run_py.Scheduler := unit;
     run_py.Loss := unit; run_py.Metrics := unit; run_py.Loader := unit;
     run_py.py_float := fun v => match v with
                                 | YFloat f => Done f
                                 | YInt z =>
                                     match binary_normalize prec emax z 0 false with
                                     | S754_infinity _ => Raises OverflowError
                                     | f => Done (SF2Prim f)
                                     end
                                 | _ => Raises TypeError
                                 end;
     run_py.empty_cache := log_call "empty_cache" tt;
     run_py.open_safe_load := fun path => log_call "open" (demo_files path);
     run_py.np_random_seed := fun _ => log_call "np.random.seed" tt;
     run_py.torch_manual_seed := fun _ => log_call "torch.manual_seed" tt;
     run_py.get_encoder := fun _ _ => log_call "get_encoder" tt;
     run_py.encoder_to := fun _ _ => log_call "to" tt;
     run_py.get_decoder := fun _ _ _ _ _ => log_call "get_decoder" tt;
     run_py.model_to := fun _ _ => log_call "to" tt;
     run_py.torch_load := fun _ => log_call "torch.load" tt;
     run_py.load_state_dict := fun _ _ => log_call "load_state_dict" tt;
     run_py.get_dataset := fun _ _ _ _ => log_call "get_dataset" (tt, tt, tt);
     run_py.get_optimizer := fun _ _ _ _ _ _ => log_call "get_optimizer" tt;
     run_py.get_scheduler := fun _ _ _ _ _ => log_call "get_scheduler" tt;
     run_py.get_loss := fun _ => log_call "get_loss" (tt, false);
     run_py.get_metrics := fun _ _ => log_call "get_metrics" tt;
     run_py.DataLoader := fun _ _ _ => log_call "DataLoader" tt;
     run_py.train_call := fun _ _ _ _ _ _ _ _ _ _ _ _ _ _ => log_call "train" tt;
     run_py.test_call := fun _ _ _ _ _ _ _ _ => log_call "test" tt;
     run_py.vizualize := fun _ _ _ _ => log_call "vizualize" tt |}.

(** What [read_config] reads from [demo_config]. *)
Definition demo_settings (device algorithm : string) : run_py.settings :=
  {| run_py.encoder_name := YStr "lenet";
     run_py.decoder_name := YStr "lenet";
     run_py.decoder_mode := None;
     run_py.inc := 1;
     run_py.nc := 2;
     run_py.device := YStr device;
     run_py.algorithm := YStr algorithm;
     run_py.dataset := YStr "mnist";
     run_py.train_part := 0.7;
     run_py.valid_part := 0.2;
     run_py.seed := 1;
     run_py.bs := 16;
     run_py.epochs := 3;
     run_py.logs := YStr "lg";
     run_py.loss_fn := YStr "ce";
     run_py.metrics := YList [YStr "accuracy"];
     run_py.checkpoints := YStr "ck";
     run_py.names := if String.eqb algorithm "test"
                     then Some (YList [YStr "cat"; YStr "dog"]) else None;
     run_py.checkpoint := YNull;
     run_py.se := 2;
     run_py.lr := 0.001;
     run_py.wd := 0.0;
     run_py.opt_eps := 1e-8;
     run_py.betas := [0.9; 0.999]%float;
     run_py.optim := YStr "adam";
     run_py.sched := YStr "steplr";
     run_py.step := 10;
     run_py.gamma := 0.1;
     run_py.milestones := [10; 30; 70; 150] |}.

(** Stubs of the collaborators of [CustomDataset]: an image is the text of
    its file, the transform leaves it as it is, and [yaml.safe_load]
    returns a given document. *)
Definition stub_open : option nat -> string -> outcome string := fun _ t => Done t.
Definition stub_apply : unit -> string -> outcome string := fun _ img => Done img.
Definition stub_load (doc : yaml) : option nat -> string -> outcome yaml :=
  fun _ _ => Done doc.

(** The dataset of [fs_images] with the annotation [ann_bare]. *)
Definition ds_bare : custom.CustomDataset unit :=
  {| custom.images := ["imgs/a.png"; "imgs/raw"; "imgs/b.png"];
     custom.labels := ann_bare;
     custom.transform := tt |}.

(** * Properties *)

(** ** Strings and paths *)

Lemma str_nil (s : string) : EmptyString ++ s = s.
Proof. reflexivity. Qed.

Lemma str_cons (c : ascii) (a b : string) : String c a ++ b = String c (a ++ b).
Proof. reflexivity. Qed.

Ltac str_simpl := rewrite ?str_cons, ?str_nil; simpl.

Lemma string_app_assoc (a b c : string) : (a ++ b) ++ c = a ++ (b ++ c).
Proof. induction a as [|x a IH]; str_simpl; [reflexivity | now rewrite IH]. Qed.

Lemma string_app_inv_head (a b c : string) : a ++ b = a ++ c -> b = c.
Proof. induction a as [|x a IH]; str_simpl; [auto | intros [= H]; auto]. Qed.

Lemma string_app_length (a b : string) :
  String.length (a ++ b) = (String.length a + String.length b)%nat.
Proof. induction a as [|x a IH]; str_simpl; [reflexivity | now rewrite IH]. Qed.

Lemma has_slash_app (a b : string) :
  has_slash (a ++ b) = has_slash a || has_slash b.
Proof.
  induction a as [|x a IH]; str_simpl; [reflexivity |].
  rewrite IH. now rewrite orb_assoc.
Qed.

Lemma strip_prefix_app (p s : string) : strip_prefix p (p ++ s) = Some s.
Proof.
  induction p as [|x p IH]; str_simpl; [reflexivity |].
  now rewrite Ascii.eqb_refl.
Qed.

Lemma strip_prefix_Some (p k r : string) : strip_prefix p k = Some r -> k = p ++ r.
Proof.
  revert k; induction p as [|x p IH]; intros k; simpl.
  - now intros [= ->].
  - destruct k as [|y k]; [discriminate |].
    destruct (Ascii.eqb_spec x y) as [-> |]; [| discriminate].
    intros H. now rewrite str_cons, <- (IH _ H).
Qed.

Lemma split_path_no_slash (n : string) : has_slash n = false -> split_path n = None.
Proof.
  induction n as [|x n IH]; simpl; [reflexivity |].
  intros [Hx Hn]%orb_false_elim. now rewrite (IH Hn), Hx.
Qed.

Lemma split_path_join (d n : string) :
  has_slash n = false -> split_path (d ++ "/" ++ n) = Some (d, n).
Proof.
  intros Hn. induction d as [|x d IH].
  - str_simpl. now rewrite (split_path_no_slash _ Hn).
  - change (String x d ++ "/" ++ n) with (String x (d ++ "/" ++ n)).
    simpl. now rewrite IH.
Qed.

Lemma path_join_inj (d d' n n' : string) :
  has_slash n = false -> has_slash n' = false ->
  d ++ "/" ++ n = d' ++ "/" ++ n' -> d = d' /\ n = n'.
Proof.
  intros Hn Hn' E.
  pose proof (split_path_join d n Hn) as H1.
  rewrite E, (split_path_join d' n' Hn') in H1. now inversion H1.
Qed.

Lemma path_join_neq_dir (d n : string) : d ++ "/" ++ n <> d.
Proof.
  intros E. apply (f_equal String.length) in E.
  rewrite string_app_length in E. rewrite str_cons in E. simpl in E. lia.
Qed.

(** *** Decimal numerals *)

Lemma all_digits_uint (d : Decimal.uint) : all_digits (NilEmpty.string_of_uint d) = true.
Proof. induction d; simpl; auto. Qed.

Lemma all_digits_lstrip (s : string) : all_digits s = true -> lstrip s = s.
Proof.
  destruct s as [|c r]; simpl; [reflexivity |].
  intros [Hc _]%andb_prop.
  destruct c as [[|] [|] [|] [|] [|] [|] [|] [|]]; try discriminate Hc; reflexivity.
Qed.

Lemma all_digits_rstrip (s : string) : all_digits s = true -> rstrip s = s.
Proof.
  induction s as [|c r IH]; simpl; [reflexivity |].
  intros [Hc Hr]%andb_prop. rewrite (IH Hr).
  destruct r; [| reflexivity].
  destruct c as [[|] [|] [|] [|] [|] [|] [|] [|]]; try discriminate Hc; reflexivity.
Qed.

Lemma all_digits_drop_underscores (s : string) (b : bool) :
  all_digits s = true -> s <> EmptyString -> drop_underscores b s = Some s.
Proof.
  revert b; induction s as [|c r IH]; intros b Hs Hne; [congruence |].
  simpl in Hs. apply andb_prop in Hs as [Hc Hr]. simpl.
  assert (Ascii.eqb c "_" = false) as ->
    by (destruct c as [[|] [|] [|] [|] [|] [|] [|] [|]]; try discriminate Hc; reflexivity).
  destruct r as [|c' r'].
  - reflexivity.
  - now rewrite (IH true Hr).
Qed.

Lemma all_digits_no_slash (s : string) : all_digits s = true -> has_slash s = false.
Proof.
  induction s as [|c r IH]; simpl; [reflexivity |].
  intros [Hc Hr]%andb_prop. rewrite (IH Hr), orb_false_r.
  destruct c as [[|] [|] [|] [|] [|] [|] [|] [|]]; try discriminate Hc; reflexivity.
Qed.

Lemma string_of_uint_nonempty (d : Decimal.uint) :
  d <> Decimal.Nil -> NilEmpty.string_of_uint d <> EmptyString.
Proof. destruct d; simpl; congruence. Qed.

Lemma pos_to_uint_nonnil (p : positive) : Pos.to_uint p <> Decimal.Nil.
Proof.
  intros E. pose proof (DecimalPos.Unsigned.of_to p) as H.
  rewrite E in H. discriminate H.
Qed.

(** [int(str(z)) == z] *)
Lemma py_int_str (z : Z) : py_int (py_str z) = Some z.
Proof.
  unfold py_str, py_int.
  destruct z as [|p|p]; simpl Z.to_int.
  - reflexivity.
  - pose proof (pos_to_uint_nonnil p) as Hnn.
    pose proof (all_digits_uint (Pos.to_uint p)) as Hd.
    assert (NilZero.string_of_int (Decimal.Pos (Pos.to_uint p))
            = NilEmpty.string_of_uint (Pos.to_uint p)) as ->
      by (simpl; unfold NilZero.string_of_uint; destruct (Pos.to_uint p); congruence).
    rewrite (all_digits_lstrip _ Hd), (all_digits_rstrip _ Hd).
    pose proof (string_of_uint_nonempty _ Hnn) as Hne.
    destruct (NilEmpty.string_of_uint (Pos.to_uint p)) as [|c r] eqn:E; [congruence |].
    assert (Ascii.eqb c "-" = false /\ Ascii.eqb c "+" = false) as [-> ->].
    { simpl in Hd. apply andb_prop in Hd as [Hc _].
      destruct c as [[|] [|] [|] [|] [|] [|] [|] [|]]; try discriminate Hc; split; reflexivity. }
    rewrite (all_digits_drop_underscores _ false Hd) by congruence.
    rewrite <- E, NilEmpty.usu. f_equal.
    unfold Z.of_uint. rewrite DecimalPos.Unsigned.of_to. reflexivity.
  - pose proof (pos_to_uint_nonnil p) as Hnn.
    pose proof (all_digits_uint (Pos.to_uint p)) as Hd.
    assert (NilZero.string_of_int (Decimal.Neg (Pos.to_uint p))
            = String "-" (NilEmpty.string_of_uint (Pos.to_uint p))) as ->
      by (simpl; unfold NilZero.string_of_uint; destruct (Pos.to_uint p); congruence).
    pose proof (string_of_uint_nonempty _ Hnn) as Hne.
    assert (rstrip (lstrip (String "-" (NilEmpty.string_of_uint (Pos.to_uint p))))
            = String "-" (NilEmpty.string_of_uint (Pos.to_uint p))) as ->.
    { change (lstrip (String "-" ?s)) with (String "-" s).
      simpl rstrip. rewrite (all_digits_rstrip _ Hd).
      destruct (NilEmpty.string_of_uint (Pos.to_uint p)); congruence. }
    change (Ascii.eqb "-" "-") with true. cbv iota beta.
    rewrite (all_digits_drop_underscores _ false Hd) by congruence.
    rewrite NilEmpty.usu. f_equal.
    unfold Z.of_uint. rewrite DecimalPos.Unsigned.of_to. reflexivity.
Qed.

Lemma py_str_inj (a b : Z) : py_str a = py_str b -> a = b.
Proof.
  intros E. pose proof (py_int_str a) as Ha. rewrite E, py_int_str in Ha. congruence.
Qed.

Lemma py_str_no_slash (z : Z) : has_slash (py_str z) = false.
Proof.
  unfold py_str. destruct z as [|p|p]; simpl Z.to_int.
  - reflexivity.
  - simpl. unfold NilZero.string_of_uint.
    pose proof (all_digits_no_slash _ (all_digits_uint (Pos.to_uint p))) as H.
    destruct (Pos.to_uint p); auto.
  - simpl. unfold NilZero.string_of_uint.
    pose proof (all_digits_no_slash _ (all_digits_uint (Pos.to_uint p))) as H.
    destruct (Pos.to_uint p); auto.
Qed.


(** ** The file system *)

Section FileSystemFacts.
Context {W : Type}.
Implicit Types (fs : gmap string (node W)) (d n : string).

Lemma child_name_Some d k n :
  child_name d k = Some n <-> k = d ++ "/" ++ n /\ has_slash n = false /\ n <> EmptyString.
Proof.
  unfold child_name. split.
  - intros H. destruct (strip_prefix (d ++ "/") k) as [r|] eqn:E; [| discriminate].
    apply strip_prefix_Some in E. rewrite string_app_assoc in E.
    destruct (has_slash r) eqn:Hs; [discriminate |].
    destruct (String.eqb_spec r EmptyString) as [-> | Hne]; [discriminate |].
    simpl in H. injection H as <-. auto.
  - intros (-> & Hs & Hne).
    rewrite <- string_app_assoc, strip_prefix_app, Hs.
    destruct (String.eqb_spec n EmptyString); [contradiction | reflexivity].
Qed.

Lemma os_listdir_Ok fs fs' d names :
  os_listdir d fs = (Ok names, fs') ->
  fs' = fs /\ fs !! d = Some Dir /\
  forall n, n ∈ names <->
            has_slash n = false /\ n <> EmptyString /\ is_Some (fs !! (d ++ "/" ++ n)).
Proof.
  unfold os_listdir. destruct (fs !! d) as [[|b t]|] eqn:Hd; try discriminate.
  intros [= <- <-]. split; [reflexivity |]. split; [reflexivity |].
  intros n. split.
  - intros (k & Hk & Hc)%list_elem_of_omap.
    apply child_name_Some in Hc as (-> & Hs & Hne).
    apply list_elem_of_fmap in Hk as ([k v] & -> & Hkv).
    apply elem_of_map_to_list in Hkv. simpl. eauto.
  - intros (Hs & Hne & [v Hv]).
    apply list_elem_of_omap. exists (d ++ "/" ++ n). split.
    + apply list_elem_of_fmap. exists (d ++ "/" ++ n, v). split; [reflexivity |].
      now apply elem_of_map_to_list.
    + apply child_name_Some. auto.
Qed.

Lemma check_parent_join fs d n :
  fs !! d = Some Dir -> has_slash n = false -> check_parent fs (d ++ "/" ++ n) = Ok tt.
Proof.
  intros Hd Hn. unfold check_parent. rewrite (split_path_join _ _ Hn), Hd.
  now destruct (String.eqb d EmptyString).
Qed.

(** *** The allocator *)

Lemma map_int_Forall2 names ids :
  map_int names = Ok ids <-> Forall2 (fun n z => py_int n = Some z) names ids.
Proof.
  revert ids; induction names as [|n names IH]; intros ids; simpl.
  - split; [intros [= <-]; constructor | intros H; inversion H; reflexivity].
  - destruct (py_int n) as [z|] eqn:E.
    + destruct (map_int names) as [zs|e] eqn:E'.
      * split.
        -- intros [= <-]. constructor; [assumption | now apply IH].
        -- intros H. inversion H as [|? z' ? zs' Hz Hzs]; subst.
           apply IH in Hzs. congruence.
      * split; [discriminate |].
        intros H. inversion H as [|? z' ? zs' Hz Hzs]; subst.
        apply IH in Hzs. discriminate.
    + split; [discriminate |].
      intros H. inversion H; congruence.
Qed.

Lemma map_int_str (zs : list Z) : map_int (map py_str zs) = Ok zs.
Proof.
  induction zs as [|z zs IH]; simpl; [reflexivity |].
  now rewrite py_int_str, IH.
Qed.


Lemma py_max_ge z zs : z <= py_max z zs /\ Forall (fun x => x <= py_max z zs) zs.
Proof.
  unfold py_max. revert z; induction zs as [|y zs IH]; intros z; simpl.
  - split; [lia | constructor].
  - destruct (IH (Z.max z y)) as [H1 H2]. split; [lia |].
    constructor; [lia | assumption].
Qed.

Lemma py_max_elem z zs : py_max z zs ∈ z :: zs.
Proof.
  unfold py_max. revert z; induction zs as [|y zs IH]; intros z; simpl.
  - left.
  - specialize (IH (Z.max z y)).
    apply elem_of_cons in IH as [E | IH].
    + rewrite E. destruct (Z.max_spec z y) as [[_ ->] | [_ ->]];
        [right; left | left].
    + right; right; assumption.
Qed.

Lemma next_id_fresh ids : next_id ids ∉ ids.
Proof.
  destruct ids as [|z zs]; simpl; [intros H; inversion H |].
  destruct (py_max_ge z zs) as [H1 H2].
  intros [E | Hin]%elem_of_cons; [lia |].
  rewrite Forall_forall in H2. specialize (H2 _ Hin). lia.
Qed.

(** The allocator, whenever every name of the listing is an integer:
    the directory [max + 1] (or [0]) is new and is created. *)
Lemma alloc_run_dir_Ok fs parent names ids :
  os_listdir parent fs = (Ok names, fs) ->
  map_int names = Ok ids ->
  fs !! (parent ++ "/" ++ py_str (next_id ids)) = None /\
  alloc_run_dir parent fs
  = (Ok (parent ++ "/" ++ py_str (next_id ids)),
     <[parent ++ "/" ++ py_str (next_id ids) := Dir]> fs).
Proof.
  intros Hl Hm.
  destruct (os_listdir_Ok _ _ _ _ Hl) as (_ & Hd & Hnames).
  assert (fs !! (parent ++ "/" ++ py_str (next_id ids)) = None) as Hnew.
  { destruct (fs !! (parent ++ "/" ++ py_str (next_id ids))) as [v|] eqn:E; [| reflexivity].
    exfalso. apply (next_id_fresh ids).
    assert (py_str (next_id ids) ∈ names) as Hin.
    { apply Hnames. repeat split; [apply py_str_no_slash | | eauto].
      intros E0. pose proof (py_int_str (next_id ids)) as Hp.
      rewrite E0 in Hp. discriminate Hp. }
    apply map_int_Forall2 in Hm.
    apply list_elem_of_lookup in Hin as [i Hi].
    destruct (Forall2_lookup_l _ _ _ _ _ Hm Hi) as (z & Hz & Hpz).
    rewrite py_int_str in Hpz. injection Hpz as ->.
    apply list_elem_of_lookup. eauto. }
  split; [exact Hnew |].
  unfold alloc_run_dir, bind, lift, ret, path_join. rewrite Hl, Hm.
  unfold os_mkdir. rewrite Hnew.
  now rewrite (check_parent_join _ _ _ Hd (py_str_no_slash _)).
Qed.


Lemma next_id_iota (ids : list Z) (m : nat) :
  ids ≡ₚ map Z.of_nat (seq 0 m) -> next_id ids = Z.of_nat m.
Proof.
  intros Hp. destruct ids as [|z zs].
  - apply Permutation_nil_l in Hp. destruct m; [reflexivity | discriminate].
  - simpl. destruct m as [|k].
    { symmetry in Hp. apply Permutation_nil_l in Hp. discriminate. }
    assert (forall x, x ∈ z :: zs <-> 0 <= x <= Z.of_nat k) as Hmem.
    { intros x. rewrite Hp, list_elem_of_fmap. setoid_rewrite elem_of_seq. split.
      - intros (i & -> & Hi). lia.
      - intros Hx. exists (Z.to_nat x). lia. }
    destruct (py_max_ge z zs) as [H1 H2].
    pose proof (proj1 (Hmem _) (py_max_elem z zs)) as Hle.
    assert (Z.of_nat k ∈ z :: zs) as Hk by (apply Hmem; lia).
    apply elem_of_cons in Hk as [Hk | Hk].
    + lia.
    + rewrite Forall_forall in H2. specialize (H2 _ Hk). lia.
Qed.

End FileSystemFacts.


(** ** The order of floats *)

Local Arguments Pos.compare : simpl never.
Local Arguments Z.compare : simpl never.

Lemma SFcompare_refl_not_Lt (a : spec_float) : SFcompare a a <> Some Lt.
Proof.
  destruct a as [[|]|[|]| |[|] m e]; simpl; try discriminate.
  all: change (PosDef.Pos.compare_cont Eq m m) with (Pos.compare m m);
       rewrite Z.compare_refl, Pos.compare_refl; discriminate.
Qed.

Ltac fold_cmp :=
  repeat match goal with
    | H : context [PosDef.Pos.compare_cont Eq ?a ?b] |- _ =>
        change (PosDef.Pos.compare_cont Eq a b) with (Pos.compare a b) in H
    | |- context [PosDef.Pos.compare_cont Eq ?a ?b] =>
        change (PosDef.Pos.compare_cont Eq a b) with (Pos.compare a b)
    end.

Ltac cmp_cases :=
  fold_cmp;
  repeat match goal with
    | H : context [(?a ?= ?b)%Z] |- _ =>
        destruct (Z.compare_spec a b); try discriminate H; subst
    | H : context [(?a ?= ?b)%positive] |- _ =>
        destruct (Pos.compare_spec a b); try discriminate H; subst
    | H : context [CompOpp ?c] |- _ => simpl in H
    end.

Ltac cmp_goal :=
  repeat match goal with
    | |- context [(?a ?= ?b)%Z] =>
        destruct (Z.compare_spec a b); subst; try lia
    | |- context [(?a ?= ?b)%positive] =>
        destruct (Pos.compare_spec a b); subst; try lia
    end; simpl; try reflexivity; try lia.

Lemma SFcompare_trans (a b c : spec_float) :
  SFcompare a b = Some Lt -> SFcompare b c = Some Lt -> SFcompare a c = Some Lt.
Proof.
  destruct a as [[|]|[|]| |[|] m1 e1], b as [[|]|[|]| |[|] m2 e2],
           c as [[|]|[|]| |[|] m3 e3]; simpl; intros H1 H2;
    try discriminate; try reflexivity; cmp_cases; cmp_goal.
Qed.

Lemma SFcompare_le_lt_trans (a b c : spec_float) :
  (SFcompare a b = Some Lt \/ SFcompare a b = Some Eq) ->
  SFcompare b c = Some Lt -> SFcompare a c = Some Lt.
Proof.
  intros [H1 | H1]; [now apply SFcompare_trans |].
  revert H1.
  destruct a as [[|]|[|]| |[|] m1 e1], b as [[|]|[|]| |[|] m2 e2],
           c as [[|]|[|]| |[|] m3 e3]; simpl; intros H1 H2;
    try discriminate; try reflexivity; cmp_cases; cmp_goal.
Qed.

Lemma flt_irrefl (x : float) : flt x x = false.
Proof.
  unfold flt. rewrite ltb_spec. unfold SFltb.
  pose proof (SFcompare_refl_not_Lt (Prim2SF x)) as H.
  destruct (SFcompare (Prim2SF x) (Prim2SF x)) as [[| |]|]; congruence.
Qed.

Lemma flt_SFcompare (x y : float) :
  flt x y = true <-> SFcompare (Prim2SF x) (Prim2SF y) = Some Lt.
Proof.
  unfold flt. rewrite ltb_spec. unfold SFltb.
  destruct (SFcompare (Prim2SF x) (Prim2SF y)) as [[| |]|]; split; congruence.
Qed.

Lemma flt_trans (x y z : float) :
  flt x y = true -> flt y z = true -> flt x z = true.
Proof. rewrite !flt_SFcompare. apply SFcompare_trans. Qed.

Lemma fle_flt_trans (x y z : float) :
  fle x y = true -> flt y z = true -> flt x z = true.
Proof.
  rewrite !flt_SFcompare. unfold fle. rewrite leb_spec. unfold SFleb.
  intros H. apply SFcompare_le_lt_trans.
  destruct (SFcompare (Prim2SF x) (Prim2SF y)) as [[| |]|]; auto; discriminate.
Qed.


(** ** File names of a run *)

Lemma is_digit_no_slash (c : ascii) : is_digit c = true -> Ascii.eqb c slash = false.
Proof.
  destruct c as [[|] [|] [|] [|] [|] [|] [|] [|]]; intros H; try discriminate H; reflexivity.
Qed.

Lemma two_digits_no_slash (n : Z) : 0 <= n < 100 -> has_slash (two_digits n) = false.
Proof.
  intros Hn. unfold two_digits.
  assert (0 <= n / 10 < 10) as H1 by (split; [apply Z.div_pos | apply Z.div_lt_upper_bound]; lia).
  assert (0 <= n mod 10 < 10) as H2 by (apply Z.mod_pos_bound; lia).
  assert (forall k, 0 <= k < 10 ->
                    Ascii.eqb (ascii_of_nat (48 + Z.to_nat k)) slash = false) as Hd.
  { intros k Hk.
    assert (k = 0 \/ k = 1 \/ k = 2 \/ k = 3 \/ k = 4 \/ k = 5 \/ k = 6 \/ k = 7
            \/ k = 8 \/ k = 9) as Hc by lia.
    repeat (destruct Hc as [-> | Hc]; [reflexivity |]). subst k. reflexivity. }
  cbn [has_slash]. now rewrite (Hd _ H1), (Hd _ H2).
Qed.

Lemma fmt_2f_no_slash (x : float) : has_slash (fmt_2f x) = false.
Proof.
  unfold fmt_2f. destruct (Prim2SF x) as [[|]|[|]| |s m e].
  1-5: reflexivity.
  cbv zeta. rewrite !has_slash_app, py_str_no_slash.
  rewrite two_digits_no_slash by (apply Z.mod_pos_bound; lia).
  now destruct s.
Qed.

Lemma plan_name_no_slash (e : Z) (l : float) : has_slash (plan_name e l) = false.
Proof.
  unfold plan_name. now rewrite !has_slash_app, py_str_no_slash, fmt_2f_no_slash.
Qed.

Lemma best_name_no_slash (e : Z) (l : float) : has_slash (best_name e l) = false.
Proof.
  unfold best_name. now rewrite !has_slash_app, py_str_no_slash, fmt_2f_no_slash.
Qed.

(** The first character of [str(z)] is a digit or the sign. *)
Lemma py_str_head (z : Z) :
  exists c r, py_str z = String c r /\ (is_digit c = true \/ c = "-"%char).
Proof.
  unfold py_str. destruct z as [|p|p]; simpl Z.to_int.
  - exists "0"%char, EmptyString; auto.
  - pose proof (all_digits_uint (Pos.to_uint p)) as Hd.
    pose proof (DecimalPos.Unsigned.to_uint_nonnil p) as Hn.
    simpl. unfold NilZero.string_of_uint.
    destruct (Pos.to_uint p); try congruence; simpl in *; eauto.
  - simpl. eauto.
Qed.

Lemma py_str_not_letter (z : Z) (c : ascii) (r : string) :
  is_digit c = false -> c <> "-"%char -> py_str z <> String c r.
Proof.
  intros Hc Hm E. destruct (py_str_head z) as (c' & r' & E' & [Hd | ->]);
    rewrite E in E'; injection E' as -> ->; congruence.
Qed.

(** [str] of a natural number is a run of digits. *)
Lemma py_str_nat_digits (n : nat) : all_digits (py_str (Z.of_nat n)) = true.
Proof.
  unfold py_str. destruct (Z.of_nat n) as [|p|p] eqn:E; try lia; simpl Z.to_int.
  - reflexivity.
  - simpl. unfold NilZero.string_of_uint.
    pose proof (all_digits_uint (Pos.to_uint p)) as Hd.
    destruct (Pos.to_uint p); auto.
Qed.

Lemma digits_then_underscore (a b x y : string) :
  all_digits a = true -> all_digits b = true ->
  a ++ "_" ++ x = b ++ "_" ++ y -> a = b.
Proof.
  revert b; induction a as [|c a IH]; intros b Ha Hb E.
  - destruct b as [|c' b]; [reflexivity |].
    rewrite !str_cons, !str_nil in E. injection E as <- _.
    simpl in Hb. discriminate Hb.
  - destruct b as [|c' b].
    + rewrite !str_cons, !str_nil in E. injection E as -> _.
      simpl in Ha. discriminate Ha.
    + rewrite !str_cons in E. injection E as -> E.
      simpl in Ha, Hb. apply andb_prop in Ha as [_ Ha]. apply andb_prop in Hb as [_ Hb].
      f_equal. now apply IH.
Qed.

Lemma plan_name_inj (e e' : nat) (l l' : float) :
  plan_name (Z.of_nat e) l = plan_name (Z.of_nat e') l' -> e = e'.
Proof.
  unfold plan_name. intros E.
  apply (string_app_inv_head "plan_") in E.
  apply digits_then_underscore in E; auto using py_str_nat_digits.
  apply py_str_inj in E. lia.
Qed.

Lemma best_name_inj (e e' : nat) (l l' : float) :
  best_name (Z.of_nat e) l = best_name (Z.of_nat e') l' -> e = e'.
Proof.
  unfold best_name. intros E.
  apply (string_app_inv_head "best_") in E.
  apply digits_then_underscore in E; auto using py_str_nat_digits.
  apply py_str_inj in E. lia.
Qed.

Lemma plan_name_head (e : Z) (l : float) : exists r, plan_name e l = String "p" r.
Proof. unfold plan_name. eexists. rewrite str_cons. reflexivity. Qed.

Lemma best_name_head (e : Z) (l : float) : exists r, best_name e l = String "b" (String "e" (String "s" (String "t" (String "_" r)))).
Proof. unfold best_name. eexists. rewrite !str_cons, str_nil. reflexivity. Qed.

(** A name whose first character is a letter is no integer. *)
Lemma py_int_head (c : ascii) (r : string) :
  is_space c = false -> is_digit c = false ->
  c <> "-"%char -> c <> "+"%char -> c <> "_"%char ->
  py_int (String c r) = None.
Proof.
  intros Hs Hd Hm Hp Hu. unfold py_int.
  cbn [lstrip]. rewrite Hs.
  assert (exists r', rstrip (String c r) = String c r') as [r' ->].
  { cbn [rstrip]. destruct (rstrip r); [rewrite Hs |]; eauto. }
  destruct (Ascii.eqb_spec c "-"); [contradiction |].
  destruct (Ascii.eqb_spec c "+"); [contradiction |].
  cbn [drop_underscores].
  destruct (Ascii.eqb_spec c "_"); [contradiction |].
  destruct (drop_underscores true r') as [ds|]; [| reflexivity].
  cbn [fmap option_fmap option_map NilEmpty.uint_of_string].
  destruct (NilEmpty.uint_of_string ds) as [d|]; [| reflexivity].
  destruct c as [[|] [|] [|] [|] [|] [|] [|] [|]]; try discriminate Hd; reflexivity.
Qed.

Lemma py_int_plan_name (e : Z) (l : float) : py_int (plan_name e l) = None.
Proof.
  destruct (plan_name_head e l) as [r ->]. now apply py_int_head.
Qed.

Lemma py_int_best_name (e : Z) (l : float) : py_int (best_name e l) = None.
Proof.
  destruct (best_name_head e l) as [r ->]. now apply py_int_head.
Qed.


(** ** The accumulators of a pass *)

Lemma zip_with_fst_id {A B} (l : list A) (k : list B) :
  length l = length k -> zip_with (fun a _ => a) l k = l.
Proof.
  revert k; induction l as [|a l IH]; intros [|b k] Hl; try discriminate; [reflexivity |].
  cbn [zip_with]. f_equal. apply IH. now injection Hl.
Qed.

Lemma zip_with_zip_with_l {A B} (f g : A -> B -> A) (l : list A) (k : list B) :
  zip_with g (zip_with f l k) k = zip_with (fun a b => g (f a b) b) l k.
Proof.
  revert k; induction l as [|a l IH]; intros [|b k]; try reflexivity.
  cbn [zip_with]. f_equal. apply IH.
Qed.

Lemma zip_with_replicate_map {A B} (f : A -> B -> A) (z : A) (k : list B) :
  zip_with f (replicate (length k) z) k = map (f z) k.
Proof. induction k as [|b k IH]; [reflexivity |]. cbn. now rewrite IH. Qed.

Section PassFacts.
Context `{C : Collaborators}.
Variables (metrics : list Metric) (one_hot : bool).

(** The loop over [enumerate(metrics)] adds to every accumulator the value
    of its own metric. *)
Lemma accumulate_metrics_zip preds labels (mvct : list Scalar) :
  length mvct = length metrics ->
  accumulate_metrics metrics preds labels mvct
  = zip_with (fun x m => scalar_add x (calc m preds labels)) mvct metrics.
Proof.
  unfold accumulate_metrics, enumerate.
  enough (forall ms (pre mv : list Scalar),
             length mv = length ms ->
             fold_left
               (fun mvct '(mi, metric) =>
                  alter (fun x => scalar_add x (calc metric preds labels)) mi mvct)
               (zip (seq (length pre) (length ms)) ms) (pre ++ mv)%list
             = (pre ++ zip_with (fun x m => scalar_add x (calc m preds labels)) mv ms)%list)
    as H
    by (intros Hl; apply (H metrics [] mvct Hl)).
  induction ms as [|m ms IH]; intros pre mv Hl.
  - destruct mv; [reflexivity | discriminate].
  - destruct mv as [|x mv]; [discriminate |]. injection Hl as Hl.
    cbn [length seq zip zip_with fold_left].
    assert (alter (fun x0 => scalar_add x0 (calc m preds labels)) (length pre)
                  (pre ++ x :: mv)%list
            = ((pre ++ [scalar_add x (calc m preds labels)]) ++ mv)%list) as ->.
    { rewrite <- (Nat.add_0_r (length pre)), alter_app_r.
      now rewrite <- app_assoc. }
    replace (S (length pre))
      with (length (pre ++ [scalar_add x (calc m preds labels)])%list)
      by (rewrite length_app; simpl; lia).
    rewrite (IH _ mv Hl). now rewrite <- app_assoc.
Qed.

Lemma train_pass_from (dl : list (Imgs * Labels)) (st : pass_state) :
  length (ps_mvct st) = length metrics ->
  let r := fold_left (train_batch metrics one_hot) dl st in
  ps_loss r
  = fold_left PrimFloat.add (train_values loss_item one_hot dl (ps_net st)) (ps_loss st)
  /\ ps_mvct r
     = zip_with
         (fun a m => fold_left scalar_add
                       (train_values (calc m) one_hot dl (ps_net st)) a)
         (ps_mvct st) metrics.
Proof.
  revert st; induction dl as [|[imgs labels] dl IH]; intros st Hl.
  - cbn. split; [reflexivity |]. symmetry. now apply zip_with_fst_id.
  - cbn [fold_left train_values].
    set (st' := train_batch metrics one_hot st (imgs, labels)).
    assert (ps_mvct st'
            = zip_with (fun x m =>
                          scalar_add x (calc m (forward true (ps_net st) imgs)
                                          (if one_hot then one_hot_float labels
                                           else labels)))
                (ps_mvct st) metrics) as Hmv
      by (subst st'; cbn; now apply accumulate_metrics_zip).
    assert (length (ps_mvct st') = length metrics) as Hl'.
    { rewrite Hmv, length_zip_with. lia. }
    destruct (IH st' Hl') as [H1 H2]. cbv zeta in *.
    rewrite H1, H2, Hmv, zip_with_zip_with_l. split; reflexivity.
Qed.

Lemma eval_pass_from (dl : list (Imgs * Labels)) (st : pass_state) :
  length (ps_mvct st) = length metrics ->
  let r := fold_left (eval_batch metrics one_hot) dl st in
  ps_net r = ps_net st
  /\ ps_loss r
     = fold_left PrimFloat.add (eval_values loss_item one_hot dl (ps_net st)) (ps_loss st)
  /\ ps_mvct r
     = zip_with
         (fun a m => fold_left scalar_add
                       (eval_values (calc m) one_hot dl (ps_net st)) a)
         (ps_mvct st) metrics.
Proof.
  revert st; induction dl as [|[imgs labels] dl IH]; intros st Hl.
  - cbn. split; [reflexivity |]. split; [reflexivity |].
    symmetry. now apply zip_with_fst_id.
  - cbn [fold_left].
    set (st' := eval_batch metrics one_hot st (imgs, labels)).
    assert (ps_mvct st'
            = zip_with (fun x m =>
                          scalar_add x (calc m (forward false (ps_net st) imgs)
                                          (if one_hot then one_hot_float labels
                                           else labels)))
                (ps_mvct st) metrics) as Hmv
      by (subst st'; cbn; now apply accumulate_metrics_zip).
    assert (length (ps_mvct st') = length metrics) as Hl'.
    { rewrite Hmv, length_zip_with. lia. }
    destruct (IH st' Hl') as (H0 & H1 & H2). cbv zeta in *.
    rewrite H0, H1, H2, Hmv, zip_with_zip_with_l. repeat split; reflexivity.
Qed.

Lemma train_values_length {X} (f : Preds -> Labels -> X) dl net :
  length (train_values f one_hot dl net) = length dl.
Proof.
  revert net; induction dl as [|[imgs labels] dl IH]; intros net; [reflexivity |].
  cbn. now rewrite IH.
Qed.

Lemma eval_values_length {X} (f : Preds -> Labels -> X) dl net :
  length (eval_values f one_hot dl net) = length dl.
Proof. unfold eval_values. apply length_map. Qed.

(** A training pass: the accumulated loss and metrics are the sums of the
    per-batch values. *)
Lemma train_pass_sums dl net :
  ps_loss (train_pass metrics one_hot dl net)
  = fold_left PrimFloat.add (train_values loss_item one_hot dl net) 0%float
  /\ ps_mvct (train_pass metrics one_hot dl net)
     = map (fun m => fold_left scalar_add (train_values (calc m) one_hot dl net)
                       scalar_zero) metrics.
Proof.
  unfold train_pass.
  destruct (train_pass_from dl (pass_init metrics net)) as [H1 H2].
  { cbn. apply length_replicate. }
  cbv zeta in *. rewrite H1, H2. cbn [pass_init ps_loss ps_mvct ps_net].
  split; [reflexivity |].
  apply (zip_with_replicate_map
           (fun a m => fold_left scalar_add (train_values (calc m) one_hot dl net) a)).
Qed.

Lemma eval_pass_sums dl net :
  ps_loss (eval_pass metrics one_hot dl net)
  = fold_left PrimFloat.add (eval_values loss_item one_hot dl net) 0%float
  /\ ps_mvct (eval_pass metrics one_hot dl net)
     = map (fun m => fold_left scalar_add (eval_values (calc m) one_hot dl net)
                       scalar_zero) metrics.
Proof.
  unfold eval_pass.
  destruct (eval_pass_from dl (pass_init metrics net)) as (_ & H1 & H2).
  { cbn. apply length_replicate. }
  cbv zeta in *. rewrite H1, H2. cbn [pass_init ps_loss ps_mvct ps_net].
  split; [reflexivity |].
  apply (zip_with_replicate_map
           (fun a m => fold_left scalar_add (eval_values (calc m) one_hot dl net) a)).
Qed.

(** The averages of a pass are the means of the per-batch values. *)
Lemma train_pass_means dl net :
  (ps_loss (train_pass metrics one_hot dl net) / float_of_nat (length dl))%float
  = float_mean (train_values loss_item one_hot dl net)
  /\ average_metrics (ps_mvct (train_pass metrics one_hot dl net)) (length dl)
     = map (fun m => scalar_mean (train_values (calc m) one_hot dl net)) metrics.
Proof.
  destruct (train_pass_sums dl net) as [-> ->].
  unfold float_mean, scalar_mean, average_metrics.
  rewrite train_values_length, map_map. split; [reflexivity |].
  apply map_ext. intros m. now rewrite train_values_length.
Qed.

Lemma eval_pass_means dl net :
  (ps_loss (eval_pass metrics one_hot dl net) / float_of_nat (length dl))%float
  = float_mean (eval_values loss_item one_hot dl net)
  /\ average_metrics (ps_mvct (eval_pass metrics one_hot dl net)) (length dl)
     = map (fun m => scalar_mean (eval_values (calc m) one_hot dl net)) metrics.
Proof.
  destruct (eval_pass_sums dl net) as [-> ->].
  unfold float_mean, scalar_mean, average_metrics.
  rewrite eval_values_length, map_map. split; [reflexivity |].
  apply map_ext. intros m. now rewrite eval_values_length.
Qed.

End PassFacts.


(** ** Effects *)

Lemma for_each_app {W A S} (l1 l2 : list A) (body : S -> A -> M W S) (st : S)
    (fs : gmap string (node W)) :
  for_each (l1 ++ l2) body st fs
  = match for_each l1 body st fs with
    | (Ok st', fs') => for_each l2 body st' fs'
    | (Raise e, fs') => (Raise e, fs')
    end.
Proof.
  revert st fs; induction l1 as [|x l1 IH]; intros st fs; simpl; [reflexivity |].
  unfold bind. destruct (body st x fs) as [[st'|e] fs']; [apply IH | reflexivity].
Qed.

Lemma torch_save_Ok {W} (w : W) (d n : string) (fs : gmap string (node W)) :
  fs !! d = Some Dir -> has_slash n = false -> fs !! (d ++ "/" ++ n) <> Some Dir ->
  torch_save w (d ++ "/" ++ n) fs
  = (Ok tt, <[d ++ "/" ++ n := File (Some w) EmptyString]> fs).
Proof.
  intros Hd Hn Hp. unfold torch_save.
  rewrite (check_parent_join _ _ _ Hd Hn).
  destruct (fs !! (d ++ "/" ++ n)) as [[|b t]|]; congruence.
Qed.

Lemma append_text_new {W} (s d n : string) (fs : gmap string (node W)) :
  fs !! d = Some Dir -> has_slash n = false -> fs !! (d ++ "/" ++ n) = None ->
  append_text (d ++ "/" ++ n) s fs = (Ok tt, <[d ++ "/" ++ n := File None s]> fs).
Proof.
  intros Hd Hn Hp. unfold append_text.
  now rewrite Hp, (check_parent_join _ _ _ Hd Hn).
Qed.

Lemma append_text_old {W} (s p : string) (b : option W) (t : string)
    (fs : gmap string (node W)) :
  fs !! p = Some (File b t) ->
  append_text p s fs = (Ok tt, <[p := File b (t ++ s)]> fs).
Proof. intros Hp. unfold append_text. now rewrite Hp. Qed.

Lemma py_truediv_Ok (x : float) (n : nat) :
  n <> 0%nat -> py_truediv x n = Ok (x / float_of_nat n)%float.
Proof. intros Hn. unfold py_truediv. destruct (Nat.eqb_spec n 0); congruence. Qed.

Lemma py_mod_Ok (a b : Z) : b <> 0 -> py_mod a b = Ok (a mod b).
Proof. intros Hb. unfold py_mod. destruct (Z.eqb_spec b 0); congruence. Qed.

(** ** The epoch loop in fresh run directories *)

Section LoopFacts.
Context `{C : Collaborators}.
Variables (train_dataloader valid_dataloader : list (Imgs * Labels)).
Variables (metrics : list Metric) (epochs : Z) (ck lg : string).
Variables (save_every : Z) (one_hot : bool) (model : Net).
Variable fs : gmap string (node StateDict).

Hypothesis Htrain : train_dataloader <> [].
Hypothesis Hvalid : valid_dataloader <> [].
Hypothesis Hevery : save_every <> 0.
Hypothesis Hfresh : fresh_run ck lg fs.

Let vl := valid_loss_at train_dataloader valid_dataloader metrics one_hot model.
Let wt := weights_at train_dataloader metrics one_hot model.
Let best := best_after train_dataloader valid_dataloader metrics one_hot model.
Let fsn := fs_after train_dataloader valid_dataloader metrics epochs ck lg
             save_every one_hot model fs.
Let logn := log_after train_dataloader valid_dataloader metrics epochs one_hot model.
Let due := save_due epochs save_every.
Let body := epoch_body train_dataloader valid_dataloader metrics epochs ck lg
              save_every one_hot.
Let state (n : nat) : loop_state :=
  {| ls_net := net_at train_dataloader metrics one_hot model n;
     best_loss := (best n).1; best_epoch := (best n).2 |}.

Lemma best_pt_no_slash : has_slash "best.pt" = false.
Proof. reflexivity. Qed.

Lemma fresh_log : fs !! (lg ++ "/trainval.log") = None.
Proof. now apply Hfresh. Qed.

Lemma fresh_best : fs !! (ck ++ "/best.pt") = None.
Proof. now apply Hfresh. Qed.

Lemma fresh_plan e l : fs !! (ck ++ "/" ++ plan_name e l) = None.
Proof. apply Hfresh; auto using plan_name_no_slash, py_int_plan_name. Qed.

Lemma fresh_best_name e l : fs !! (ck ++ "/" ++ best_name e l) = None.
Proof. apply Hfresh; auto using best_name_no_slash, py_int_best_name. Qed.

Lemma log_no_slash : has_slash "trainval.log" = false.
Proof. reflexivity. Qed.

Lemma plan_path_neq_log e l : ck ++ "/" ++ plan_name e l <> lg ++ "/trainval.log".
Proof.
  intros E. apply path_join_inj in E as [_ E];
    auto using plan_name_no_slash, log_no_slash.
  destruct (plan_name_head e l) as [r Hr]. rewrite Hr in E. discriminate E.
Qed.

Lemma best_path_neq_log : ck ++ "/best.pt" <> lg ++ "/trainval.log".
Proof.
  intros E. apply path_join_inj in E as [_ E]; auto. discriminate E.
Qed.

Lemma plan_path_neq_best e l : ck ++ "/" ++ plan_name e l <> ck ++ "/best.pt".
Proof.
  intros E. apply string_app_inv_head in E.
  destruct (plan_name_head e l) as [r Hr]. rewrite Hr, !str_cons in E. discriminate E.
Qed.

Lemma fs_after_S n :
  fsn (S n)
  = <[lg ++ "/trainval.log" := File None (logn (S n))]>
      ((if flt (vl n) (best n).1
        then <[ck ++ "/best.pt" := File (Some (wt n)) EmptyString]> else id)
         ((if due (Z.of_nat n)
           then <[ck ++ "/" ++ plan_name (Z.of_nat n) (vl n) := File (Some (wt n)) EmptyString]>
           else id) (fsn n))).
Proof.
  subst fsn logn vl best wt due. cbn [fs_after].
  destruct (flt _ _), (save_due _ _ _); reflexivity.
Qed.

(** No directory appears or disappears. *)
Lemma fs_after_Dir n p : fsn n !! p = Some Dir <-> fs !! p = Some Dir.
Proof.
  pose proof fresh_log as Hlog. pose proof fresh_best as Hbest.
  pose proof fresh_plan as Hplan.
  induction n as [|n IH]; [reflexivity |].
  rewrite fs_after_S, lookup_insert. case_decide as E1.
  { subst p. rewrite Hlog. split; discriminate. }
  destruct (flt (vl n) (best n).1).
  { rewrite lookup_insert. case_decide as E2.
    { subst p. rewrite Hbest. split; discriminate. }
    destruct (due (Z.of_nat n)); [| exact IH].
    rewrite lookup_insert. case_decide as E3; [| exact IH].
    subst p. rewrite Hplan. split; discriminate. }
  unfold id at 1.
  destruct (due (Z.of_nat n)); [| exact IH].
  rewrite lookup_insert. case_decide as E3; [| exact IH].
  subst p. rewrite Hplan. split; discriminate.
Qed.

Lemma fs_after_ck n : fsn n !! ck = Some Dir.
Proof. apply fs_after_Dir, Hfresh. Qed.

Lemma fs_after_lg n : fsn n !! lg = Some Dir.
Proof. apply fs_after_Dir, Hfresh. Qed.

Lemma fs_after_not_Dir n p : fs !! p = None -> fsn n !! p <> Some Dir.
Proof. intros Hp H. apply fs_after_Dir in H. congruence. Qed.

(** The log holds the records of the epochs so far. *)
Lemma fs_after_log n :
  fsn n !! (lg ++ "/trainval.log")
  = match n with O => None | S _ => Some (File None (logn n)) end.
Proof.
  destruct n as [|n]; [apply fresh_log |].
  now rewrite fs_after_S, lookup_insert_eq.
Qed.

Lemma train_len : length train_dataloader <> 0%nat.
Proof. destruct train_dataloader; simpl; congruence. Qed.

Lemma valid_len : length valid_dataloader <> 0%nat.
Proof. destruct valid_dataloader; simpl; congruence. Qed.

(** One iteration, from the state the previous ones left. *)
Lemma epoch_body_step n :
  body (state n) (Z.of_nat n) (fsn n) = (Ok (state (S n)), fsn (S n)).
Proof.
  pose proof fresh_log as Hlog. pose proof fresh_best as Hbest.
  pose proof fresh_plan as Hplan.
  rewrite fs_after_S.
  subst body. unfold epoch_body, bind, lift, ret.
  rewrite (py_truediv_Ok _ _ train_len), (py_truediv_Ok _ _ valid_len).
  rewrite (py_mod_Ok _ _ Hevery).
  change (ps_loss (eval_pass metrics one_hot valid_dataloader
            (ps_net (train_pass metrics one_hot train_dataloader (ls_net (state n)))))
          / float_of_nat (length valid_dataloader))%float with (vl n).
  change (state_dict (ps_net (train_pass metrics one_hot train_dataloader
                                (ls_net (state n))))) with (wt n).
  change ((Z.of_nat n `mod` save_every =? 0) || (Z.of_nat n =? epochs - 1))
    with (due (Z.of_nat n)).
  change (best_loss (state n)) with (best n).1.
  change (best_epoch (state n)) with (best n).2.
  assert (best (S n) = if flt (vl n) (best n).1 then (vl n, Z.of_nat n) else best n)
    as Hbest_S by reflexivity.
  assert (state (S n)
          = {| ls_net := sched_step (ps_net (train_pass metrics one_hot train_dataloader
                                               (ls_net (state n))));
               best_loss := (best (S n)).1; best_epoch := (best (S n)).2 |})
    as -> by reflexivity.
  rewrite Hbest_S. clear Hbest_S.
  pose proof (fs_after_ck n) as Hck0. pose proof (fs_after_lg n) as Hlg0.
  pose proof (fs_after_log n) as Hlog0.
  pose proof (fs_after_not_Dir n _ Hbest) as Hb0.
  pose proof (fs_after_not_Dir n _ (Hplan (Z.of_nat n) (vl n))) as Hp0.
  assert (lg <> ck ++ "/best.pt") as Hne1.
  { intros E. rewrite E in Hlg0. congruence. }
  assert (lg <> ck ++ "/" ++ plan_name (Z.of_nat n) (vl n)) as Hne2.
  { intros E. rewrite E in Hlg0. congruence. }
  pose proof (plan_path_neq_log (Z.of_nat n) (vl n)) as Hne3.
  pose proof best_path_neq_log as Hne4.
  pose proof (plan_path_neq_best (Z.of_nat n) (vl n)) as Hne5.
  pose proof (path_join_neq_dir ck (plan_name (Z.of_nat n) (vl n))) as Hne6.
  pose proof (path_join_neq_dir ck "best.pt") as Hne7.
  change (ck ++ "/best.pt") with (ck ++ "/" ++ "best.pt") in *.
  change (lg ++ "/trainval.log") with (lg ++ "/" ++ "trainval.log") in *.
  assert (forall f : gmap string (node StateDict),
             f !! lg = Some Dir ->
             f !! (lg ++ "/" ++ "trainval.log") = fsn n !! (lg ++ "/" ++ "trainval.log") ->
             forall ln,
             append_text (lg ++ "/" ++ "trainval.log") ln f
             = (Ok tt, <[lg ++ "/" ++ "trainval.log"
                         := File None (logn n ++ ln)]> f)) as Happ.
  { intros f Hd Hl ln. rewrite Hlog0 in Hl. destruct n as [|n'].
    - rewrite append_text_new by auto using log_no_slash. reflexivity.
    - erewrite append_text_old by exact Hl. reflexivity. }
  change (logn (S n)) with (logn n ++ line_at train_dataloader valid_dataloader metrics
                                       epochs one_hot model n).
  destruct (due (Z.of_nat n)), (flt (vl n) (best n).1); unfold id.
  - rewrite torch_save_Ok by auto using plan_name_no_slash. cbv beta iota.
    rewrite torch_save_Ok;
      [| rewrite lookup_insert_ne by congruence; assumption | reflexivity
       | rewrite lookup_insert_ne by congruence; assumption ].
    cbv beta iota.
    rewrite Happ; [reflexivity | |];
      rewrite !lookup_insert_ne by congruence; auto.
  - rewrite torch_save_Ok by auto using plan_name_no_slash. cbv beta iota.
    rewrite Happ; [now destruct (best n) | |];
      rewrite !lookup_insert_ne by congruence; auto.
  - rewrite torch_save_Ok by auto. cbv beta iota.
    rewrite Happ; [reflexivity | |];
      rewrite !lookup_insert_ne by congruence; auto.
  - rewrite Happ by auto. now destruct (best n).
Qed.

(** The first [n] iterations. *)
Lemma epochs_prefix_Ok n :
  epochs_prefix train_dataloader valid_dataloader metrics epochs ck lg save_every
    one_hot n model fs
  = (Ok (state n), fsn n).
Proof.
  unfold epochs_prefix, py_range. induction n as [|n IH]; [reflexivity |].
  rewrite seqZ_S, for_each_app, IH. simpl for_each. unfold bind.
  rewrite Z.add_0_l. fold body. rewrite epoch_body_step. reflexivity.
Qed.


(** The running best: nothing yet, or the first minimum so far, whose
    weights [best.pt] holds. *)
Lemma best_after_cases n :
  (best n = (99999999.0%float, 0) /\
   (forall k, (k < n)%nat -> flt (vl k) 99999999.0%float = false) /\
   fsn n !! (ck ++ "/best.pt") = None)
  \/
  (exists b, first_min train_dataloader valid_dataloader metrics one_hot model n b /\
             best n = (vl b, Z.of_nat b) /\
             fsn n !! (ck ++ "/best.pt") = Some (File (Some (wt b)) EmptyString)).
Proof.
  induction n as [|n IH].
  - left. split; [reflexivity |]. split; [lia | apply fresh_best].
  - assert (best (S n) = if flt (vl n) (best n).1 then (vl n, Z.of_nat n) else best n)
      as Hb by reflexivity.
    assert (fsn (S n) !! (ck ++ "/best.pt")
            = if flt (vl n) (best n).1 then Some (File (Some (wt n)) EmptyString)
              else fsn n !! (ck ++ "/best.pt")) as Hf.
    { rewrite fs_after_S, lookup_insert_ne by apply not_eq_sym, best_path_neq_log.
      destruct (flt (vl n) (best n).1); [apply lookup_insert_eq |].
      unfold id. destruct (due (Z.of_nat n)); [| reflexivity].
      apply lookup_insert_ne, plan_path_neq_best. }
    rewrite Hb, Hf. clear Hb Hf.
    destruct IH as [(E & Hall & Hnone) | (b & (Hlt & Hsent & Hmin & Hfirst) & E & Hsome)];
      rewrite E; cbn [fst]; destruct (flt (vl n) _) eqn:Hn.
    + right. exists n. split; [| auto]. unfold first_min. fold vl.
      split; [lia |]. split; [exact Hn |]. split.
      * intros k Hk. destruct (decide (k = n)) as [-> | Hne]; [apply flt_irrefl |].
        destruct (flt (vl k) (vl n)) eqn:Hkn; [| reflexivity].
        rewrite <- (Hall k) by lia. symmetry. now apply (flt_trans _ (vl n)).
      * intros j Hj. destruct (fle (vl j) (vl n)) eqn:Hjn; [| reflexivity].
        rewrite <- (Hall j) by lia. symmetry. now apply (fle_flt_trans _ (vl n)).
    + left. split; [reflexivity |]. split; [| exact Hnone].
      intros k Hk. destruct (decide (k = n)) as [-> | Hne]; [exact Hn | apply Hall; lia].
    + right. exists n. split; [| auto]. unfold first_min. fold vl.
      split; [lia |]. split; [now apply (flt_trans _ (vl b)) |]. split.
      * intros k Hk. destruct (decide (k = n)) as [-> | Hne]; [apply flt_irrefl |].
        destruct (flt (vl k) (vl n)) eqn:Hkn; [| reflexivity].
        rewrite <- (Hmin k) by lia. symmetry. now apply (flt_trans _ (vl n)).
      * intros j Hj. destruct (fle (vl j) (vl n)) eqn:Hjn; [| reflexivity].
        rewrite <- (Hmin j) by lia. symmetry. now apply (fle_flt_trans _ (vl n)).
    + right. exists b. split; [| auto]. unfold first_min. fold vl.
      split; [lia |]. split; [exact Hsent |]. split; [| exact Hfirst].
      intros k Hk. destruct (decide (k = n)) as [-> | Hne]; [exact Hn | apply Hmin; lia].
Qed.

(** The first minimum is unique. *)
Lemma first_min_lt_absurd n b b' :
  first_min train_dataloader valid_dataloader metrics one_hot model n b ->
  first_min train_dataloader valid_dataloader metrics one_hot model n b' ->
  (b < b')%nat -> False.
Proof.
  unfold first_min. fold vl.
  intros (Hb & Hs & Hmin & Hfirst) (Hb' & Hs' & Hmin' & Hfirst') Hlt.
  specialize (Hfirst' b Hlt). specialize (Hmin b' Hb').
  revert Hfirst' Hmin Hs Hs'. unfold fle, flt.
  rewrite !ltb_spec, leb_spec. unfold SFltb, SFleb.
  destruct (Prim2SF (vl b)) as [[|]|[|]| |[|] m1 e1],
           (Prim2SF (vl b')) as [[|]|[|]| |[|] m2 e2],
           (Prim2SF 99999999.0%float) as [[|]|[|]| |[|] m3 e3];
    simpl; intros H1 H2 H3 H4; try discriminate; cmp_cases; try lia.
Qed.

Lemma first_min_unique n b b' :
  first_min train_dataloader valid_dataloader metrics one_hot model n b ->
  first_min train_dataloader valid_dataloader metrics one_hot model n b' ->
  b = b'.
Proof.
  intros H H'.
  destruct (Nat.lt_trichotomy b b') as [Hlt | [-> | Hlt]]; [| reflexivity |]; exfalso;
    eauto using first_min_lt_absurd.
Qed.

(** A periodic checkpoint, once written, stays. *)
Lemma fs_after_plan n e :
  (e < n)%nat -> due (Z.of_nat e) = true ->
  fsn n !! (ck ++ "/" ++ plan_name (Z.of_nat e) (vl e)) = Some (File (Some (wt e)) EmptyString).
Proof.
  intros He Hd. induction n as [|n IH]; [lia |].
  rewrite fs_after_S, lookup_insert_ne by apply not_eq_sym, plan_path_neq_log.
  assert (forall f : gmap string (node StateDict),
             (if flt (vl n) (best n).1
              then <[ck ++ "/best.pt" := File (Some (wt n)) EmptyString]> else id) f
               !! (ck ++ "/" ++ plan_name (Z.of_nat e) (vl e))
             = f !! (ck ++ "/" ++ plan_name (Z.of_nat e) (vl e))) as ->.
  { intros f. destruct (flt _ _); [| reflexivity].
    apply lookup_insert_ne, not_eq_sym, plan_path_neq_best. }
  destruct (decide (e = n)) as [-> | Hne].
  - rewrite Hd. apply lookup_insert_eq.
  - destruct (due (Z.of_nat n)); [| apply IH; lia].
    rewrite lookup_insert_ne; [apply IH; lia |].
    intros E. apply string_app_inv_head, string_app_inv_head, plan_name_inj in E. lia.
Qed.

(** Everything else is as it was before the loop. *)
Lemma fs_after_frame n p :
  p <> lg ++ "/trainval.log" -> p <> ck ++ "/best.pt" ->
  (forall e, (e < n)%nat -> due (Z.of_nat e) = true ->
             p <> ck ++ "/" ++ plan_name (Z.of_nat e) (vl e)) ->
  fsn n !! p = fs !! p.
Proof.
  intros Hl Hb Hp. induction n as [|n IH]; [reflexivity |].
  rewrite fs_after_S, lookup_insert_ne by congruence.
  assert (forall f : gmap string (node StateDict),
             (if flt (vl n) (best n).1
              then <[ck ++ "/best.pt" := File (Some (wt n)) EmptyString]> else id) f !! p
             = f !! p) as ->.
  { intros f. destruct (flt _ _); [| reflexivity]. apply lookup_insert_ne. congruence. }
  destruct (due (Z.of_nat n)) eqn:Hd.
  - rewrite lookup_insert_ne by (apply not_eq_sym, Hp; [lia | exact Hd]).
    apply IH. intros e He. apply Hp. lia.
  - apply IH. intros e He. apply Hp. lia.
Qed.

(** The log and the periodic checkpoints do not depend on the rename. *)
Lemma py_range_to_nat : py_range epochs = py_range (Z.of_nat (Z.to_nat epochs)).
Proof. unfold py_range, seqZ. now rewrite Nat2Z.id. Qed.

(** The loop and the rename that ends it. *)
Lemma train_loop_cases :
  let n := Z.to_nat epochs in
  ((forall k, (k < n)%nat -> flt (vl k) 99999999.0%float = false) /\
   fsn n !! (ck ++ "/best.pt") = None /\
   train_loop train_dataloader valid_dataloader metrics epochs ck lg save_every
     one_hot model fs
   = (Raise FileNotFoundError, fsn n))
  \/
  (exists b,
      first_min train_dataloader valid_dataloader metrics one_hot model n b /\
      train_loop train_dataloader valid_dataloader metrics epochs ck lg save_every
        one_hot model fs
      = (Ok tt,
         <[ck ++ "/" ++ best_name (Z.of_nat b) (vl b) := File (Some (wt b)) EmptyString]>
           (delete (ck ++ "/best.pt") (fsn n)))).
Proof.
  intros n. unfold train_loop, bind.
  rewrite py_range_to_nat. fold n.
  pose proof (epochs_prefix_Ok n) as Hrun. unfold epochs_prefix in Hrun.
  rewrite Hrun. cbn [best_epoch best_loss state].
  destruct (best_after_cases n) as [(E & Hall & Hnone) | (b & Hmin & E & Hsome)].
  - left. split; [exact Hall |]. split; [exact Hnone |].
    unfold os_rename. now rewrite Hnone.
  - right. exists b. split; [exact Hmin |].
    rewrite E. cbn [fst snd]. unfold os_rename. rewrite Hsome.
    pose proof (fs_after_not_Dir n _ (fresh_best_name (Z.of_nat b) (vl b))) as Hnd.
    rewrite (check_parent_join _ _ _ (fs_after_ck n) (best_name_no_slash _ _)).
    destruct (fsn n !! (ck ++ "/" ++ best_name (Z.of_nat b) (vl b))) as [[|? ?]|];
      congruence.
Qed.

(** [best.pt] after one more epoch. *)
Lemma fs_after_best_S n :
  fsn (S n) !! (ck ++ "/best.pt")
  = if flt (vl n) (best n).1 then Some (File (Some (wt n)) EmptyString)
    else fsn n !! (ck ++ "/best.pt").
Proof.
  rewrite fs_after_S, lookup_insert_ne by apply not_eq_sym, best_path_neq_log.
  destruct (flt (vl n) (best n).1); [apply lookup_insert_eq |].
  unfold id. destruct (due (Z.of_nat n)); [| reflexivity].
  apply lookup_insert_ne, plan_path_neq_best.
Qed.

(** A periodic checkpoint that exists was due. *)
Lemma fs_after_plan_inv n e l v :
  fsn n !! (ck ++ "/" ++ plan_name e l) = Some v ->
  exists e', (e' < n)%nat /\ due (Z.of_nat e') = true /\
             plan_name e l = plan_name (Z.of_nat e') (vl e').
Proof.
  induction n as [|n IH]; [rewrite fresh_plan; discriminate |].
  rewrite fs_after_S, lookup_insert_ne by apply not_eq_sym, plan_path_neq_log.
  assert (forall f : gmap string (node StateDict),
             (if flt (vl n) (best n).1
              then <[ck ++ "/best.pt" := File (Some (wt n)) EmptyString]> else id) f
               !! (ck ++ "/" ++ plan_name e l)
             = f !! (ck ++ "/" ++ plan_name e l)) as ->.
  { intros f. destruct (flt _ _); [| reflexivity].
    apply lookup_insert_ne, not_eq_sym, plan_path_neq_best. }
  destruct (due (Z.of_nat n)) eqn:Hd.
  - rewrite lookup_insert. case_decide as E.
    + intros _. exists n. split; [lia |]. split; [exact Hd |].
      now apply string_app_inv_head, string_app_inv_head in E.
    + intros H. destruct (IH H) as (e' & He' & Hd' & E'). exists e'. auto with lia.
  - intros H. destruct (IH H) as (e' & He' & Hd' & E'). exists e'. auto with lia.
Qed.

Lemma best_name_path_neq_best e l : ck ++ "/" ++ best_name e l <> ck ++ "/best.pt".
Proof.
  intros E. apply string_app_inv_head in E.
  destruct (best_name_head e l) as [r Hr]. rewrite Hr, !str_cons in E. discriminate E.
Qed.

Lemma best_name_path_neq_plan e l e' l' :
  ck ++ "/" ++ best_name e l <> ck ++ "/" ++ plan_name e' l'.
Proof.
  intros E. apply string_app_inv_head, string_app_inv_head in E.
  destruct (best_name_head e l) as [r Hr]. destruct (plan_name_head e' l') as [r' Hr'].
  rewrite Hr, Hr' in E. discriminate E.
Qed.

Lemma best_name_path_neq_log e l : ck ++ "/" ++ best_name e l <> lg ++ "/trainval.log".
Proof.
  intros E. apply path_join_inj in E as [_ E];
    auto using best_name_no_slash, log_no_slash.
  destruct (best_name_head e l) as [r Hr]. rewrite Hr in E. discriminate E.
Qed.

(** No renamed checkpoint exists during the loop. *)
Lemma fs_after_best_name n e l : fsn n !! (ck ++ "/" ++ best_name e l) = None.
Proof.
  rewrite fs_after_frame; [apply fresh_best_name | | |].
  - apply best_name_path_neq_log.
  - apply best_name_path_neq_best.
  - intros e' _ _. apply best_name_path_neq_plan.
Qed.

(** What the rename leaves of the loop's file system. *)
Lemma train_loop_frame p :
  p <> ck ++ "/best.pt" -> (forall e l, p <> ck ++ "/" ++ best_name e l) ->
  (train_loop train_dataloader valid_dataloader metrics epochs ck lg save_every
     one_hot model fs).2 !! p
  = fsn (Z.to_nat epochs) !! p.
Proof.
  intros Hb Hn.
  destruct train_loop_cases as [(_ & _ & ->) | (b & _ & ->)]; [reflexivity |].
  cbn [snd]. rewrite lookup_insert_ne by (apply not_eq_sym, Hn).
  now rewrite lookup_delete_ne by congruence.
Qed.

(** Every record of the log holds the averages over the batches. *)
Lemma line_at_mean e :
  line_at train_dataloader valid_dataloader metrics epochs one_hot model e
  = mean_line train_dataloader valid_dataloader metrics epochs one_hot model e.
Proof.
  unfold line_at, mean_line, train_loss_at, valid_loss_at, valid_pass_at, train_pass_at.
  destruct (train_pass_means metrics one_hot train_dataloader
              (net_at train_dataloader metrics one_hot model e)) as [-> ->].
  destruct (eval_pass_means metrics one_hot valid_dataloader
              (ps_net (train_pass metrics one_hot train_dataloader
                         (net_at train_dataloader metrics one_hot model e))))
    as [-> ->].
  reflexivity.
Qed.

Lemma log_after_mean n :
  logn n = mean_log train_dataloader valid_dataloader metrics epochs one_hot model n.
Proof.
  subst logn. induction n as [|n IH]; [reflexivity |].
  cbn [log_after mean_log]. now rewrite IH, line_at_mean.
Qed.

(** The best checkpoint files of the run directory during the loop. *)
Lemma fs_after_best_files n name :
  has_slash name = false -> is_best_file name = true ->
  is_Some (fsn n !! (ck ++ "/" ++ name))
  <-> name = "best.pt" /\ exists k, (k < n)%nat /\ flt (vl k) 99999999.0%float = true.
Proof.
  intros Hs Hb.
  assert (exists r, name = String "b" r) as [r Hr].
  { unfold is_best_file in Hb. destruct (strip_prefix "best" name) eqn:E; [| discriminate].
    apply strip_prefix_Some in E. rewrite E, str_cons. eauto. }
  assert (py_int name = None) as Hi by (rewrite Hr; now apply py_int_head).
  destruct (decide (name = "best.pt")) as [-> | Hne].
  - destruct (best_after_cases n) as [(_ & Hall & Hnone) | (b & Hmin & _ & Hsome)].
    + change (ck ++ "/" ++ "best.pt") with (ck ++ "/best.pt"). rewrite Hnone. split.
      * intros [? ?]. discriminate.
      * intros (_ & k & Hk & Hlt). rewrite Hall in Hlt by exact Hk. discriminate.
    + change (ck ++ "/" ++ "best.pt") with (ck ++ "/best.pt"). rewrite Hsome. split; [| eauto].
      intros _. split; [reflexivity |]. destruct Hmin as (Hb' & Hlt & _). eauto.
  - rewrite fs_after_frame.
    + destruct Hfresh as (_ & _ & Hf). rewrite (proj1 (Hf name Hs Hi)). split.
      * intros [? ?]. discriminate.
      * intros [? _]. contradiction.
    + intros E. apply path_join_inj in E as [_ E]; auto using log_no_slash.
      rewrite Hr in E. discriminate E.
    + intros E. apply string_app_inv_head in E. rewrite !str_cons, str_nil in E.
      injection E as E. contradiction.
    + intros e _ _ E. apply string_app_inv_head, string_app_inv_head in E.
      destruct (plan_name_head (Z.of_nat e) (vl e)) as [r' Hr'].
      rewrite Hr, Hr' in E. discriminate E.
Qed.

End LoopFacts.


(** ** Allocation of the run directories *)

Section AllocFacts.
Context {W : Type}.
Implicit Types (fs : gmap string (node W)) (d n : string).

Lemma alloc_run_dir_inv fs fs' parent d :
  alloc_run_dir parent fs = (Ok d, fs') ->
  exists z, d = parent ++ "/" ++ py_str z /\
            fs !! parent = Some Dir /\ fs !! d = None /\ fs' = <[d := Dir]> fs.
Proof.
  unfold alloc_run_dir, bind, lift, ret, path_join, os_listdir, os_mkdir.
  destruct (fs !! parent) as [[|b t]|] eqn:Hp; try discriminate.
  destruct (map_int _) as [ids|e]; [| discriminate].
  destruct (fs !! (parent ++ "/" ++ py_str (next_id ids))) eqn:Hd; [discriminate |].
  destruct (check_parent fs _); [| discriminate].
  intros [= <- <-]. eauto.
Qed.

Lemma wf_fs_parent fs d n v :
  wf_fs fs = true -> d <> EmptyString -> has_slash n = false ->
  fs !! (d ++ "/" ++ n) = Some v -> fs !! d = Some Dir.
Proof.
  unfold wf_fs. rewrite forallb_forall. intros Hwf Hd Hn Hv.
  specialize (Hwf (d ++ "/" ++ n, v)).
  unfold parent_exists in Hwf. cbn [fst] in Hwf.
  rewrite (split_path_join _ _ Hn) in Hwf.
  destruct (String.eqb_spec d EmptyString); [contradiction |].
  cbn [orb] in Hwf.
  assert (is_dir (fs !! d) = true) as Hdir.
  { apply Hwf. apply list_elem_of_In. now apply elem_of_map_to_list. }
  unfold is_dir in Hdir. destruct (fs !! d) as [[|? ?]|]; congruence.
Qed.

Lemma path_join_nonempty d n : d ++ "/" ++ n <> EmptyString.
Proof.
  intros E. apply (f_equal String.length) in E.
  rewrite string_app_length, str_cons in E. simpl in E. lia.
Qed.

(** A name that is no integer is not the name of a run directory. *)
Lemma not_int_not_run_dir (d d' n : string) (z : Z) :
  has_slash n = false -> py_int n = None -> d ++ "/" ++ n <> d' ++ "/" ++ py_str z.
Proof.
  intros Hn Hi E. apply path_join_inj in E as [_ ->]; auto using py_str_no_slash.
  rewrite py_int_str in Hi. discriminate Hi.
Qed.
End AllocFacts.

Section TrainFacts.
Context `{C : Collaborators}.
Implicit Types (fs : gmap string (node StateDict)).

(** After the two allocations of [train], the run directories are fresh. *)
Lemma fresh_after_alloc fs0 fs1 fs2 checkpoints logs ck lg :
  wf_fs fs0 = true ->
  alloc_run_dir checkpoints fs0 = (Ok ck, fs1) ->
  alloc_run_dir logs fs1 = (Ok lg, fs2) ->
  fresh_run ck lg fs2.
Proof.
  intros Hwf H1 H2.
  apply alloc_run_dir_inv in H1 as (z1 & -> & Hp1 & Hn1 & ->).
  apply alloc_run_dir_inv in H2 as (z2 & -> & Hp2 & Hn2 & ->).
  set (ck := checkpoints ++ "/" ++ py_str z1) in *.
  set (lg := logs ++ "/" ++ py_str z2) in *.
  assert (lg <> ck) as Hne.
  { intros E. rewrite E, lookup_insert_eq in Hn2. discriminate Hn2. }
  rewrite lookup_insert_ne in Hn2 by congruence.
  unfold fresh_run. split; [| split].
  - rewrite lookup_insert_ne by congruence. apply lookup_insert_eq.
  - apply lookup_insert_eq.
  - intros n Hn Hi. split.
    + rewrite lookup_insert_ne by (apply not_eq_sym, not_int_not_run_dir; assumption).
      rewrite lookup_insert_ne by apply not_eq_sym, path_join_neq_dir.
      destruct (fs0 !! (ck ++ "/" ++ n)) as [v|] eqn:E; [| reflexivity].
      apply (wf_fs_parent _ ck n v Hwf (path_join_nonempty _ _) Hn) in E. congruence.
    + rewrite lookup_insert_ne by apply not_eq_sym, path_join_neq_dir.
      rewrite lookup_insert_ne by (apply not_eq_sym, not_int_not_run_dir; assumption).
      destruct (fs0 !! (lg ++ "/" ++ n)) as [v|] eqn:E; [| reflexivity].
      apply (wf_fs_parent _ lg n v Hwf (path_join_nonempty _ _) Hn) in E. congruence.
Qed.

(** [train] is the loop in the two directories it allocates. *)
Lemma train_unfold fs0 fs1 fs2 tdl vdl model metrics epochs checkpoints logs
    save_every one_hot ck lg :
  alloc_run_dir checkpoints fs0 = (Ok ck, fs1) ->
  alloc_run_dir logs fs1 = (Ok lg, fs2) ->
  train tdl vdl model metrics epochs checkpoints logs save_every one_hot fs0
  = train_loop tdl vdl metrics epochs ck lg save_every one_hot model fs2.
Proof. intros H1 H2. unfold train, bind. now rewrite H1, H2. Qed.

End TrainFacts.


(** ** The best checkpoint files of a directory *)

Section BestFiles.
Context {W : Type}.
Implicit Types (fs : gmap string (node W)) (d n : string).

Lemma children_elem fs d n :
  n ∈ children d fs
  <-> has_slash n = false /\ n <> EmptyString /\ is_Some (fs !! (d ++ "/" ++ n)).
Proof.
  unfold children. split.
  - intros (k & Hk & Hc)%list_elem_of_omap.
    apply child_name_Some in Hc as (-> & Hs & Hne).
    apply list_elem_of_fmap in Hk as ([k v] & -> & Hkv).
    apply elem_of_map_to_list in Hkv. simpl. eauto.
  - intros (Hs & Hne & [v Hv]).
    apply list_elem_of_omap. exists (d ++ "/" ++ n). split.
    + apply list_elem_of_fmap. exists (d ++ "/" ++ n, v). split; [reflexivity |].
      now apply elem_of_map_to_list.
    + apply child_name_Some. auto.
Qed.

Lemma NoDup_omap_inj {A B} (f : A -> option B) (l : list A) :
  (forall x y z, f x = Some z -> f y = Some z -> x = y) ->
  NoDup l -> NoDup (omap f l).
Proof.
  intros Hinj. induction 1 as [|x l Hx Hl IH]; [constructor |].
  cbn. destruct (f x) as [z|] eqn:E; [| exact IH].
  constructor; [| exact IH].
  intros (y & Hy & Ey)%list_elem_of_omap.
  rewrite (Hinj _ _ _ E Ey) in Hx. contradiction.
Qed.

Lemma children_NoDup fs d : NoDup (children d fs).
Proof.
  unfold children. apply NoDup_omap_inj.
  - intros x y z Hx Hy. apply child_name_Some in Hx as (-> & _).
    apply child_name_Some in Hy as (-> & _). reflexivity.
  - apply (NoDup_fst_map_to_list fs).
Qed.

Lemma best_files_In fs d n :
  In n (best_files d fs)
  <-> is_best_file n = true /\ has_slash n = false /\ is_Some (fs !! (d ++ "/" ++ n)).
Proof.
  unfold best_files. rewrite filter_In, <- list_elem_of_In, children_elem.
  split; [tauto |]. intros (Hb & Hs & Hv). repeat split; auto.
  intros ->. discriminate Hb.
Qed.

Lemma best_files_NoDup fs d : List.NoDup (best_files d fs).
Proof.
  unfold best_files. apply List.NoDup_filter.
  apply NoDup_ListNoDup, children_NoDup.
Qed.

Lemma NoDup_singleton_eq {A} (l : list A) (a : A) :
  List.NoDup l -> (forall x, In x l <-> x = a) -> l = [a].
Proof.
  intros Hnd Hin. destruct l as [|x l].
  - exfalso. apply (proj2 (Hin a) eq_refl).
  - assert (x = a) as -> by (apply Hin; now left).
    destruct l as [|y l]; [reflexivity |]. exfalso.
    assert (y = a) as -> by (apply Hin; right; now left).
    inversion Hnd as [|? ? Hni _]. apply Hni. now left.
Qed.

Lemma no_elem_nil {A} (l : list A) : (forall x, ~ In x l) -> l = [].
Proof. destruct l as [|x l]; [reflexivity |]. intros H. destruct (H x). now left. Qed.
End BestFiles.


(** ** The layout of a record *)

Section RecordFormatFacts.
Context `{C : Collaborators}.

Lemma string_app_nil_r (s : string) : s ++ EmptyString = s.
Proof. induction s as [|c s IH]; [done|]. by rewrite str_cons, IH. Qed.

Lemma string_concat_cons2 (sep a b : string) (r : list string) :
String.concat sep (a :: b :: r) = a ++ sep ++ String.concat sep (b :: r).
Proof. reflexivity. Qed.

Lemma enumerate_entries (h : string -> Scalar -> string) (names : list string)
  (l : list Scalar) (k : nat) :
(k + length l <= length names)%nat ->
map (fun '(i, v) => h (default EmptyString (names !! i)) v) (zip (seq k (length l)) l)
= zip_with h (drop k names) l.
Proof.
revert k. induction l as [|x l IH]; intros k Hk.
- by destruct (drop k names).
- cbn [length seq zip zip_with map]. cbn [length] in Hk.
  destruct (names !! k) as [n|] eqn:En.
  2:{ apply lookup_ge_None in En. lia. }
  rewrite (drop_S _ _ _ En). cbn [zip_with default].
  f_equal. apply IH. lia.
Qed.

Lemma train_str_fold (names : list string) (l : list (nat * Scalar)) (acc : string) :
fold_left
  (fun acc '(i, metric) =>
     acc ++ "train_" ++ default EmptyString (names !! i) ++ ": " ++ scalar_repr metric ++ " ")
  l acc
= acc ++ String.concat EmptyString
           (map (fun s => s ++ " ")
              (map (fun '(i, v) =>
                      metric_entry "train_" (default EmptyString (names !! i)) v) l)).
Proof.
revert acc. induction l as [|[i v] l IH]; intros acc.
- cbn. by rewrite string_app_nil_r.
- cbn [fold_left map]. rewrite IH. unfold metric_entry.
  destruct l as [|[j w] l].
  + cbn. rewrite !string_app_nil_r, !string_app_assoc. done.
  + cbn [map]. rewrite string_concat_cons2. cbn [map].
    rewrite str_nil, !string_app_assoc. done.
Qed.

Lemma last_str_fold (prefix : string) (names : list string) (N : nat)
  (l : list Scalar) (k : nat) (acc : string) :
(k + length l = N)%nat -> l <> [] ->
fold_left
  (fun acc '(i, metric) =>
     if bool_decide (i ≠ (N - 1)%nat)
     then acc ++ prefix ++ default EmptyString (names !! i) ++ ": " ++ scalar_repr metric ++ " "
     else acc ++ prefix ++ default EmptyString (names !! i) ++ ": " ++ scalar_repr metric
              ++ String (ascii_of_nat 10) EmptyString)
  (zip (seq k (length l)) l) acc
= acc ++ String.concat " "
           (map (fun '(i, v) =>
                   metric_entry prefix (default EmptyString (names !! i)) v)
              (zip (seq k (length l)) l))
      ++ String (ascii_of_nat 10) EmptyString.
Proof.
revert k acc. induction l as [|x l IH]; intros k acc Hk Hne; [done|].
cbn [length seq zip fold_left map]. cbn [length] in Hk.
destruct l as [|y l].
- cbn [length] in Hk.
  rewrite bool_decide_eq_false_2 by (intros H; apply H; lia).
  cbn. unfold metric_entry. rewrite ?string_app_nil_r, !string_app_assoc. done.
- rewrite bool_decide_eq_true_2 by (cbn [length] in Hk; lia).
  rewrite (IH (S k)) by (done || lia).
  cbn [length seq zip map]. rewrite string_concat_cons2. unfold metric_entry.
  rewrite !string_app_assoc. done.
Qed.

Lemma last_str_entries (prefix : string) (names : list string) (mvct : list Scalar) :
length mvct = length names ->
last_str prefix names mvct
= match names with
  | [] => EmptyString
  | _ => String.concat " " (zip_with (metric_entry prefix) names mvct)
           ++ String (ascii_of_nat 10) EmptyString
  end.
Proof.
intros Hl. unfold last_str, enumerate.
destruct mvct as [|x mvct].
- destruct names; [done|done].
- rewrite (last_str_fold prefix names (length (x :: mvct)) (x :: mvct) 0 EmptyString)
    by done.
  rewrite (enumerate_entries (metric_entry prefix) names (x :: mvct) 0)
    by (rewrite Hl; lia).
  rewrite drop_0. destruct names; [done|]. by rewrite str_nil.
Qed.

Lemma train_str_entries (names : list string) (mvct : list Scalar) :
length mvct = length names ->
train_str names mvct
= String.concat EmptyString (map (fun s => s ++ " ") (zip_with (metric_entry "train_") names mvct)).
Proof.
intros Hl. unfold train_str, enumerate. rewrite train_str_fold.
rewrite (enumerate_entries (metric_entry "train_") names mvct 0) by (rewrite Hl; lia).
by rewrite drop_0, str_nil.
Qed.

(** The entries of the metrics, each with its own name. *)
Lemma zip_with_entries (prefix : string) (metrics : list Metric) (f : Metric -> Scalar) :
zip_with (metric_entry prefix) (map name metrics) (map f metrics)
= map (fun m => prefix ++ name m ++ ": " ++ scalar_repr (f m)) metrics.
Proof. induction metrics as [|m l IH]; [done|]. cbn. by rewrite IH. Qed.

End RecordFormatFacts.

(** [float(n)] is the binary64 number nearest to [n]. *)
Lemma float_of_nat_spec (n : nat) :
  Z.of_nat n < 2 ^ 63 ->
  Prim2SF (float_of_nat n) = binary_normalize prec emax (Z.of_nat n) 0 false.
Proof.
  intros Hn. unfold float_of_nat. rewrite of_uint63_spec. f_equal.
  rewrite Uint63.of_Z_spec. apply Z.mod_small. split; [lia|exact Hn].
Qed.


(** * The claims *)

Section Allocator.
Context `{C : Collaborators}.
Implicit Types (fs : gmap string (node StateDict)).

(** C3.  When the immediate children of the parent directory are the
    entries named [0], [1], ..., [m - 1], in any order, the allocator
    creates the new subdirectory named [m] and returns its path: for the
    entries [{0, ..., k}] that is [k + 1 = max + 1], for an empty parent
    directory ([m = 0]) it is [0].  [train] runs its loop in that
    directory and [test] writes its log there. *)
Theorem alloc_run_dir_next fs parent names (m : nat) :
  os_listdir parent fs = (Ok names, fs) ->
  names ≡ₚ map (fun i => py_str (Z.of_nat i)) (seq 0 m) ->
  let new := parent ++ "/" ++ py_str (Z.of_nat m) in
  fs !! new = None /\
  alloc_run_dir parent fs = (Ok new, <[new := Dir]> fs) /\
  (forall tdl vdl model metrics epochs logs save_every one_hot,
      train tdl vdl model metrics epochs parent logs save_every one_hot fs
      = (do lg <- alloc_run_dir logs;
         train_loop tdl vdl metrics epochs new lg save_every one_hot model)
          (<[new := Dir]> fs)) /\
  (forall dl model metrics one_hot,
      test dl model metrics parent one_hot fs
      = (do test_loss <- lift (py_truediv
                                 (ps_loss (eval_pass metrics one_hot dl model))
                                 (length dl));
         do_ append_text (new ++ "/test.log")
               (test_line test_loss (map name metrics)
                  (average_metrics (ps_mvct (eval_pass metrics one_hot dl model))
                     (length dl)));
         ret new) (<[new := Dir]> fs)).
Proof.
  intros Hl Hp new.
  assert (exists ids, names = map py_str ids /\ ids ≡ₚ map Z.of_nat (seq 0 m))
    as (ids & -> & Hids).
  { rewrite <- (map_map Z.of_nat py_str) in Hp.
    apply Permutation_map_inv in Hp as (ids & E & Hp').
    exists ids. split; [exact E | symmetry; exact Hp']. }
  destruct (alloc_run_dir_Ok fs parent _ ids Hl (map_int_str ids)) as [Hnew Halloc].
  rewrite (next_id_iota ids m Hids) in Hnew, Halloc. fold new in Hnew, Halloc.
  split; [exact Hnew |]. split; [exact Halloc |]. split.
  - intros. unfold train. unfold bind at 1. now rewrite Halloc.
  - intros. unfold test. unfold bind at 1. now rewrite Halloc.
Qed.


End Allocator.


Section Run.
Context `{C : Collaborators}.
Variables (train_dataloader valid_dataloader : list (Imgs * Labels)).
Variables (model : Net) (metrics : list Metric) (epochs : Z).
Variables (checkpoints logs : string) (save_every : Z) (one_hot : bool).
(** The file system before [train], after the allocation of the checkpoint
    directory [ck], after the allocation of the log directory [lg]. *)
Variables (fs0 fs1 fs2 : gmap string (node StateDict)) (ck lg : string).

Hypothesis Hwf : wf_fs fs0 = true.
Hypothesis Hck : alloc_run_dir checkpoints fs0 = (Ok ck, fs1).
Hypothesis Hlg : alloc_run_dir logs fs1 = (Ok lg, fs2).

Let vl := valid_loss_at train_dataloader valid_dataloader metrics one_hot model.
Let wt := weights_at train_dataloader metrics one_hot model.
Let result := train train_dataloader valid_dataloader model metrics epochs
                checkpoints logs save_every one_hot fs0.
Let prefix (n : nat) :=
  epochs_prefix train_dataloader valid_dataloader metrics epochs ck lg save_every
    one_hot n model fs2.
Let is_min := first_min train_dataloader valid_dataloader metrics one_hot model.
Let improved (n : nat) : bool :=
  existsb (fun k => flt (vl k) 99999999.0%float) (seq 0 n).

Lemma run_fresh : fresh_run ck lg fs2.
Proof. exact (fresh_after_alloc _ _ _ _ _ _ _ Hwf Hck Hlg). Qed.

Lemma run_result :
  result = train_loop train_dataloader valid_dataloader metrics epochs ck lg
             save_every one_hot model fs2.
Proof. apply train_unfold with (fs1 := fs1); assumption. Qed.

Lemma improved_spec n :
  improved n = true <-> exists k, (k < n)%nat /\ flt (vl k) 99999999.0%float = true.
Proof.
  unfold improved. rewrite existsb_exists. split.
  - intros (k & Hk & Hlt). apply in_seq in Hk. exists k. split; [lia | exact Hlt].
  - intros (k & Hk & Hlt). exists k. split; [apply in_seq; lia | exact Hlt].
Qed.

(** C10 (as amended).  With a dataloader of zero batches, [test] raises
    [ZeroDivisionError] at the division of the accumulated loss, right after
    the allocation of its log directory and before anything is logged; and
    so does [train] in its first epoch, when [epochs] is at least one. *)
Theorem zero_batches_raise :
  0 < epochs ->
  train_dataloader = [] \/ valid_dataloader = [] ->
  result = (Raise ZeroDivisionError, fs2) /\
  (forall model' metrics' one_hot',
      test [] model' metrics' logs one_hot' fs1 = (Raise ZeroDivisionError, fs2)).
Proof.
  intros Hpos Hzero. split.
  - subst result. unfold train, bind. rewrite Hck, Hlg.
    unfold train_loop, bind, py_range. rewrite seqZ_cons by lia.
    cbn [for_each]. unfold bind.
    assert (forall st e, epoch_body train_dataloader valid_dataloader metrics epochs
                           ck lg save_every one_hot st e fs2
                         = (Raise ZeroDivisionError, fs2)) as ->; [| reflexivity].
    intros st e. unfold epoch_body, bind, lift.
    destruct train_dataloader as [|b tdl]; [reflexivity |].
    destruct Hzero as [Hz | ->]; [discriminate Hz |].
    rewrite py_truediv_Ok by (cbn; lia). reflexivity.
  - intros. unfold test, bind, lift. now rewrite Hlg.
Qed.

(** C9 (as amended).  When [epochs] is zero, or when every epoch completes (the
    dataloaders are not empty and [save_every] is not zero) without any
    validation loss strictly below the initial [best_loss] [99999999.0],
    [best.pt] is never written, the rename after the loop raises
    [FileNotFoundError], and the run directory is left without a best
    checkpoint. *)
Theorem train_no_best_checkpoint :
  epochs = 0 \/
  (train_dataloader <> [] /\ valid_dataloader <> [] /\ save_every <> 0 /\
   forall e, (e < Z.to_nat epochs)%nat -> flt (vl e) 99999999.0%float = false) ->
  result.1 = Raise FileNotFoundError /\
  (forall n, (n <= Z.to_nat epochs)%nat ->
             exists st, prefix n = (Ok st, (prefix n).2) /\
                        (prefix n).2 !! (ck ++ "/best.pt") = None) /\
  best_files ck result.2 = [].
Proof.
  pose proof run_fresh as Hf. rewrite run_result. subst prefix. cbv beta.
  assert (forall f : gmap string (node StateDict),
             (forall n, has_slash n = false -> py_int n = None ->
                        f !! (ck ++ "/" ++ n) = None) ->
             best_files ck f = []) as Hnone.
  { intros f Hnf. apply no_elem_nil. intros n (Hb & Hs & [v Hv])%best_files_In.
    rewrite Hnf in Hv; [discriminate | exact Hs |].
    unfold is_best_file in Hb. destruct (strip_prefix "best" n) eqn:E; [| discriminate].
    apply strip_prefix_Some in E. rewrite E, str_cons. now apply py_int_head. }
  intros [-> | (Ht & Hv & He & Hall)].
  - assert (fs2 !! (ck ++ "/best.pt") = None) as Hb by now apply Hf.
    assert (train_loop train_dataloader valid_dataloader metrics 0 ck lg save_every
              one_hot model fs2 = (Raise FileNotFoundError, fs2)) as ->.
    { unfold train_loop, bind, py_range. rewrite seqZ_nil by lia.
      cbn [for_each]. unfold ret, os_rename. cbn [loop_init best_epoch best_loss].
      now rewrite Hb. }
    split; [reflexivity |]. split.
    + intros n Hn. change (Z.to_nat 0) with 0%nat in Hn. assert (n = 0%nat) as -> by lia.
      eexists. split; [reflexivity | exact Hb].
    + cbn [snd]. apply Hnone. intros n Hs Hi. now apply Hf.
  - destruct (train_loop_cases train_dataloader valid_dataloader metrics epochs ck lg
                save_every one_hot model fs2 Ht Hv He Hf)
      as [(_ & Hb & ->) | (b & (Hlt & Hsent & _) & _)].
    2: { fold vl in Hsent. rewrite Hall in Hsent by exact Hlt. discriminate. }
    split; [reflexivity |]. split.
    + intros n Hn.
      rewrite (epochs_prefix_Ok train_dataloader valid_dataloader metrics epochs ck lg
                 save_every one_hot model fs2 Ht Hv He Hf n).
      eexists. split; [reflexivity |]. cbn [snd].
      destruct (best_after_cases train_dataloader valid_dataloader metrics epochs ck lg
                  save_every one_hot model fs2 Hf n)
        as [(_ & _ & Hnb) | (b & (Hlt & Hsent & _) & _)]; [exact Hnb |].
      fold vl in Hsent. rewrite Hall in Hsent by lia. discriminate.
    + cbn [snd]. apply no_elem_nil. intros n (Hbf & Hs & Hsome)%best_files_In.
      apply (fs_after_best_files train_dataloader valid_dataloader metrics epochs ck lg
               save_every one_hot model fs2 Hf _ _ Hs Hbf) in Hsome
        as (_ & k & Hk & Hlt).
      fold vl in Hlt. rewrite Hall in Hlt by exact Hk. discriminate.
Qed.

Section Epochs.
Hypothesis Htrain : train_dataloader <> [].
Hypothesis Hvalid : valid_dataloader <> [].
Hypothesis Hevery : save_every <> 0.

Let fsn := fs_after train_dataloader valid_dataloader metrics epochs ck lg
             save_every one_hot model fs2.
Let best := best_after train_dataloader valid_dataloader metrics one_hot model.

Lemma prefix_Ok n :
  prefix n
  = (Ok {| ls_net := net_at train_dataloader metrics one_hot model n;
           best_loss := (best n).1; best_epoch := (best n).2 |}, fsn n).
Proof. apply epochs_prefix_Ok; auto using run_fresh. Qed.

Lemma result_cases :
  ((forall k, (k < Z.to_nat epochs)%nat -> flt (vl k) 99999999.0%float = false) /\
   result = (Raise FileNotFoundError, fsn (Z.to_nat epochs)))
  \/
  (exists b, is_min (Z.to_nat epochs) b /\
             result = (Ok tt,
                       <[ck ++ "/" ++ best_name (Z.of_nat b) (vl b)
                         := File (Some (wt b)) EmptyString]>
                         (delete (ck ++ "/best.pt") (fsn (Z.to_nat epochs))))).
Proof.
  rewrite run_result.
  destruct (train_loop_cases train_dataloader valid_dataloader metrics epochs ck lg
              save_every one_hot model fs2 Htrain Hvalid Hevery run_fresh)
    as [(H1 & _ & H2) | (b & H1 & H2)]; [left | right]; eauto.
Qed.

Lemma result_frame p :
  p <> ck ++ "/best.pt" -> (forall e l, p <> ck ++ "/" ++ best_name e l) ->
  result.2 !! p = fsn (Z.to_nat epochs) !! p.
Proof.
  rewrite run_result. apply train_loop_frame; auto using run_fresh.
Qed.

(** When some epoch improves on the initial [best_loss], the run ends
    normally with the renamed checkpoint of the first minimum as its
    only best checkpoint. *)
Lemma result_best :
  (exists e, (e < Z.to_nat epochs)%nat /\ flt (vl e) 99999999.0%float = true) ->
  exists b,
    is_min (Z.to_nat epochs) b /\
    result.1 = Ok tt /\
    result.2 !! (ck ++ "/" ++ best_name (Z.of_nat b) (vl b))
    = Some (File (Some (wt b)) EmptyString) /\
    best_files ck result.2 = [best_name (Z.of_nat b) (vl b)].
Proof.
  intros (e & He & Hlt).
  destruct result_cases as [(Hall & _) | (b & Hmin & Hres)].
  { rewrite Hall in Hlt by exact He. discriminate. }
  exists b. split; [exact Hmin |]. rewrite Hres. cbn [fst snd].
    split; [reflexivity |]. split; [apply lookup_insert_eq |].
    apply NoDup_singleton_eq; [apply best_files_NoDup |].
    intros name. rewrite best_files_In. split.
    + intros (Hb & Hs & Hsome).
      destruct (decide (name = best_name (Z.of_nat b) (vl b))) as [-> | Hne];
        [reflexivity |].
      exfalso. rewrite lookup_insert_ne in Hsome
        by (intros E; apply string_app_inv_head, string_app_inv_head in E; congruence).
      destruct (decide (name = "best.pt")) as [-> | Hne'].
      * change (ck ++ "/" ++ "best.pt") with (ck ++ "/best.pt") in Hsome.
        rewrite lookup_delete_eq in Hsome. destruct Hsome; discriminate.
      * rewrite lookup_delete_ne in Hsome
          by (intros E; apply string_app_inv_head in E;
              rewrite !str_cons, str_nil in E; congruence).
        apply (fs_after_best_files train_dataloader valid_dataloader metrics epochs
                 ck lg save_every one_hot model fs2 run_fresh _ _ Hs Hb) in Hsome
          as [? _].
        contradiction.
    + intros ->. split; [| split; [apply best_name_no_slash |]].
      * destruct (best_name_head (Z.of_nat b) (vl b)) as [r ->]. reflexivity.
      * rewrite lookup_insert_eq. eauto.
Qed.

(** C1 (as amended).  In every epoch whose validation loss is strictly
    below the current [best_loss], [best.pt] is overwritten with the
    weights of that epoch and [best_loss] and [best_epoch] become that
    loss and that epoch; in every other epoch the three are left alone.
    When at least one epoch has a validation loss strictly below the
    initial [best_loss] [99999999.0], [train] ends normally and the only
    best checkpoint of the run directory is
    [best_{epoch}_{loss:.2f}.pt] for the first epoch of minimum
    validation loss and that loss: it holds the weights of that epoch. *)
Theorem train_best_checkpoint :
  (exists e, (e < Z.to_nat epochs)%nat /\ flt (vl e) 99999999.0%float = true) ->
  (forall n,
      (n < Z.to_nat epochs)%nat ->
      exists st st' f f',
        prefix n = (Ok st, f) /\ prefix (S n) = (Ok st', f') /\
        if flt (vl n) (best_loss st)
        then best_loss st' = vl n /\ best_epoch st' = Z.of_nat n /\
             f' !! (ck ++ "/best.pt") = Some (File (Some (wt n)) EmptyString)
        else best_loss st' = best_loss st /\ best_epoch st' = best_epoch st /\
             f' !! (ck ++ "/best.pt") = f !! (ck ++ "/best.pt")) /\
  exists b,
    is_min (Z.to_nat epochs) b /\
    result.1 = Ok tt /\
    result.2 !! (ck ++ "/" ++ best_name (Z.of_nat b) (vl b))
    = Some (File (Some (wt b)) EmptyString) /\
    best_files ck result.2 = [best_name (Z.of_nat b) (vl b)].
Proof.
  intros Hex. split.
  - intros n Hn. rewrite !prefix_Ok. eexists _, _, _, _.
    split; [reflexivity |]. split; [reflexivity |].
    cbn [best_loss best_epoch].
    subst fsn. rewrite (fs_after_best_S train_dataloader valid_dataloader metrics
                          epochs ck lg save_every one_hot model fs2).
    subst best. cbn [best_after]. fold vl wt.
    destruct (flt (vl n) _); auto.
  - now apply result_best.
Qed.

(** C7 (as amended).  At the start of the first epoch and after every
    iteration of the epoch loop, the run's checkpoint directory holds at
    most one best checkpoint: none as long as no epoch had a validation
    loss strictly below [99999999.0], and exactly one, [best.pt], from
    the first such epoch on. *)
Theorem best_files_during_training n :
  (n <= Z.to_nat epochs)%nat ->
  exists st f,
    prefix n = (Ok st, f) /\
    best_files ck f = if improved n then ["best.pt"] else [].
Proof.
  intros _. rewrite prefix_Ok. eexists _, _. split; [reflexivity |].
  pose proof (fs_after_best_files train_dataloader valid_dataloader metrics epochs
                ck lg save_every one_hot model fs2 run_fresh n) as Hbf.
  fold fsn vl in Hbf.
  destruct (improved n) eqn:Himp.
  - apply improved_spec in Himp.
    apply NoDup_singleton_eq; [apply best_files_NoDup |].
    intros name. rewrite best_files_In. split.
    + intros (Hb & Hs & Hsome). now apply (Hbf _ Hs Hb) in Hsome.
    + intros ->. split; [reflexivity |]. split; [reflexivity |].
      apply (Hbf "best.pt"); auto.
  - apply no_elem_nil. intros name (Hb & Hs & Hsome)%best_files_In.
    apply (Hbf _ Hs Hb) in Hsome as [_ Hex].
    apply improved_spec in Hex. congruence.
Qed.

Lemma save_due_spec (e : Z) :
  save_due epochs save_every e = true
  <-> e mod save_every = 0 \/ e = epochs - 1.
Proof. unfold save_due. rewrite orb_true_iff, !Z.eqb_eq. reflexivity. Qed.

Lemma result_plan (e : nat) (l : float) :
  result.2 !! (ck ++ "/" ++ plan_name (Z.of_nat e) l)
  = fsn (Z.to_nat epochs) !! (ck ++ "/" ++ plan_name (Z.of_nat e) l).
Proof.
  apply result_frame.
  - apply plan_path_neq_best.
  - intros e' l'. apply not_eq_sym, best_name_path_neq_plan.
Qed.

(** The periodic checkpoints a run leaves. *)
Lemma periodic_checkpoints (e : nat) :
  ((exists l, is_Some (result.2 !! (ck ++ "/" ++ plan_name (Z.of_nat e) l)))
   <-> Z.of_nat e < epochs /\
       (Z.of_nat e mod save_every = 0 \/ Z.of_nat e = epochs - 1)) /\
  (Z.of_nat e < epochs ->
   Z.of_nat e mod save_every = 0 \/ Z.of_nat e = epochs - 1 ->
   result.2 !! (ck ++ "/" ++ plan_name (Z.of_nat e) (vl e))
   = Some (File (Some (wt e)) EmptyString)).
Proof.
  assert (Z.of_nat e < epochs ->
          Z.of_nat e mod save_every = 0 \/ Z.of_nat e = epochs - 1 ->
          result.2 !! (ck ++ "/" ++ plan_name (Z.of_nat e) (vl e))
          = Some (File (Some (wt e)) EmptyString)) as Hif.
  { intros He Hd%save_due_spec. rewrite result_plan.
    apply fs_after_plan; auto using run_fresh. lia. }
  split; [| exact Hif]. split.
  - intros (l & [v Hv]). rewrite result_plan in Hv.
    apply (fs_after_plan_inv train_dataloader valid_dataloader metrics epochs ck lg
             save_every one_hot model fs2 run_fresh) in Hv
      as (e' & He' & Hd & E).
    apply plan_name_inj in E. subst e'. split; [lia | now apply save_due_spec].
  - intros [He Hd]. exists (vl e). rewrite (Hif He Hd). eauto.
Qed.

(** C4.  In every epoch the averaged loss and the averaged value of every
    metric are the sum of the per-batch values of that epoch, from zero
    on, divided by the number of batches (for the loss: by the binary64
    number nearest to it, in binary64; for a metric: by the division of
    its tensors); and the log the run leaves holds, for every epoch in
    turn, the record made of these averages: the number of the epoch,
    the two losses, and every metric under its own name, first for the
    training and then for the validation batches. *)
Theorem train_log_means :
  (forall e,
      train_loss_at train_dataloader metrics one_hot model e
      = float_mean (train_values loss_item one_hot train_dataloader
                      (net_at train_dataloader metrics one_hot model e)) /\
      vl e
      = float_mean (eval_values loss_item one_hot valid_dataloader
                      (ps_net (train_pass_at train_dataloader metrics one_hot
                                 model e))) /\
      average_metrics
        (ps_mvct (train_pass_at train_dataloader metrics one_hot model e))
        (length train_dataloader)
      = map (fun m => scalar_mean
                        (train_values (calc m) one_hot train_dataloader
                           (net_at train_dataloader metrics one_hot model e)))
            metrics /\
      average_metrics
        (ps_mvct (valid_pass_at train_dataloader valid_dataloader metrics one_hot
                    model e))
        (length valid_dataloader)
      = map (fun m => scalar_mean
                        (eval_values (calc m) one_hot valid_dataloader
                           (ps_net (train_pass_at train_dataloader metrics one_hot
                                      model e))))
            metrics) /\
  result.2 !! (lg ++ "/trainval.log")
  = match Z.to_nat epochs with
    | O => None
    | S _ => Some (File None
                     (mean_log train_dataloader valid_dataloader metrics epochs
                        one_hot model (Z.to_nat epochs)))
    end /\
  (forall (l : list float),
      Z.of_nat (length l) < 2 ^ 63 ->
      exists N : float,
        Prim2SF N = binary_normalize prec emax (Z.of_nat (length l)) 0 false /\
        float_mean l = (fold_left PrimFloat.add l 0 / N)%float) /\
  (forall (l : list Scalar),
      scalar_mean l = scalar_div (fold_left scalar_add l scalar_zero) (length l)) /\
  (forall e,
      let net := net_at train_dataloader metrics one_hot model e in
      let net' := ps_net (train_pass_at train_dataloader metrics one_hot model e) in
      mean_line train_dataloader valid_dataloader metrics epochs one_hot model e
      = "epoch: " ++ py_str (Z.of_nat e + 1) ++ "/" ++ py_str epochs
          ++ " train loss: "
          ++ float_repr (float_mean (train_values loss_item one_hot
                                       train_dataloader net))
          ++ " valid loss: "
          ++ float_repr (float_mean (eval_values loss_item one_hot
                                       valid_dataloader net'))
          ++ " "
          ++ String.concat EmptyString
               (map (fun m =>
                       ("train_" ++ name m ++ ": "
                          ++ scalar_repr
                               (scalar_mean (train_values (calc m) one_hot
                                               train_dataloader net)))
                         ++ " ")
                    metrics)
          ++ match metrics with
             | [] => EmptyString
             | _ =>
                 String.concat " "
                   (map (fun m =>
                           "valid_" ++ name m ++ ": "
                             ++ scalar_repr
                                  (scalar_mean (eval_values (calc m) one_hot
                                                  valid_dataloader net')))
                        metrics)
                   ++ String (ascii_of_nat 10) EmptyString
             end).
Proof.
  split; [| split; [| split; [| split]]].
  - intros e. subst vl.
    unfold train_loss_at, valid_loss_at, valid_pass_at, train_pass_at.
    destruct (train_pass_means metrics one_hot train_dataloader
                (net_at train_dataloader metrics one_hot model e)) as [-> ->].
    destruct (eval_pass_means metrics one_hot valid_dataloader
                (ps_net (train_pass metrics one_hot train_dataloader
                           (net_at train_dataloader metrics one_hot model e))))
      as [-> ->].
    auto.
  - rewrite result_frame.
    + subst fsn.
      rewrite (fs_after_log train_dataloader valid_dataloader metrics epochs ck lg
                 save_every one_hot model fs2 run_fresh).
      destruct (Z.to_nat epochs); [reflexivity |].
      now rewrite (log_after_mean train_dataloader valid_dataloader metrics epochs
                     one_hot model).
    + apply not_eq_sym, best_path_neq_log.
    + intros e l. apply not_eq_sym, best_name_path_neq_log.
  - intros l Hl. exists (float_of_nat (length l)).
    split; [now apply float_of_nat_spec | reflexivity].
  - intros l. reflexivity.
  - intros e net net'. unfold mean_line. fold net net'. unfold epoch_line.
    rewrite train_str_entries, last_str_entries by now rewrite !length_map.
    rewrite !zip_with_entries, map_map.
    destruct metrics; reflexivity.
Qed.

End Epochs.

End Run.


(** C2.  A periodic checkpoint [plan_{epoch}_{valid_loss:.2f}.pt] is written
    for epoch [e] if and only if [e] is an epoch of the run and
    [e % save_every == 0] or [e == epochs - 1]; it holds the weights of that
    epoch and carries its validation loss.  With three epochs, [save_every]
    2 and the validation losses 0.5, 0.3 and 0.4, the periodic checkpoints
    are those of the epochs 0 and 2, and the best checkpoint the run leaves is
    [best_1_0.30.pt]. *)
Theorem train_periodic_checkpoints `{C : Collaborators}
    (train_dataloader valid_dataloader : list (Imgs * Labels)) (model : Net)
    (metrics : list Metric) (epochs : Z) (checkpoints logs : string)
    (save_every : Z) (one_hot : bool)
    (fs0 fs1 fs2 : gmap string (node StateDict)) (ck lg : string) :
  wf_fs fs0 = true ->
  alloc_run_dir checkpoints fs0 = (Ok ck, fs1) ->
  alloc_run_dir logs fs1 = (Ok lg, fs2) ->
  train_dataloader <> [] -> valid_dataloader <> [] -> save_every <> 0 ->
  let result := train train_dataloader valid_dataloader model metrics epochs
                  checkpoints logs save_every one_hot fs0 in
  let vl := valid_loss_at train_dataloader valid_dataloader metrics one_hot model in
  let wt := weights_at train_dataloader metrics one_hot model in
  (forall e : nat,
      ((exists l, is_Some (result.2 !! (ck ++ "/" ++ plan_name (Z.of_nat e) l)))
       <-> Z.of_nat e < epochs /\
           (Z.of_nat e mod save_every = 0 \/ Z.of_nat e = epochs - 1)) /\
      (Z.of_nat e < epochs ->
       Z.of_nat e mod save_every = 0 \/ Z.of_nat e = epochs - 1 ->
       result.2 !! (ck ++ "/" ++ plan_name (Z.of_nat e) (vl e))
       = Some (File (Some (wt e)) EmptyString))) /\
  (epochs = 3 -> save_every = 2 ->
   vl 0%nat = 0.5%float -> vl 1%nat = 0.3%float -> vl 2%nat = 0.4%float ->
   result.1 = Ok tt /\
   (forall e : nat,
       (exists l, is_Some (result.2 !! (ck ++ "/" ++ plan_name (Z.of_nat e) l)))
       <-> e = 0%nat \/ e = 2%nat) /\
   result.2 !! (ck ++ "/plan_0_0.50.pt") = Some (File (Some (wt 0%nat)) EmptyString) /\
   result.2 !! (ck ++ "/plan_2_0.40.pt") = Some (File (Some (wt 2%nat)) EmptyString) /\
   best_files ck result.2 = ["best_1_0.30.pt"] /\
   result.2 !! (ck ++ "/best_1_0.30.pt") = Some (File (Some (wt 1%nat)) EmptyString)).
Proof.
  intros Hwf Hck Hlg Ht Hv He result vl wt.
  pose proof (periodic_checkpoints train_dataloader valid_dataloader model metrics
                epochs checkpoints logs save_every one_hot fs0 fs1 fs2 ck lg
                Hwf Hck Hlg Ht Hv He) as Hgen.
  fold result vl wt in Hgen.
  split; [exact Hgen |].
  intros -> -> H0 H1 H2.
  destruct (result_best train_dataloader valid_dataloader model metrics
              3 checkpoints logs 2 one_hot fs0 fs1 fs2 ck lg Hwf Hck Hlg Ht Hv He)
    as (b & Hmin & Hok & Hfile & Hbest).
  { exists 0%nat. split; [simpl; lia |]. fold vl. rewrite H0. reflexivity. }
  fold result vl wt in Hok, Hfile, Hbest.
  assert (b = 1%nat) as ->.
  { apply (first_min_unique train_dataloader valid_dataloader metrics one_hot model
             (Z.to_nat 3) b 1 Hmin).
    unfold first_min. fold vl. rewrite H1. split; [simpl; lia |].
    split; [reflexivity |]. split.
    - intros k Hk. change (Z.to_nat 3) with 3%nat in Hk.
      destruct k as [|[|[|k]]]; [rewrite H0 | rewrite H1 | rewrite H2 | lia]; reflexivity.
    - intros j Hj. assert (j = 0%nat) as -> by lia. rewrite H0. reflexivity. }
  rewrite H1 in Hfile, Hbest.
  split; [exact Hok |]. split; [| split; [| split; [| split]]].
  - intros e. rewrite (proj1 (Hgen e)).
    destruct e as [|[|[|e]]].
    + split; [auto |]. intros _. split; [lia | now left].
    + split.
      * intros [_ [H | H]]; discriminate H.
      * intros [H | H]; discriminate H.
    + split; [auto |]. intros _. split; [lia | now right].
    + split; [lia |]. intros [H | H]; discriminate H.
  - assert (plan_name (Z.of_nat 0) 0.5 = "plan_0_0.50.pt") as E
      by (vm_compute; reflexivity).
    rewrite <- E, <- H0. apply (proj2 (Hgen 0%nat)); [lia | now left].
  - assert (plan_name (Z.of_nat 2) 0.4 = "plan_2_0.40.pt") as E
      by (vm_compute; reflexivity).
    rewrite <- E, <- H2. apply (proj2 (Hgen 2%nat)); [lia | now right].
  - assert (best_name (Z.of_nat 1) 0.3 = "best_1_0.30.pt") as E
      by (vm_compute; reflexivity).
    rewrite <- E. exact Hbest.
  - assert (best_name (Z.of_nat 1) 0.3 = "best_1_0.30.pt") as E
      by (vm_compute; reflexivity).
    rewrite <- E. exact Hfile.
Qed.


(** ** Tensors *)

Local Close Scope string_scope.

Lemma numel_from (s : list nat) (a : nat) :
  fold_left Nat.mul s a = (a * numel s)%nat.
Proof.
  unfold numel. revert a; induction s as [|d s IH]; intros a; cbn [fold_left]; [lia |].
  rewrite (IH (a * d)%nat), (IH (1 * d)%nat). lia.
Qed.

Lemma numel_cons (d : nat) (s : list nat) : numel (d :: s) = (d * numel s)%nat.
Proof. unfold numel at 1. cbn [fold_left]. rewrite numel_from. lia. Qed.

Lemma flat_map_length_const {A B} (f : A -> list B) (l : list A) (n : nat) :
  (forall x, length (f x) = n) -> length (flat_map f l) = (length l * n)%nat.
Proof.
  intros H. induction l as [|x l IH]; [reflexivity |].
  cbn [flat_map length]. rewrite length_app, H, IH. lia.
Qed.

(** The result of [argmax(dim=1)] has as many elements as its shape says. *)
Lemma argmax_dim1_wf (t p : tensor) :
  argmax_dim1 t = Ok p -> length (data p) = numel (shape p).
Proof.
  unfold argmax_dim1. destruct (shape t) as [|d0 [|d1 rest]]; try discriminate.
  destruct (d1 =? 0)%nat; [discriminate |]. intros [= <-]. cbn [data shape].
  rewrite numel_cons, (flat_map_length_const _ _ (numel rest)).
  - now rewrite length_seq.
  - intros i. now rewrite length_map, length_seq.
Qed.

Lemma argmax_dim1_shape (t : tensor) d0 d1 rest :
  shape t = d0 :: d1 :: rest -> d1 <> 0%nat ->
  exists p, argmax_dim1 t = Ok p /\ shape p = d0 :: rest.
Proof.
  intros Hs Hd. unfold argmax_dim1. rewrite Hs.
  destruct (Nat.eqb_spec d1 0); [contradiction |]. eexists. split; reflexivity.
Qed.

Lemma broadcast_rev_same (s : list nat) : broadcast_rev s s = Some s.
Proof.
  induction s as [|d s IH]; [reflexivity |].
  cbn [broadcast_rev]. now rewrite Nat.eqb_refl, IH.
Qed.

Lemma broadcast_shape_same (s : list nat) : broadcast_shape s s = Some s.
Proof. unfold broadcast_shape. now rewrite broadcast_rev_same, rev_involutive. Qed.

Lemma chunks_concat {A} (n d : nat) (l : list A) :
  length l = (d * n)%nat ->
  flat_map (fun i => take n (drop (i * n) l)) (seq 0 d) = l.
Proof.
  revert l; induction d as [|d IH]; intros l Hl.
  - destruct l; [reflexivity | discriminate].
  - cbn [seq flat_map]. rewrite Nat.mul_0_l, drop_0.
    transitivity (take n l ++ drop n l)%list; [| apply take_drop]. f_equal.
    rewrite <- seq_shift, flat_map_concat_map, map_map, <- flat_map_concat_map.
    transitivity (flat_map (fun i => take n (drop (i * n) (drop n l))) (seq 0 d));
      [| apply IH; rewrite length_drop; lia].
    apply flat_map_ext. intros i. rewrite drop_drop. repeat f_equal; lia.
Qed.

Lemma flat_map_ext_In {A B} (f g : A -> list B) (l : list A) :
  (forall x, In x l -> f x = g x) -> flat_map f l = flat_map g l.
Proof.
  induction l as [|x l IH]; intros H; [reflexivity |].
  cbn [flat_map]. rewrite (H x) by now left.
  rewrite IH; [reflexivity |]. intros y Hy. apply H. now right.
Qed.

Lemma expand_data_same (s : list nat) (l : list elt) :
  length l = numel s -> expand_data s s l = l.
Proof.
  revert l; induction s as [|d s IH]; intros l Hl; [reflexivity |].
  cbn [expand_data]. rewrite Nat.eqb_refl. rewrite numel_cons in Hl.
  transitivity (flat_map (fun i => take (numel s) (drop (i * numel s) l)) (seq 0 d));
    [| now apply chunks_concat].
  apply flat_map_ext_In. intros i Hi%in_seq. apply IH.
  rewrite length_take, length_drop. nia.
Qed.

Lemma expand_same (t : tensor) :
  length (data t) = numel (shape t) -> expand t (shape t) = data t.
Proof.
  intros H. unfold expand. rewrite Nat.sub_diag. cbn [replicate app].
  now apply expand_data_same.
Qed.

Lemma scalar_type_eqb_refl (dt : scalar_type) : scalar_type_eqb dt dt = true.
Proof. now destruct dt. Qed.

Lemma as_type_same (t : tensor) : as_type (dtype t) t = t.
Proof. unfold as_type. now rewrite scalar_type_eqb_refl. Qed.

Lemma promote_same (dt : scalar_type) : promote dt dt = dt.
Proof. now destruct dt. Qed.

Lemma result_type_same (a b : tensor) :
  shape a = shape b -> dtype a = dtype b -> result_type a b = dtype a.
Proof.
  intros Hs Hd. unfold result_type. rewrite <- Hs, <- Hd.
  destruct (shape a); apply promote_same.
Qed.

(** On two tensors of one shape and one type, [(a == b).sum()] counts the
    positions at which they agree. *)
Lemma eq_sum_same_shape (a b : tensor) :
  shape a = shape b -> dtype a = dtype b ->
  length (data a) = numel (shape a) -> length (data b) = numel (shape b) ->
  eq_sum a b = Ok (count_equal (data a) (data b)).
Proof.
  intros Hs Hd Ha Hb. unfold eq_sum. rewrite Hs, broadcast_shape_same. cbv zeta.
  rewrite (result_type_same a b Hs Hd). rewrite as_type_same.
  rewrite Hd, as_type_same. rewrite <- Hs at 1. now rewrite !expand_same.
Qed.

(** *** The order the arg-max goes by *)

Lemma elt_of_same_kind (dt : scalar_type) (x y : elt) :
  elt_of dt x = true -> elt_of dt y = true -> same_kind x y.
Proof. destruct dt, x, y; simpl; try discriminate; auto. Qed.

Lemma SFcompare_nan_l (f : spec_float) : SFcompare S754_nan f = None.
Proof. reflexivity. Qed.

Lemma SFcompare_None (f g : spec_float) :
  SFcompare f g = None -> f = S754_nan \/ g = S754_nan.
Proof.
  destruct f as [[|]|[|]| |[|] m1 e1], g as [[|]|[|]| |[|] m2 e2]; simpl;
    try discriminate; auto.
Qed.

Lemma SFcompare_Gt (f g : spec_float) :
  SFcompare f g = Some Gt -> SFcompare g f = Some Lt.
Proof.
  destruct f as [[|]|[|]| |[|] m1 e1], g as [[|]|[|]| |[|] m2 e2]; simpl; intros H;
    try discriminate; try reflexivity; cmp_cases; cmp_goal.
Qed.

Lemma SFcompare_Eq (f g : spec_float) :
  SFcompare f g = Some Eq -> SFcompare g f = Some Eq.
Proof.
  destruct f as [[|]|[|]| |[|] m1 e1], g as [[|]|[|]| |[|] m2 e2]; simpl; intros H;
    try discriminate; try reflexivity; cmp_cases; cmp_goal.
Qed.

Lemma sf_is_nan_true (f : spec_float) : sf_is_nan f = true <-> f = S754_nan.
Proof. destruct f; simpl; split; congruence. Qed.

Lemma sf_is_nan_false (f : spec_float) : sf_is_nan f = false <-> f <> S754_nan.
Proof. destruct f; simpl; split; congruence. Qed.

Lemma elt_gt_below (x y : elt) : elt_gt y x = true <-> below x y.
Proof.
  destruct x as [a | f], y as [b | g]; simpl; try (split; [discriminate | tauto]).
  - apply Z.ltb_lt.
  - rewrite orb_true_iff, andb_true_iff, negb_true_iff, sf_is_nan_true, sf_is_nan_false.
    unfold SFltb. destruct (SFcompare f g) as [[| |]|]; split;
      intros [H | H]; auto; try discriminate.
Qed.

Lemma below_irrefl (x : elt) : ~ below x x.
Proof.
  destruct x as [a | f]; simpl; [lia |].
  intros [H | [H1 H2]]; [now apply (SFcompare_refl_not_Lt f) | contradiction].
Qed.

Lemma below_trans (x y z : elt) : below x y -> below y z -> below x z.
Proof.
  destruct x as [a | f], y as [b | g], z as [c | h]; simpl; try tauto; [lia |].
  intros [H1 | [H1 H1']] [H2 | [H2 H2']].
  - left. eapply SFcompare_trans; eauto.
  - right. split; [assumption |]. intros ->. discriminate.
  - subst g. discriminate.
  - contradiction.
Qed.

(** What is not above [x] is below all that [x] is below. *)
Lemma below_neg_trans (x r y : elt) :
  same_kind x r -> ~ below x r -> below x y -> below r y.
Proof.
  destruct x as [a | f], r as [b | g], y as [c | h]; simpl; try tauto; [lia |].
  intros _ Hn Hb.
  assert (Hf : f <> S754_nan).
  { destruct Hb as [Hb | [_ Hb]]; [| assumption]. intros ->. discriminate. }
  assert (Hg : g <> S754_nan).
  { intros ->. apply Hn. right. now split. }
  destruct Hb as [Hb | [-> _]]; [| right; now split].
  left. apply (SFcompare_le_lt_trans g f h); [| assumption].
  destruct (SFcompare f g) as [[| |]|] eqn:E.
  - right. now apply SFcompare_Eq.
  - exfalso. apply Hn. now left.
  - left. now apply SFcompare_Gt.
  - apply SFcompare_None in E. tauto.
Qed.

(** *** The arg-max of a row *)

Lemma argmax_fold_spec (x : elt) (l : list elt) :
  (forall y, In y l -> same_kind x y) ->
  (forall y z, In y l -> In z l -> same_kind y z) ->
  exists (j : nat) (bv : elt),
    fold_left
      (fun '(bi, bv, i) y => if elt_gt y bv then (i, y, i + 1) else (bi, bv, i + 1))
      l (0, x, 1) = (Z.of_nat j, bv, Z.of_nat (S (length l))) /\
    (x :: l) !! j = Some bv /\
    (forall k z, (x :: l) !! k = Some z -> ~ below bv z) /\
    (forall k z, (k < j)%nat -> (x :: l) !! k = Some z -> below z bv).
Proof.
  induction l as [|y l IH] using rev_ind; intros Hx Hl.
  - exists 0%nat, x. split; [reflexivity |]. split; [reflexivity |]. split.
    + intros [|k] z; [intros [= <-]; apply below_irrefl | discriminate].
    + intros k z Hk. lia.
  - destruct IH as (j & bv & Hf & Hj & Hmax & Hfirst).
    { intros z Hz. apply Hx, in_or_app. now left. }
    { intros z w Hz Hw. apply Hl; apply in_or_app; now left. }
    rewrite fold_left_app, Hf. cbn [fold_left].
    assert (Hkind : forall k z, (x :: l) !! k = Some z -> same_kind z y /\ same_kind y z).
    { intros [|k] z Hz.
      - injection Hz as <-. assert (same_kind x y) as H.
        { apply Hx, in_or_app. right. now left. }
        split; [assumption |]. destruct x, y; simpl in *; tauto.
      - cbn in Hz. assert (In z l) as Hin.
        { apply list_elem_of_In. eapply list_elem_of_lookup_2; eauto. }
        split; apply Hl; apply in_or_app; (now left) || (right; now left). }
    assert (Hbv : same_kind bv y) by (eapply Hkind; eauto).
    assert (Hlen : length (x :: l ++ [y]) = S (S (length l))).
    { cbn [length]. rewrite length_app. cbn [length]. lia. }
    assert (Hsplit : forall k z, (x :: l ++ [y]) !! k = Some z ->
              (x :: l) !! k = Some z \/ k = S (length l) /\ z = y).
    { intros k z Hz. change (x :: l ++ [y]) with ((x :: l) ++ [y])%list in Hz.
      apply lookup_app_Some in Hz as [Hz | [Hk Hz]]; [now left |].
      right. cbn [length] in *. destruct (k - S (length l))%nat as [|n] eqn:En.
      - injection Hz as <-. split; [lia | reflexivity].
      - discriminate. }
    assert (Hold : forall k z, (x :: l) !! k = Some z -> (x :: l ++ [y]) !! k = Some z).
    { intros k z Hz. change (x :: l ++ [y]) with ((x :: l) ++ [y])%list.
      now apply lookup_app_l_Some. }
    assert (Hlast : (x :: l ++ [y]) !! S (length l) = Some y).
    { change (x :: l ++ [y]) with ((x :: l) ++ [y])%list.
      rewrite lookup_app_r by (cbn [length]; lia). cbn [length].
      now rewrite Nat.sub_diag. }
    assert (Hnext : Z.of_nat (S (length l)) + 1 = Z.of_nat (S (length (l ++ [y])))).
    { rewrite length_app. cbn [length]. lia. }
    destruct (elt_gt y bv) eqn:Hgt.
    + apply elt_gt_below in Hgt.
      exists (S (length l)), y. rewrite Hnext. split; [reflexivity |].
      split; [assumption |]. split.
      * intros k z Hz. apply Hsplit in Hz as [Hz | [_ ->]]; [| apply below_irrefl].
        intros Hyz. apply (Hmax k z Hz). eapply below_trans; eauto.
      * intros k z Hk Hz. apply Hsplit in Hz as [Hz | [-> _]]; [| lia].
        apply (below_neg_trans bv z y); [| eapply Hmax; eauto | assumption].
        destruct (Hkind _ _ Hz) as [H1 H2], (Hkind _ _ Hj) as [H3 H4].
        destruct bv, z, y; simpl in *; tauto.
    + exists j, bv. rewrite Hnext. split; [reflexivity |].
      split; [now apply Hold |]. split.
      * intros k z Hz. apply Hsplit in Hz as [Hz | [_ ->]]; [eapply Hmax; eauto |].
        intros Hb. apply elt_gt_below in Hb. congruence.
      * intros k z Hk Hz. apply Hsplit in Hz as [Hz | [-> _]]; [eapply Hfirst; eauto |].
        apply lookup_lt_Some in Hj. cbn [length] in Hj. lia.
Qed.

(** [argmax_list] gives the index of the first greatest element. *)
Lemma argmax_list_spec (dt : scalar_type) (x : elt) (l : list elt) :
  Forall (fun y => elt_of dt y = true) (x :: l) ->
  exists j : nat, argmax_list x l = Z.of_nat j /\ is_argmax (x :: l) j.
Proof.
  intros H. apply Forall_cons in H as [Hx Hl]. rewrite Forall_forall in Hl.
  destruct (argmax_fold_spec x l) as (j & bv & Hf & Hj & Hmax & Hfirst).
  - intros y Hy. apply (elt_of_same_kind dt); auto. apply Hl. now apply list_elem_of_In.
  - intros y z Hy Hz. apply (elt_of_same_kind dt); apply Hl; now apply list_elem_of_In.
  - exists j. split; [unfold argmax_list; now rewrite Hf |].
    exists bv. auto.
Qed.

(** A row has one arg-max at most. *)
Lemma is_argmax_unique (row : list elt) (j j' : nat) :
  is_argmax row j -> is_argmax row j' -> j = j'.
Proof.
  intros (x & Hx & Hmax & Hfirst) (x' & Hx' & Hmax' & Hfirst').
  destruct (Nat.lt_total j j') as [H | [H | H]]; [| assumption |].
  - exfalso. apply (Hmax j' x' Hx'). now apply (Hfirst' j x H).
  - exfalso. apply (Hmax' j x Hx). now apply (Hfirst j' x' H).
Qed.

(** *** The elements of [argmax(dim=1)] *)

Lemma lookup_flat_map_blocks {A} (g : nat -> nat -> A) (n d i r : nat) :
  (i < d)%nat -> (r < n)%nat ->
  flat_map (fun i => map (g i) (seq 0 n)) (seq 0 d) !! (i * n + r)%nat = Some (g i r).
Proof.
  induction d as [|d IH]; intros Hi Hr; [lia |].
  rewrite seq_S, flat_map_app. cbn [flat_map Nat.add]. rewrite app_nil_r.
  assert (Hlen : length (flat_map (fun i => map (g i) (seq 0 n)) (seq 0 d)) = (d * n)%nat).
  { rewrite (flat_map_length_const _ _ n); [now rewrite length_seq |].
    intros k. now rewrite length_map, length_seq. }
  destruct (decide (i < d)%nat) as [Hlt | Hge].
  - rewrite lookup_app_l by (rewrite Hlen; nia). now apply IH.
  - assert (i = d) as -> by lia.
    rewrite lookup_app_r by (rewrite Hlen; lia). rewrite Hlen.
    replace (d * n + r - d * n)%nat with r by lia.
    rewrite list_lookup_fmap, lookup_seq_lt by assumption. reflexivity.
Qed.


Lemma map_flat_map {A B C} (f : B -> C) (g : A -> list B) (l : list A) :
  map f (flat_map g l) = flat_map (fun x => map f (g x)) l.
Proof.
  induction l as [|x l IH]; [reflexivity |].
  cbn [flat_map]. now rewrite map_app, IH.
Qed.


Lemma wf_tensor_nth (t : tensor) (k : nat) :
  wf_tensor t = true -> (k < numel (shape t))%nat ->
  elt_of (dtype t) (nth k (data t) (EInt 0)) = true.
Proof.
  unfold wf_tensor. intros [Hl Hf]%andb_true_iff Hk. apply Nat.eqb_eq in Hl.
  rewrite forallb_forall in Hf. apply Hf, nth_In. lia.
Qed.

Lemma offset_bound (d0 d1 inner i j r : nat) :
  (i < d0)%nat -> (j < d1)%nat -> (r < inner)%nat ->
  ((i * d1 + j) * inner + r < d0 * (d1 * inner))%nat.
Proof.
  intros Hi Hj Hr.
  assert (i * d1 + j + 1 <= d0 * d1)%nat as H1 by nia.
  assert ((i * d1 + j) * inner + r < (i * d1 + j + 1) * inner)%nat as H2 by nia.
  assert ((i * d1 + j + 1) * inner <= d0 * d1 * inner)%nat as H3
    by (apply Nat.mul_le_mono_r; exact H1).
  lia.
Qed.

(** [argmax(dim=1)] of a well-formed tensor: its elements are the indices of
    the first greatest element of every slice along axis 1. *)
Lemma argmax_dim1_spec (t : tensor) (d0 d1 : nat) (rest : list nat) :
  shape t = d0 :: d1 :: rest -> d1 <> 0%nat -> wf_tensor t = true ->
  exists am : list nat,
    length am = (d0 * numel rest)%nat /\
    (forall i r, (i < d0)%nat -> (r < numel rest)%nat ->
       exists j, am !! (i * numel rest + r)%nat = Some j /\ (j < d1)%nat /\
                 is_argmax (slice1 t d1 (numel rest) i r) j) /\
    argmax_dim1 t
    = Ok {| dtype := Int64; shape := d0 :: rest;
            data := map (fun a => EInt (Z.of_nat a)) am |}.
Proof.
  intros Hs Hd Hwf. set (inner := numel rest).
  set (at_ := fun i j r : nat => nth ((i * d1 + j) * inner + r)%nat (data t) (EInt 0)).
  set (g := fun i r : nat =>
         argmax_list (at_ i 0%nat r) (map (fun j => at_ i j r) (seq 1 (d1 - 1)))).
  assert (Hrow : forall i r,
            slice1 t d1 inner i r
            = at_ i 0%nat r :: map (fun j => at_ i j r) (seq 1 (d1 - 1))).
  { intros i r. unfold slice1. destruct d1 as [|d1]; [contradiction |].
    replace (S d1 - 1)%nat with d1 by lia. reflexivity. }
  assert (Hspec : forall i r, (i < d0)%nat -> (r < inner)%nat ->
            exists j : nat, g i r = Z.of_nat j /\ (j < d1)%nat /\
                            is_argmax (slice1 t d1 inner i r) j).
  { intros i r Hi Hr.
    destruct (argmax_list_spec (dtype t) (at_ i 0%nat r)
                (map (fun j => at_ i j r) (seq 1 (d1 - 1)))) as (j & Hj & Ham).
    - rewrite <- Hrow. unfold slice1. apply Forall_forall. intros x Hx.
      apply list_elem_of_In, in_map_iff in Hx as (k & <- & Hk%in_seq).
      apply wf_tensor_nth; [assumption |]. rewrite Hs, !numel_cons. fold inner.
      apply offset_bound; lia.
    - exists j. split; [exact Hj |]. rewrite <- Hrow in Ham. split; [| exact Ham].
      destruct Ham as (x & Hx & _). apply lookup_lt_Some in Hx.
      unfold slice1 in Hx. now rewrite length_map, length_seq in Hx. }
  exists (flat_map (fun i => map (fun r => Z.to_nat (g i r)) (seq 0 inner)) (seq 0 d0)).
  split; [| split].
  - rewrite (flat_map_length_const _ _ inner); [now rewrite length_seq |].
    intros i. now rewrite length_map, length_seq.
  - intros i r Hi Hr. destruct (Hspec i r Hi Hr) as (j & Hj & Hlt & Ham).
    exists j. split; [| split; assumption].
    rewrite (lookup_flat_map_blocks (fun i r => Z.to_nat (g i r))) by assumption.
    now rewrite Hj, Nat2Z.id.
  - unfold argmax_dim1. rewrite Hs. destruct (Nat.eqb_spec d1 0); [contradiction |].
    cbv zeta. fold inner. do 2 f_equal. rewrite map_flat_map.
    apply flat_map_ext_In. intros i Hi%in_seq. rewrite map_map.
    apply map_ext_in. intros r Hr%in_seq.
    destruct (Hspec i r) as (j & Hj & _); [lia | lia |].
    fold (at_ i 0%nat r). change (EInt (g i r) = EInt (Z.of_nat (Z.to_nat (g i r)))).
    now rewrite Hj, Nat2Z.id.
Qed.

Local Open Scope string_scope.

Local Close Scope string_scope.

Lemma shape_to_float (t : tensor) : shape (to_float t) = shape t.
Proof. unfold to_float, as_type. now destruct (scalar_type_eqb _ _). Qed.

Lemma label_count (s : list nat) : fold_left (fun np d => (np * d)%nat) s 1%nat = numel s.
Proof. reflexivity. Qed.

Lemma numel_singleton (b : nat) : numel [b] = b.
Proof. unfold numel. cbn. lia. Qed.


Local Open Scope string_scope.


Section InitialState.
Context `{C : Collaborators}.

(** C6 (as amended).  The state of the loop is set once, before the first
    epoch, to [best_loss = 99999999.0] and [best_epoch = 0]: the loop
    starts from it, and an epoch never sets it anew: it keeps [best_loss]
    and [best_epoch], or lowers [best_loss] strictly and sets [best_epoch]
    to itself. *)
Theorem loop_state_initialised
    (train_dataloader valid_dataloader : list (Imgs * Labels)) (model : Net)
    (metrics : list Metric) (epochs : Z) (ck lg : string) (save_every : Z)
    (one_hot : bool) (fs : gmap string (node StateDict)) :
  epochs_prefix train_dataloader valid_dataloader metrics epochs ck lg save_every
    one_hot 0 model fs
  = (Ok {| ls_net := model; best_loss := 99999999.0%float; best_epoch := 0 |}, fs) /\
  train_loop train_dataloader valid_dataloader metrics epochs ck lg save_every
    one_hot model fs
  = (do st <- for_each (py_range epochs)
                (epoch_body train_dataloader valid_dataloader metrics epochs ck lg
                   save_every one_hot)
                {| ls_net := model; best_loss := 99999999.0%float; best_epoch := 0 |};
     os_rename (ck ++ "/best.pt")
       (ck ++ "/" ++ best_name (best_epoch st) (best_loss st))) fs /\
  (forall st e f st' f',
      epoch_body train_dataloader valid_dataloader metrics epochs ck lg save_every
        one_hot st e f = (Ok st', f') ->
      (best_loss st' = best_loss st /\ best_epoch st' = best_epoch st) \/
      (flt (best_loss st') (best_loss st) = true /\ best_epoch st' = e)).
Proof.
  split; [reflexivity |]. split; [reflexivity |].
  intros st e f st' f'. unfold epoch_body, bind, lift, ret.
  destruct (py_truediv _ _) as [tl|]; [| discriminate].
  destruct (py_truediv _ _) as [vloss|]; [| discriminate].
  destruct (py_mod _ _) as [r|]; [| discriminate].
  match goal with
  | |- (let (_, _) := ?save ?f in _) = _ -> _ => destruct (save f) as [[[]|] f1]
  end; [| discriminate].
  destruct (flt vloss (best_loss st)) eqn:Hlt.
  - destruct (torch_save _ _ f1) as [[[]|] f2]; [| discriminate].
    destruct (append_text _ _ f2) as [[[]|] f3]; [| discriminate].
    intros [= <- <-]. right. cbn. auto.
  - destruct (append_text _ _ f1) as [[[]|] f3]; [| discriminate].
    intros [= <- <-]. left. cbn. auto.
Qed.

End InitialState.


(** * The claims on concrete runs *)

Example py_int_examples :
  py_int "12" = Some 12 /\ py_int " -7 " = Some (-7) /\ py_int "1_000" = Some 1000 /\
  py_int "007" = Some 7 /\ py_int EmptyString = None /\ py_int "best.pt" = None /\
  py_int "1__0" = None /\ py_int "_1" = None /\ py_int "1_" = None /\
  py_int "-" = None /\ py_int ".DS_Store" = None /\ py_int "+ 1" = None.
Proof. repeat split; reflexivity. Qed.

(** The separators FS, GS, RS and US are not stripped by [int()]. *)
Example py_int_separators :
  py_int (String (ascii_of_nat 31) "2") = None /\
  py_int (String (ascii_of_nat 28) "2") = None /\
  py_int (String (ascii_of_nat 9) "2") = Some 2 /\
  py_int (String (ascii_of_nat 12) "2" ++ String (ascii_of_nat 13) EmptyString) = Some 2.
Proof. repeat split; reflexivity. Qed.

Example fmt_2f_examples :
  fmt_2f 0.3 = "0.30" /\ fmt_2f 0.5 = "0.50" /\ fmt_2f 0.125 = "0.12" /\
  fmt_2f 0.375 = "0.38" /\ fmt_2f 99999999 = "99999999.00" /\
  fmt_2f (-0.001) = "-0.00" /\ fmt_2f 2.675 = "2.67" /\
  fmt_2f 1e22 = "10000000000000000000000.00" /\
  fmt_2f infinity = "inf" /\ fmt_2f nan = "nan" /\ fmt_2f 0.995 = "0.99" /\
  fmt_2f 12.345 = "12.35".
Proof. repeat split; vm_compute; reflexivity. Qed.

(** One-hot labels: the denominator is the number of rows, not of entries. *)
Example accuracy_one_hot : accuracy.calc ex_preds ex_one_hot = Ok f32_one.
Proof. vm_compute. reflexivity. Qed.

(** Predictions and labels of one axis each: [shapes[1]] does not exist. *)
Example accuracy_one_axis : accuracy.calc ex_labels ex_labels = Raise IndexError.
Proof. vm_compute. reflexivity. Qed.

(** The empty parent directory: the allocator creates [0]. *)
Example alloc_run_dir_empty :
  alloc_run_dir (W := nat) "ck" fs_empty_parents = (Ok "ck/0", fs_ck0).
Proof. vm_compute. reflexivity. Qed.

(** The files [demo_train] leaves. *)
Example demo_train_files :
  demo_train.1 = Ok tt /\
  map fst (map_to_list demo_train.2)
  = ["ck/0/best_1_0.30.pt"; "ck/0/plan_2_0.40.pt"; "ck/0/plan_0_0.50.pt";
     "ck/0"; "ck"; "lg/0/trainval.log"; "lg/0"; "lg"].
Proof. split; vm_compute; reflexivity. Qed.

(** C1, on [demo_train]. *)
Lemma train_best_checkpoint_witness :
  exists b,
    first_min (C := replay demo_table) (one_batch demo_table) (one_batch demo_table)
      [steps_metric demo_table] false 0%nat (Z.to_nat 3) b /\
    demo_train.1 = Ok tt /\
    demo_train.2
      !! ("ck/0" ++ "/" ++
          best_name (Z.of_nat b)
            (valid_loss_at (C := replay demo_table) (one_batch demo_table)
               (one_batch demo_table) [steps_metric demo_table] false 0%nat b))
    = Some (File (Some (weights_at (C := replay demo_table) (one_batch demo_table)
                          [steps_metric demo_table] false 0%nat b)) EmptyString) /\
    best_files "ck/0" demo_train.2
    = [best_name (Z.of_nat b)
         (valid_loss_at (C := replay demo_table) (one_batch demo_table)
            (one_batch demo_table) [steps_metric demo_table] false 0%nat b)].
Proof.
  apply (train_best_checkpoint (C := replay demo_table) (one_batch demo_table)
           (one_batch demo_table) 0%nat [steps_metric demo_table] 3 "ck" "lg" 2 false
           fs_empty_parents fs_ck0 fs_ck0_lg0 "ck/0" "lg/0").
  - vm_compute. reflexivity.
  - vm_compute. reflexivity.
  - vm_compute. reflexivity.
  - discriminate.
  - discriminate.
  - lia.
  - exists 0%nat. split; [simpl; lia | vm_compute; reflexivity].
Defined.

(** C1 as stated fails on [high_train]: its only epoch has the minimum
    validation loss, 100000000.0, yet [train] raises and no best checkpoint
    encodes that epoch and loss: the directory has no best checkpoint. *)
Lemma train_best_checkpoint_counterexample :
  valid_loss_at (C := replay high_table) (one_batch high_table) (one_batch high_table)
    [] false 0%nat 0 = 100000000.0%float /\
  high_train.1 = Raise FileNotFoundError /\
  high_train.2 !! ("ck/0/" ++ best_name 0 100000000.0) = None /\
  best_files "ck/0" high_train.2 = [].
Proof. repeat split; vm_compute; reflexivity. Qed.

(** C2, on [demo_train]. *)
Lemma train_periodic_checkpoints_witness :
  demo_train.1 = Ok tt /\
  (forall e : nat,
      (exists l, is_Some (demo_train.2 !! ("ck/0" ++ "/" ++ plan_name (Z.of_nat e) l)))
      <-> e = 0%nat \/ e = 2%nat) /\
  demo_train.2 !! "ck/0/plan_0_0.50.pt" = Some (File (Some 0%nat) EmptyString) /\
  demo_train.2 !! "ck/0/plan_2_0.40.pt" = Some (File (Some 2%nat) EmptyString) /\
  best_files "ck/0" demo_train.2 = ["best_1_0.30.pt"] /\
  demo_train.2 !! "ck/0/best_1_0.30.pt" = Some (File (Some 1%nat) EmptyString).
Proof.
  apply (train_periodic_checkpoints (C := replay demo_table) (one_batch demo_table)
           (one_batch demo_table) 0%nat [steps_metric demo_table] 3 "ck" "lg" 2 false
           fs_empty_parents fs_ck0 fs_ck0_lg0 "ck/0" "lg/0").
  - vm_compute. reflexivity.
  - vm_compute. reflexivity.
  - vm_compute. reflexivity.
  - discriminate.
  - discriminate.
  - lia.
  - reflexivity.
  - reflexivity.
  - vm_compute. reflexivity.
  - vm_compute. reflexivity.
  - vm_compute. reflexivity.
Defined.

(** C3, on a parent directory with the runs 0 and 1. *)
Lemma alloc_run_dir_next_witness :
  fs_two_runs (W := nat) !! "ck/2" = None /\
  alloc_run_dir (W := nat) "ck" fs_two_runs = (Ok "ck/2", <["ck/2" := Dir]> fs_two_runs).
Proof.
  pose proof (alloc_run_dir_next (C := replay []) fs_two_runs "ck" ["1"; "0"] 2) as H.
  cbv zeta in H.
  destruct H as (H1 & H2 & _).
  - vm_compute. reflexivity.
  - apply perm_swap.
  - split; [exact H1 | exact H2].
Defined.

(** C4, on [batches_train]: the averages of three and of two batches, as
    the log shows them. *)
Lemma train_log_means_witness :
  batches_train.2 !! "lg/0/trainval.log"
  = Some (File None
            ("epoch: 1/1 train loss: 0.50 valid loss: 1.50 "
               ++ "train_twice: 1.00 valid_twice: 3.00" ++ String (ascii_of_nat 10) EmptyString)).
Proof.
  pose proof (train_log_means (C := per_batch) three_batches two_batches 0%nat [twice]
                1 "ck" "lg" 1 false fs_empty_parents fs_ck0 fs_ck0_lg0 "ck/0" "lg/0")
    as H.
  destruct H as (_ & H & _).
  - vm_compute. reflexivity.
  - vm_compute. reflexivity.
  - vm_compute. reflexivity.
  - discriminate.
  - discriminate.
  - lia.
  - refine (eq_trans H _). vm_compute. reflexivity.
Defined.



(** C6, on the first epoch of [demo_train]: it lowers [best_loss] from
    99999999.0 to 0.5. *)
Lemma loop_state_initialised_witness :
  (0.5%float = best_loss (loop_init (C := replay demo_table) 0%nat) /\
   (0 : Z) = best_epoch (loop_init (C := replay demo_table) 0%nat)) \/
  (flt 0.5 (best_loss (loop_init (C := replay demo_table) 0%nat)) = true /\
   (0 : Z) = 0).
Proof.
  apply (proj2 (proj2
           (loop_state_initialised (C := replay demo_table) (one_batch demo_table)
              (one_batch demo_table) 0%nat [steps_metric demo_table] 3 "ck/0" "lg/0" 2
              false fs_ck0_lg0))
           (loop_init (C := replay demo_table) 0%nat) 0 fs_ck0_lg0
           {| ls_net := 1%nat : @Net (replay demo_table);
              best_loss := 0.5%float; best_epoch := 0 |}
           (epoch_body (C := replay demo_table) (one_batch demo_table)
              (one_batch demo_table) [steps_metric demo_table] 3 "ck/0" "lg/0" 2 false
              (loop_init (C := replay demo_table) 0%nat) 0 fs_ck0_lg0).2).
  vm_compute. reflexivity.
Defined.

(** C6 as stated fails: the initial [best_epoch] is 0, not -1, and the
    initial [best_loss] is strictly below infinity. *)
Lemma loop_state_initialised_counterexample :
  best_epoch (loop_init (C := replay demo_table) 0%nat) = 0 /\
  best_epoch (loop_init (C := replay demo_table) 0%nat) <> -1 /\
  flt (best_loss (loop_init (C := replay demo_table) 0%nat)) infinity = true.
Proof. split; [reflexivity | split; [discriminate | vm_compute; reflexivity]]. Qed.

(** C7, on [demo_train] after two epochs. *)
Lemma best_files_during_training_witness :
  exists st f,
    epochs_prefix (C := replay demo_table) (one_batch demo_table) (one_batch demo_table)
      [steps_metric demo_table] 3 "ck/0" "lg/0" 2 false 2 0%nat fs_ck0_lg0
    = (Ok st, f) /\
    best_files "ck/0" f = ["best.pt"].
Proof.
  apply (best_files_during_training (C := replay demo_table) (one_batch demo_table)
           (one_batch demo_table) 0%nat [steps_metric demo_table] 3 "ck" "lg" 2 false
           fs_empty_parents fs_ck0 fs_ck0_lg0 "ck/0" "lg/0").
  - vm_compute. reflexivity.
  - vm_compute. reflexivity.
  - vm_compute. reflexivity.
  - discriminate.
  - discriminate.
  - lia.
  - simpl. lia.
Defined.

(** C7 as stated fails on [demo_train]: at the start of the first epoch the
    checkpoint directory of the run holds no best checkpoint. *)
Lemma best_files_during_training_counterexample :
  (epochs_prefix (C := replay demo_table) (one_batch demo_table) (one_batch demo_table)
     [steps_metric demo_table] 3 "ck/0" "lg/0" 2 false 0 0%nat fs_ck0_lg0).1
  = Ok (loop_init (C := replay demo_table) 0%nat) /\
  length (best_files "ck/0"
            (epochs_prefix (C := replay demo_table) (one_batch demo_table)
               (one_batch demo_table) [steps_metric demo_table] 3 "ck/0" "lg/0" 2
               false 0 0%nat fs_ck0_lg0).2) = 0%nat.
Proof. split; vm_compute; reflexivity. Qed.


(** C9, on [high_train]. *)
Lemma train_no_best_checkpoint_witness :
  high_train.1 = Raise FileNotFoundError /\ best_files "ck/0" high_train.2 = [].
Proof.
  pose proof (train_no_best_checkpoint (C := replay high_table) (one_batch high_table)
                (one_batch high_table) 0%nat [] 1 "ck" "lg" 1 false
                fs_empty_parents fs_ck0 fs_ck0_lg0 "ck/0" "lg/0") as H.
  destruct H as (H1 & _ & H2).
  - vm_compute. reflexivity.
  - vm_compute. reflexivity.
  - vm_compute. reflexivity.
  - right. split; [discriminate |]. split; [discriminate |]. split; [lia |].
    intros e He. change (Z.to_nat 1) with 1%nat in He.
    assert (e = 0%nat) as -> by lia. vm_compute. reflexivity.
  - split; [exact H1 | exact H2].
Defined.

(** C9 as stated fails on [empty_train]: no epoch attains a validation loss
    below [99999999.0] (the loss of every epoch would be the NaN [0.0 / 0]),
    yet the run does not reach the rename: it ends with the
    [ZeroDivisionError] of the averaging in its first epoch. *)
Lemma train_no_best_checkpoint_counterexample :
  (forall e, flt (valid_loss_at (C := replay []) [] [] [] false 0%nat e)
               99999999.0%float = false) /\
  empty_train.1 = Raise ZeroDivisionError /\
  empty_train.1 <> Raise FileNotFoundError.
Proof.
  split; [intros e; reflexivity |].
  split; [vm_compute; reflexivity | vm_compute; discriminate].
Qed.

(** C10, on a run of one epoch without any batch. *)
Lemma zero_batches_raise_witness :
  train (C := replay []) [] [] 0%nat [] 1 "ck" "lg" 1 false fs_empty_parents
  = (Raise ZeroDivisionError, fs_ck0_lg0) /\
  test (C := replay []) [] 0%nat [] "lg" false fs_ck0 = (Raise ZeroDivisionError, fs_ck0_lg0).
Proof.
  pose proof (zero_batches_raise (C := replay []) [] [] 0%nat [] 1 "ck" "lg" 1 false
                fs_empty_parents fs_ck0 fs_ck0_lg0 "ck/0" "lg/0") as H.
  destruct H as (H1 & H2).
  - vm_compute. reflexivity.
  - vm_compute. reflexivity.
  - lia.
  - left. reflexivity.
  - split; [exact H1 | apply H2].
Defined.

(** C10 as stated fails on [idle_train]: without any epoch the dataloaders of
    zero batches are never averaged, and [train] ends with the
    [FileNotFoundError] of the rename, not with [ZeroDivisionError]. *)
Lemma zero_batches_raise_counterexample :
  idle_train.1 = Raise FileNotFoundError /\ idle_train.1 <> Raise ZeroDivisionError.
Proof. split; [vm_compute; reflexivity | vm_compute; discriminate]. Qed.

(** * Further properties of the code *)

(** ** The allocator on any directory of integer names *)

Lemma next_id_spec (ids : list Z) :
  (ids = [] /\ next_id ids = 0)
  \/ (next_id ids - 1 ∈ ids /\ Forall (fun z => z < next_id ids) ids).
Proof.
  destruct ids as [|z zs]; [left; done|right].
  unfold next_id. replace (py_max z zs + 1 - 1) with (py_max z zs) by lia.
  split; [apply py_max_elem|].
  destruct (py_max_ge z zs) as [H1 H2].
  constructor; [lia|]. eapply Forall_impl; [exact H2|]. simpl. intros. lia.
Qed.

Lemma next_id_unique (ids : list Z) (n : Z) :
  n - 1 ∈ ids -> Forall (fun z => z < n) ids -> next_id ids = n.
Proof.
  intros Hin Hall.
  destruct (next_id_spec ids) as [[-> _]|[Hin' Hall']].
  - by apply not_elem_of_nil in Hin.
  - rewrite Forall_forall in Hall, Hall'.
    specialize (Hall _ Hin'). specialize (Hall' _ Hin). lia.
Qed.

Lemma map_int_Permutation (names names' : list string) (ids : list Z) :
  names ≡ₚ names' -> map_int names = Ok ids ->
  exists ids', map_int names' = Ok ids' /\ ids ≡ₚ ids'.
Proof.
  intros Hp. revert ids. induction Hp as [|x l l' Hp IH|x y l|l l' l'' H1 IH1 H2 IH2]; intros ids.
  - intros [= <-]. by exists [].
  - simpl. destruct (py_int x) as [z|]; [|done].
    destruct (map_int l) as [zs|e] eqn:E; [|done]. intros [= <-].
    destruct (IH zs eq_refl) as (zs' & -> & Hzs). exists (z :: zs'). split; [done|].
    by constructor.
  - simpl. destruct (py_int y) as [b|]; [|done].
    destruct (py_int x) as [a|]; [|done].
    destruct (map_int l) as [zs|e]; [|done]. intros [= <-].
    exists (a :: b :: zs). split; [done|]. constructor.
  - intros H. destruct (IH1 _ H) as (i1 & H1' & P1).
    destruct (IH2 _ H1') as (i2 & H2' & P2). exists i2. split; [done|]. by etrans.
Qed.

Lemma children_insert_fresh {W} (fs : gmap string (node W)) (d k : string) (v : node W) :
  fs !! k = None ->
  children d (<[k := v]> fs)
  ≡ₚ (match child_name d k with Some n => [n] | None => [] end ++ children d fs)%list.
Proof.
  intros Hk. unfold children.
  rewrite (map_to_list_insert fs k v Hk). simpl.
  destruct (child_name d k); done.
Qed.

Lemma alloc_run_dir_inv_ids {W} (fs fs' : gmap string (node W)) (parent d : string) :
  alloc_run_dir parent fs = (Ok d, fs') ->
  exists ids,
    os_listdir parent fs = (Ok (children parent fs), fs) /\
    map_int (children parent fs) = Ok ids /\
    d = parent ++ "/" ++ py_str (next_id ids) /\
    fs !! d = None /\ fs' = <[d := Dir]> fs.
Proof.
  intros H.
  assert (Hl : os_listdir parent fs = (Ok (children parent fs), fs)).
  { unfold alloc_run_dir, bind, os_listdir in *.
    destruct (fs !! parent) as [[|]|]; try done. }
  destruct (map_int (children parent fs)) as [ids|e] eqn:Hm.
  - exists ids. destruct (alloc_run_dir_Ok fs parent _ ids Hl Hm) as [Hf Ha].
    rewrite Ha in H. injection H as <- <-. done.
  - unfold alloc_run_dir, bind in H. rewrite Hl in H. unfold lift in H.
    rewrite Hm in H. done.
Qed.

(** Allocating twice in a row in the same parent gives consecutive numbers. *)
Lemma alloc_run_dir_after {W} (fs : gmap string (node W)) (parent : string) (ids : list Z) :
  os_listdir parent fs = (Ok (children parent fs), fs) ->
  map_int (children parent fs) = Ok ids ->
  let z := next_id ids in
  let fs1 := <[parent ++ "/" ++ py_str z := Dir]> fs in
  exists ids1,
    os_listdir parent fs1 = (Ok (children parent fs1), fs1) /\
    map_int (children parent fs1) = Ok ids1 /\
    next_id ids1 = z + 1.
Proof.
  intros Hl Hm z fs1.
  destruct (alloc_run_dir_Ok fs parent _ ids Hl Hm) as [Hf _]. fold z in Hf.
  assert (Hd : fs !! parent = Some Dir).
  { by destruct (os_listdir_Ok _ _ _ _ Hl) as (_ & ? & _). }
  assert (Hc : child_name parent (parent ++ "/" ++ py_str z) = Some (py_str z)).
  { apply child_name_Some. split; [done|]. split; [apply py_str_no_slash|].
    intros E. pose proof (py_int_str z) as Hi. rewrite E in Hi. done. }
  pose proof (children_insert_fresh fs parent _ Dir Hf) as Hp.
  rewrite Hc in Hp. simpl in Hp. fold fs1 in Hp.
  assert (Hm0 : map_int (py_str z :: children parent fs) = Ok (z :: ids)).
  { simpl. rewrite py_int_str, Hm. done. }
  destruct (map_int_Permutation _ _ _ (symmetry Hp) Hm0) as (ids1 & Hm1 & Hperm).
  exists ids1. split; [|split; [done|]].
  - unfold os_listdir. unfold fs1 at 1.
    rewrite lookup_insert_ne; [by rewrite Hd|]. apply path_join_neq_dir.
  - apply next_id_unique.
    + replace (z + 1 - 1) with z by lia. rewrite <- Hperm. left.
    + rewrite <- Hperm. constructor; [lia|].
      destruct (next_id_spec ids) as [[-> _]|[_ Hall]]; [constructor|].
      eapply Forall_impl; [exact Hall|]. simpl. fold z. intros. lia.
Qed.

(** X1.  Whatever integer names the parent directory lists, in any order
    and with gaps, [alloc_run_dir] creates the directory whose number is
    greater than the number of every listed name; it is one more than the
    greatest of them, and zero in an empty directory.  Gaps are never
    filled and no existing run directory is reused. *)
Theorem alloc_run_dir_above_all {W} (fs : gmap string (node W)) (parent : string)
    (names : list string) (ids : list Z) :
  os_listdir parent fs = (Ok names, fs) ->
  map_int names = Ok ids ->
  exists z,
    alloc_run_dir parent fs
    = (Ok (parent ++ "/" ++ py_str z), <[parent ++ "/" ++ py_str z := Dir]> fs) /\
    fs !! (parent ++ "/" ++ py_str z) = None /\
    (forall n, n ∈ names -> exists i, py_int n = Some i /\ i < z) /\
    (names = [] -> z = 0) /\
    (names <> [] -> exists n, n ∈ names /\ py_int n = Some (z - 1)).
Proof.
  intros Hl Hm. exists (next_id ids).
  destruct (alloc_run_dir_Ok fs parent names ids Hl Hm) as [Hf Ha].
  split; [exact Ha|]. split; [exact Hf|].
  apply map_int_Forall2 in Hm.
  split; [|split].
  - intros n Hn. apply list_elem_of_lookup in Hn as [k Hk].
    destruct (Forall2_lookup_l _ _ _ _ _ Hm Hk) as (i & Hi & Hpi).
    exists i. split; [done|].
    destruct (next_id_spec ids) as [[-> _]|[_ Hall]]; [done|].
    rewrite Forall_forall in Hall. apply Hall. by eapply list_elem_of_lookup_2.
  - intros ->. by apply Forall2_nil_inv_l in Hm as ->.
  - intros Hne. destruct (next_id_spec ids) as [[-> _]|[Hin _]].
    + apply Forall2_nil_inv_r in Hm. done.
    + apply list_elem_of_lookup in Hin as [k Hk].
      destruct (Forall2_lookup_r _ _ _ _ _ Hm Hk) as (n & Hn & Hpn).
      exists n. split; [by eapply list_elem_of_lookup_2|done].
Qed.

Lemma alloc_run_dir_above_all_witness :
  exists z,
    alloc_run_dir "lg" (fs_gaps (W := nat))
    = (Ok ("lg" ++ "/" ++ py_str z), <["lg" ++ "/" ++ py_str z := Dir]> fs_gaps) /\
    fs_gaps (W := nat) !! ("lg" ++ "/" ++ py_str z) = None /\
    (forall n, n ∈ children "lg" (fs_gaps (W := nat)) -> exists i, py_int n = Some i /\ i < z) /\
    (children "lg" (fs_gaps (W := nat)) = [] -> z = 0) /\
    (children "lg" (fs_gaps (W := nat)) <> [] ->
     exists n, n ∈ children "lg" (fs_gaps (W := nat)) /\ py_int n = Some (z - 1)).
Proof.
  apply (alloc_run_dir_above_all (fs_gaps (W := nat)) "lg"
           (children "lg" fs_gaps) [5; 7; 0]); vm_compute; reflexivity.
Defined.

(** X2.  Two successive allocations in the same parent directory give two
    different directories with consecutive numbers: the second allocation
    succeeds whenever the first did. *)
Theorem alloc_run_dir_twice {W} (fs fs1 : gmap string (node W)) (parent d : string) :
  alloc_run_dir parent fs = (Ok d, fs1) ->
  exists z,
    d = parent ++ "/" ++ py_str z /\
    fs1 !! (parent ++ "/" ++ py_str (z + 1)) = None /\
    alloc_run_dir parent fs1
    = (Ok (parent ++ "/" ++ py_str (z + 1)),
       <[parent ++ "/" ++ py_str (z + 1) := Dir]> fs1).
Proof.
  intros H. destruct (alloc_run_dir_inv_ids _ _ _ _ H) as (ids & Hl & Hm & -> & Hf & ->).
  exists (next_id ids). split; [done|].
  destruct (alloc_run_dir_after fs parent ids Hl Hm) as (ids1 & Hl1 & Hm1 & Hn).
  destruct (alloc_run_dir_Ok _ parent _ ids1 Hl1 Hm1) as [Hf1 Ha1].
  rewrite Hn in Hf1, Ha1. done.
Qed.

Lemma alloc_run_dir_twice_witness :
  exists z,
    "lg/8" = "lg" ++ "/" ++ py_str z /\
    (<["lg/8" := Dir]> (fs_gaps (W := nat))) !! ("lg" ++ "/" ++ py_str (z + 1)) = None /\
    alloc_run_dir "lg" (<["lg/8" := Dir]> (fs_gaps (W := nat)))
    = (Ok ("lg" ++ "/" ++ py_str (z + 1)),
       <["lg" ++ "/" ++ py_str (z + 1) := Dir]> (<["lg/8" := Dir]> fs_gaps)).
Proof.
  apply (alloc_run_dir_twice (fs_gaps (W := nat)) _ "lg" "lg/8").
  vm_compute. reflexivity.
Defined.

(** ** [test]: the run directory and its one record *)

Lemma wf_fs_spec {W} (fs : gmap string (node W)) :
  wf_fs fs = true <-> forall k v, fs !! k = Some v -> parent_exists fs k = true.
Proof.
  unfold wf_fs. rewrite forallb_forall. split.
  - intros H k v Hk. apply (H (k, v)). apply list_elem_of_In.
    by apply elem_of_map_to_list.
  - intros H [k v] Hin. apply list_elem_of_In, elem_of_map_to_list in Hin.
    by apply (H k v).
Qed.

Lemma parent_exists_insert {W} (fs : gmap string (node W)) (k k' : string) (v : node W) :
  fs !! k = None -> parent_exists fs k' = true ->
  parent_exists (<[k := v]> fs) k' = true.
Proof.
  unfold parent_exists. intros Hk. destruct (split_path k') as [[d b]|]; [|done].
  destruct (String.eqb d EmptyString); [done|]. cbn [orb].
  destruct (decide (d = k)) as [->|Hne].
  - rewrite Hk. done.
  - by rewrite lookup_insert_ne.
Qed.

Lemma wf_fs_insert {W} (fs : gmap string (node W)) (k : string) (v : node W) :
  wf_fs fs = true -> fs !! k = None -> parent_exists fs k = true ->
  wf_fs (<[k := v]> fs) = true.
Proof.
  rewrite !wf_fs_spec. intros Hwf Hk Hp k' v' Hk'.
  apply parent_exists_insert; [done|].
  destruct (decide (k' = k)) as [->|Hne]; [done|].
  rewrite lookup_insert_ne in Hk' by done. by eapply Hwf.
Qed.

Lemma parent_exists_join {W} (fs : gmap string (node W)) (d n : string) :
  fs !! d = Some Dir -> has_slash n = false -> parent_exists fs (d ++ "/" ++ n) = true.
Proof.
  intros Hd Hn. unfold parent_exists. rewrite (split_path_join _ _ Hn), Hd.
  apply orb_true_r.
Qed.

Lemma wf_fs_alloc {W} (fs fs' : gmap string (node W)) (parent d : string) :
  wf_fs fs = true -> alloc_run_dir parent fs = (Ok d, fs') -> wf_fs fs' = true.
Proof.
  intros Hwf H. destruct (alloc_run_dir_inv _ _ _ _ H) as (z & -> & Hp & Hd & ->).
  apply wf_fs_insert; [done..|]. apply parent_exists_join; [done|apply py_str_no_slash].
Qed.

(** Nothing lies in a directory that does not exist. *)
Lemma wf_fs_fresh_child {W} (fs : gmap string (node W)) (d n : string) :
  wf_fs fs = true -> d <> EmptyString -> has_slash n = false ->
  fs !! d = None -> fs !! (d ++ "/" ++ n) = None.
Proof.
  intros Hwf Hd Hn Hnone. destruct (fs !! (d ++ "/" ++ n)) as [v|] eqn:E; [|done].
  pose proof (wf_fs_parent _ _ _ _ Hwf Hd Hn E). congruence.
Qed.

(** The listing of a directory does not change when an entry is created
    deeper, or elsewhere. *)
Lemma alloc_run_dir_insert_other {W} (fs : gmap string (node W)) (parent k : string)
    (v : node W) (d : string) (fs' : gmap string (node W)) :
  fs !! k = None -> child_name parent k = None ->
  alloc_run_dir parent fs = (Ok d, fs') ->
  alloc_run_dir parent (<[k := v]> fs) = (Ok d, <[d := Dir]> (<[k := v]> fs)).
Proof.
  intros Hk Hc H.
  destruct (alloc_run_dir_inv_ids _ _ _ _ H) as (ids & Hl & Hm & -> & Hf & ->).
  pose proof (children_insert_fresh fs parent k v Hk) as Hp. rewrite Hc in Hp.
  simpl in Hp.
  destruct (map_int_Permutation _ _ _ (symmetry Hp) Hm) as (ids' & Hm' & Hperm).
  assert (Hd : fs !! parent = Some Dir).
  { by destruct (os_listdir_Ok _ _ _ _ Hl) as (_ & ? & _). }
  assert (Hl' : os_listdir parent (<[k := v]> fs)
                = (Ok (children parent (<[k := v]> fs)), <[k := v]> fs)).
  { unfold os_listdir. rewrite lookup_insert_ne; [by rewrite Hd|]. congruence. }
  destruct (alloc_run_dir_Ok _ parent _ ids' Hl' Hm') as [_ Ha].
  assert (next_id ids' = next_id ids) as Hn.
  { destruct (next_id_spec ids) as [[-> E]|[Hin Hall]].
    - by apply Permutation_nil_l in Hperm as ->.
    - apply next_id_unique; by rewrite <- Hperm. }
  by rewrite Hn in Ha.
Qed.

Section TestFacts.
Context `{C : Collaborators}.
Implicit Types (fs : gmap string (node StateDict)).

Lemma test_Ok dl model metrics logs one_hot fs0 fs1 lg :
  wf_fs fs0 = true ->
  alloc_run_dir logs fs0 = (Ok lg, fs1) ->
  dl <> [] ->
  fs1 !! (lg ++ "/test.log") = None /\
  test dl model metrics logs one_hot fs0
  = (Ok lg, <[lg ++ "/test.log" := File None (test_record dl model metrics one_hot)]> fs1).
Proof.
  intros Hwf Ha Hdl.
  destruct (alloc_run_dir_inv _ _ _ _ Ha) as (z & Hlg & Hp & Hd & Hfs1).
  assert (Hnone : fs1 !! (lg ++ "/test.log") = None).
  { rewrite Hfs1. rewrite lookup_insert_ne by (symmetry; apply path_join_neq_dir).
    apply wf_fs_fresh_child; [done| |done|done].
    rewrite Hlg. apply path_join_nonempty. }
  split; [done|].
  unfold test, bind. rewrite Ha. unfold lift.
  rewrite py_truediv_Ok by (destruct dl; [done|simpl; lia]).
  change (lg ++ "/test.log") with (lg ++ "/" ++ "test.log") in *.
  rewrite append_text_new; [| |done|done].
  - unfold ret, test_record.
    destruct (eval_pass_means metrics one_hot dl model) as [-> ->]. done.
  - rewrite Hfs1. apply lookup_insert_eq.
Qed.

(** X3.  On a well-formed file system where the run directory can be
    allocated, [test] over a non-empty dataloader returns the new run
    directory; that directory then holds exactly one entry, [test.log],
    whose content is the single record made of the averaged loss and the
    averaged metrics, and every path that existed before is as it was. *)
Theorem test_writes_one_record dl model metrics logs one_hot fs0 fs1 lg :
  wf_fs fs0 = true ->
  alloc_run_dir logs fs0 = (Ok lg, fs1) ->
  dl <> [] ->
  let r := test dl model metrics logs one_hot fs0 in
  r.1 = Ok lg /\
  r.2 !! lg = Some Dir /\
  r.2 !! (lg ++ "/test.log") = Some (File None (test_record dl model metrics one_hot)) /\
  children lg r.2 = ["test.log"] /\
  (forall p, p <> lg -> p <> lg ++ "/test.log" -> r.2 !! p = fs0 !! p) /\
  (forall p v, fs0 !! p = Some v -> r.2 !! p = Some v).
Proof.
  intros Hwf Ha Hdl r.
  destruct (test_Ok dl model metrics logs one_hot _ _ _ Hwf Ha Hdl) as [Hnone Ht].
  destruct (alloc_run_dir_inv _ _ _ _ Ha) as (z & Hlg & Hp & Hd & Hfs1).
  assert (Hlgne : lg <> EmptyString) by (rewrite Hlg; apply path_join_nonempty).
  subst r. rewrite Ht. cbn [fst snd].
  assert (Hframe : forall p, p <> lg -> p <> lg ++ "/test.log" ->
            (<[lg ++ "/test.log" := File None (test_record dl model metrics one_hot)]> fs1)
              !! p = fs0 !! p).
  { intros p H1 H2. rewrite lookup_insert_ne by done. rewrite Hfs1.
    by rewrite lookup_insert_ne. }
  split; [done|]. split; [|split; [|split; [|split]]].
  - rewrite lookup_insert_ne by (apply path_join_neq_dir).
    rewrite Hfs1. apply lookup_insert_eq.
  - apply lookup_insert_eq.
  - apply NoDup_singleton_eq.
    + apply NoDup_ListNoDup, children_NoDup.
    + intros n. rewrite <- list_elem_of_In, children_elem. split.
      * intros (Hn & Hne & [v Hv]).
        destruct (decide (n = "test.log")) as [|Hneq]; [done|]. exfalso.
        rewrite Hframe in Hv.
        -- rewrite (wf_fs_fresh_child _ _ _ Hwf Hlgne Hn Hd) in Hv. done.
        -- apply path_join_neq_dir.
        -- change (lg ++ "/test.log") with (lg ++ "/" ++ "test.log").
           intros E. apply string_app_inv_head in E.
           apply string_app_inv_head in E. done.
      * intros ->. split; [done|]. split; [done|].
        change (lg ++ "/" ++ "test.log") with (lg ++ "/test.log").
        rewrite lookup_insert_eq. by eexists.
  - exact Hframe.
  - intros p v Hv. rewrite Hframe; [done| |]; intros ->.
    + congruence.
    + rewrite Hfs1 in Hnone. rewrite lookup_insert_ne in Hnone; [congruence|].
      symmetry. apply path_join_neq_dir.
Qed.

(** X4.  [test] can be repeated: after a successful call on a well-formed
    file system, a second call with the same arguments succeeds as well,
    allocates the directory with the next number and writes the same
    record there; the log of the first call is left as it was. *)
Theorem test_twice dl model metrics logs one_hot fs0 fs2 lg :
  wf_fs fs0 = true ->
  test dl model metrics logs one_hot fs0 = (Ok lg, fs2) ->
  exists z,
    lg = logs ++ "/" ++ py_str z /\
    let lg' := logs ++ "/" ++ py_str (z + 1) in
    let r := test dl model metrics logs one_hot fs2 in
    r.1 = Ok lg' /\
    r.2 !! (lg' ++ "/test.log")
    = Some (File None (test_record dl model metrics one_hot)) /\
    r.2 !! (lg ++ "/test.log")
    = Some (File None (test_record dl model metrics one_hot)).
Proof.
  intros Hwf Ht.
  destruct (alloc_run_dir logs fs0) as [[d|e] fs1] eqn:Ha.
  2:{ unfold test, bind in Ht. rewrite Ha in Ht. done. }
  assert (Hdl : dl <> []).
  { intros ->. unfold test, bind in Ht. rewrite Ha in Ht. done. }
  destruct (test_Ok dl model metrics logs one_hot _ _ _ Hwf Ha Hdl) as [Hnone Ht'].
  rewrite Ht' in Ht. injection Ht as <- <-.
  destruct (alloc_run_dir_twice _ _ _ _ Ha) as (z & Hd & Hf2 & Ha2).
  exists z. split; [done|]. intros lg' r.
  assert (Hwf1 : wf_fs fs1 = true) by (eapply wf_fs_alloc; eauto).
  assert (Hdir : fs1 !! d = Some Dir).
  { destruct (alloc_run_dir_inv _ _ _ _ Ha) as (? & _ & _ & _ & ->).
    apply lookup_insert_eq. }
  set (line := test_record dl model metrics one_hot) in *.
  assert (Hwf2 : wf_fs (<[d ++ "/test.log" := File None line]> fs1) = true).
  { apply wf_fs_insert; [done..|].
    change (d ++ "/test.log") with (d ++ "/" ++ "test.log").
    by apply parent_exists_join. }
  assert (Hc : child_name logs (d ++ "/test.log") = None).
  { destruct (child_name logs (d ++ "/test.log")) as [n|] eqn:E; [|done].
    apply child_name_Some in E as (E & Hn & _). exfalso.
    rewrite Hd in E. unfold path_join in E.
    rewrite <- !string_app_assoc in E.
    rewrite !string_app_assoc in E.
    apply string_app_inv_head in E. apply string_app_inv_head in E.
    rewrite <- E in Hn. rewrite has_slash_app in Hn.
    apply orb_false_elim in Hn as [_ Hn]. done. }
  pose proof (alloc_run_dir_insert_other fs1 logs _ (File None line) _ _ Hnone Hc Ha2)
    as Ha3.
  destruct (test_Ok dl model metrics logs one_hot _ _ _ Hwf2 Ha3 Hdl) as [_ Ht2].
  subst r. rewrite Ht2. cbn [fst snd]. fold lg'.
  split; [done|]. split; [apply lookup_insert_eq|].
  assert (Hne : lg' <> d).
  { subst lg'. rewrite Hd. intros E. apply string_app_inv_head in E.
    apply string_app_inv_head in E. apply py_str_inj in E. lia. }
  rewrite lookup_insert_ne.
  2:{ intros E. apply Hne. 
      change (lg' ++ "/test.log") with (lg' ++ "/" ++ "test.log") in E.
      change (d ++ "/test.log") with (d ++ "/" ++ "test.log") in E.
      by apply path_join_inj in E as [E _]. }
  rewrite lookup_insert_ne.
  2:{ intros E. subst lg'. rewrite Hd in E.
      change (?a ++ "/test.log") with (a ++ "/" ++ "test.log") in E.
      rewrite <- !string_app_assoc in E. rewrite !string_app_assoc in E.
      apply string_app_inv_head in E. apply string_app_inv_head in E.
      pose proof (py_str_no_slash (z + 1)) as Hs. rewrite E in Hs.
      rewrite has_slash_app in Hs. apply orb_false_elim in Hs as [_ Hs]. done. }
  apply lookup_insert_eq.
Qed.

End TestFacts.

Lemma test_writes_one_record_witness :
  let r := test (C := replay demo_table) (one_batch demo_table) 0%nat
             [steps_metric demo_table] "lg" false fs_gaps in
  r.1 = Ok "lg/8" /\
  r.2 !! "lg/8" = Some Dir /\
  r.2 !! ("lg/8" ++ "/test.log")
  = Some (File None (test_record (C := replay demo_table) (one_batch demo_table) 0%nat
                       [steps_metric demo_table] false)) /\
  children "lg/8" r.2 = ["test.log"] /\
  (forall p, p <> "lg/8" -> p <> "lg/8" ++ "/test.log" -> r.2 !! p = fs_gaps !! p) /\
  (forall p v, fs_gaps !! p = Some v -> r.2 !! p = Some v).
Proof.
  apply (test_writes_one_record (C := replay demo_table) (one_batch demo_table) 0%nat
           [steps_metric demo_table] "lg" false fs_gaps (<["lg/8" := Dir]> fs_gaps)
           "lg/8").
  - vm_compute. reflexivity.
  - vm_compute. reflexivity.
  - discriminate.
Defined.

Lemma test_twice_witness :
  exists z,
    "lg/8" = "lg" ++ "/" ++ py_str z /\
    let lg' := "lg" ++ "/" ++ py_str (z + 1) in
    let r := test (C := replay demo_table) (one_batch demo_table) 0%nat
               [steps_metric demo_table] "lg" false
               (test (C := replay demo_table) (one_batch demo_table) 0%nat
                  [steps_metric demo_table] "lg" false fs_gaps).2 in
    r.1 = Ok lg' /\
    r.2 !! (lg' ++ "/test.log")
    = Some (File None (test_record (C := replay demo_table) (one_batch demo_table) 0%nat
                         [steps_metric demo_table] false)) /\
    r.2 !! ("lg/8" ++ "/test.log")
    = Some (File None (test_record (C := replay demo_table) (one_batch demo_table) 0%nat
                         [steps_metric demo_table] false)).
Proof.
  apply (test_twice (C := replay demo_table) (one_batch demo_table) 0%nat
           [steps_metric demo_table] "lg" false fs_gaps
           (test (C := replay demo_table) (one_batch demo_table) 0%nat
              [steps_metric demo_table] "lg" false fs_gaps).2 "lg/8").
  - vm_compute. reflexivity.
  - vm_compute. reflexivity.
Defined.

(** ** What a run writes, whatever its outcome *)

Lemma alloc_run_dir_Raise {W} (fs fs' : gmap string (node W)) (parent : string) (e : exn) :
  alloc_run_dir parent fs = (Raise e, fs') -> fs' = fs.
Proof.
  unfold alloc_run_dir, bind, lift, ret, os_listdir, os_mkdir.
  destruct (fs !! parent) as [[|b t]|]; try (by intros [= _ <-]).
  destruct (map_int _) as [ids|e']; [|by intros [= _ <-]].
  destruct (fs !! _) as [v|]; [by intros [= _ <-]|].
  destruct (check_parent _ _) as [[]|e']; [done|by intros [= _ <-]].
Qed.

Section Writes.
Context `{C : Collaborators}.
Variables (train_dataloader valid_dataloader : list (Imgs * Labels)).
Variables (metrics : list Metric) (epochs : Z) (ck lg : string).
Variables (save_every : Z) (one_hot : bool).
Implicit Types (f : gmap string (node StateDict)) (q : string).

(** The paths of a run: the entries of its two directories whose name is
    no integer. *)
Let own q : Prop :=
  exists n, has_slash n = false /\ py_int n = None /\
            (q = ck ++ "/" ++ n \/ q = lg ++ "/" ++ n).

(** From [f] to [f'] only regular files were written, at paths of the run. *)
Let only_files f f' : Prop :=
  forall q, f' !! q = f !! q \/ (own q /\ exists b t, f' !! q = Some (File b t)).

Let writes {A} (m : M StateDict A) : Prop :=
  forall f r f', m f = (r, f') -> only_files f f'.

Lemma only_files_refl f : only_files f f.
Proof. intros q. by left. Qed.

Lemma only_files_trans f1 f2 f3 :
  only_files f1 f2 -> only_files f2 f3 -> only_files f1 f3.
Proof.
  intros H12 H23 q. destruct (H23 q) as [E|H]; [|by right].
  rewrite E. apply H12.
Qed.

Lemma only_files_insert f q b t : own q -> only_files f (<[q := File b t]> f).
Proof.
  intros Hq q'. destruct (decide (q' = q)) as [->|Hne].
  - right. split; [done|]. exists b, t. apply lookup_insert_eq.
  - left. by rewrite lookup_insert_ne.
Qed.

Lemma writes_ret {A} (a : A) : writes (ret a).
Proof. intros f r f' [= _ <-]. apply only_files_refl. Qed.

Lemma writes_lift {A} (x : result A) : writes (lift x).
Proof. intros f r f' [= _ <-]. apply only_files_refl. Qed.

Lemma writes_bind {A B} (m : M StateDict A) (k : A -> M StateDict B) :
  writes m -> (forall a, writes (k a)) -> writes (bind m k).
Proof.
  intros Hm Hk f r f'. unfold bind. destruct (m f) as [[a|e] f1] eqn:E.
  - intros H. eapply only_files_trans; [by eapply Hm|by eapply Hk].
  - intros [= _ <-]. by eapply Hm.
Qed.

Lemma writes_if {A} (b : bool) (m1 m2 : M StateDict A) :
  writes m1 -> writes m2 -> writes (if b then m1 else m2).
Proof. by destruct b. Qed.

Lemma writes_torch_save w q : own q -> writes (torch_save w q).
Proof.
  intros Hq f r f'. unfold torch_save.
  destruct (check_parent f q) as [[]|e].
  - destruct (f !! q) as [[|b t]|]; intros [= _ <-];
      first [apply only_files_refl | by apply only_files_insert].
  - destruct (f !! q) as [[|b t]|]; intros [= _ <-]; apply only_files_refl.
Qed.

Lemma writes_append_text q s : own q -> writes (append_text q s).
Proof.
  intros Hq f r f'. unfold append_text.
  destruct (f !! q) as [[|b t]|].
  - intros [= _ <-]. apply only_files_refl.
  - intros [= _ <-]. by apply only_files_insert.
  - destruct (check_parent f q) as [[]|e]; intros [= _ <-];
      first [apply only_files_refl | by apply only_files_insert].
Qed.

Lemma own_ck n : has_slash n = false -> py_int n = None -> own (ck ++ "/" ++ n).
Proof. intros. exists n. auto. Qed.

Lemma own_lg n : has_slash n = false -> py_int n = None -> own (lg ++ "/" ++ n).
Proof. intros. exists n. auto. Qed.

Lemma own_best : own (ck ++ "/best.pt").
Proof. by apply (own_ck "best.pt"). Qed.

Lemma own_log : own (lg ++ "/trainval.log").
Proof. by apply (own_lg "trainval.log"). Qed.

Lemma writes_epoch_body st epoch :
  writes (epoch_body train_dataloader valid_dataloader metrics epochs ck lg
            save_every one_hot st epoch).
Proof.
  unfold epoch_body. cbv zeta.
  apply writes_bind; [apply writes_lift|intros train_loss].
  apply writes_bind; [apply writes_lift|intros valid_loss].
  apply writes_bind; [apply writes_lift|intros r].
  apply writes_bind; [|intros _].
  { apply writes_if; [|apply writes_ret]. apply writes_torch_save.
    apply own_ck; [apply plan_name_no_slash|apply py_int_plan_name]. }
  apply writes_bind; [|intros best].
  { apply writes_if; [|apply writes_ret].
    apply writes_bind; [|intros _; apply writes_ret].
    apply writes_torch_save, own_best. }
  apply writes_bind; [|intros _; apply writes_ret].
  apply writes_append_text, own_log.
Qed.

Lemma writes_for_each (l : list Z) st :
  writes (for_each l (epoch_body train_dataloader valid_dataloader metrics epochs
                        ck lg save_every one_hot) st).
Proof.
  revert st. induction l as [|e l IH]; intros st; cbn [for_each].
  - apply writes_ret.
  - apply writes_bind; [apply writes_epoch_body|]. intros st'. apply IH.
Qed.

(** Line 155, on a [best.pt] that is no directory. *)
Lemma os_rename_file_frame f r f' (src dst : string) :
  f !! src <> Some Dir -> os_rename src dst f = (r, f') ->
  forall q, q <> src -> q <> dst -> f' !! q = f !! q.
Proof.
  intros Hsrc H q Hq1 Hq2. unfold os_rename in H.
  destruct (f !! src) as [[|b t]|]; [done| |by injection H as _ <-].
  destruct (f !! dst) as [[|b' t']|].
  - by injection H as _ <-.
  - destruct (check_parent f dst) as [[]|e]; injection H as _ <-; [|done].
    rewrite lookup_insert_ne by done. by rewrite lookup_delete_ne.
  - destruct (check_parent f dst) as [[]|e]; injection H as _ <-; [|done].
    rewrite lookup_insert_ne by done. by rewrite lookup_delete_ne.
Qed.

(** The loop and the rename leave every path alone that is no entry of the
    two run directories. *)
Lemma train_loop_writes model f r f' :
  f !! (ck ++ "/best.pt") <> Some Dir ->
  train_loop train_dataloader valid_dataloader metrics epochs ck lg save_every
    one_hot model f = (r, f') ->
  forall q,
    (forall n, has_slash n = false -> py_int n = None ->
               q <> ck ++ "/" ++ n /\ q <> lg ++ "/" ++ n) ->
    f' !! q = f !! q.
Proof.
  intros Hbest H q Hq. unfold train_loop, bind in H.
  assert (Hnot : ~ own q).
  { intros (n & H1 & H2 & [->| ->]); by destruct (Hq n H1 H2). }
  destruct (for_each _ _ _ f) as [[st|e] f1] eqn:E.
  - pose proof (writes_for_each _ _ _ _ _ E) as Hw.
    assert (f1 !! q = f !! q) as <-.
    { destruct (Hw q) as [|[? _]]; done. }
    eapply os_rename_file_frame; [|exact H| |].
    + destruct (Hw (ck ++ "/best.pt")) as [->|(_ & b & t & ->)]; done.
    + intros ->. apply Hnot, own_best.
    + intros ->. apply Hnot, own_ck; [apply best_name_no_slash|apply py_int_best_name].
  - injection H as _ <-. pose proof (writes_for_each _ _ _ _ _ E) as Hw.
    destruct (Hw q) as [|[? _]]; done.
Qed.

End Writes.

Section KeepsEntries.
Context `{C : Collaborators}.

(** X5.  Whatever their arguments and whatever their outcome, [train] and
    [test] never remove or change an entry that the file system held when
    they were called: the checkpoints and logs of earlier runs, in
    particular, are never overwritten. *)
Theorem runs_keep_existing_entries (fs0 : gmap string (node StateDict))
    (p : string) (v : node StateDict) :
  wf_fs fs0 = true -> fs0 !! p = Some v ->
  (forall tdl vdl model metrics epochs checkpoints logs save_every one_hot,
      (train tdl vdl model metrics epochs checkpoints logs save_every one_hot fs0).2
        !! p = Some v) /\
  (forall dl model metrics logs one_hot,
      (test dl model metrics logs one_hot fs0).2 !! p = Some v).
Proof.
  intros Hwf Hp. split.
  - intros tdl vdl model metrics epochs checkpoints logs save_every one_hot.
    unfold train, bind.
    destruct (alloc_run_dir checkpoints fs0) as [[ck|e] fs1] eqn:Hck.
    2:{ apply alloc_run_dir_Raise in Hck as ->. done. }
    destruct (alloc_run_dir_inv _ _ _ _ Hck) as (z1 & Eck & _ & Hnck & Hfs1).
    assert (Hp1 : fs1 !! p = Some v).
    { rewrite Hfs1, lookup_insert_ne; [done|]. congruence. }
    destruct (alloc_run_dir logs fs1) as [[lg|e] fs2] eqn:Hlg.
    2:{ apply alloc_run_dir_Raise in Hlg as ->. done. }
    destruct (alloc_run_dir_inv _ _ _ _ Hlg) as (z2 & Elg & _ & Hnlg & Hfs2).
    assert (Hp2 : fs2 !! p = Some v).
    { rewrite Hfs2, lookup_insert_ne; [done|]. congruence. }
    pose proof (fresh_after_alloc _ _ _ _ _ _ _ Hwf Hck Hlg) as (_ & _ & Hfresh).
    destruct (train_loop _ _ _ _ _ _ _ _ _ fs2) as [r f'] eqn:E. cbn [snd].
    rewrite <- Hp2. eapply train_loop_writes; [|exact E|].
    + destruct (Hfresh "best.pt" eq_refl eq_refl) as [Hb _].
      change (ck ++ "/" ++ "best.pt") with (ck ++ "/best.pt") in Hb.
      rewrite Hb. done.
    + intros n H1 H2. destruct (Hfresh n H1 H2) as [Ha Hb].
      split; intros ->; congruence.
  - intros dl model metrics logs one_hot. unfold test, bind.
    destruct (alloc_run_dir logs fs0) as [[lg|e] fs1] eqn:Hlg.
    2:{ apply alloc_run_dir_Raise in Hlg as ->. done. }
    destruct (alloc_run_dir_inv _ _ _ _ Hlg) as (z & Elg & _ & Hnlg & Hfs1).
    assert (Hp1 : fs1 !! p = Some v).
    { rewrite Hfs1, lookup_insert_ne; [done|]. congruence. }
    unfold lift. destruct (py_truediv _ _) as [x|e]; [|done].
    assert (Hnone : fs1 !! (lg ++ "/" ++ "test.log") = None).
    { rewrite Hfs1. rewrite lookup_insert_ne by (symmetry; apply path_join_neq_dir).
      apply wf_fs_fresh_child; [done| |done|done].
      rewrite Elg. apply path_join_nonempty. }
    change (lg ++ "/test.log") with (lg ++ "/" ++ "test.log").
    rewrite append_text_new; [| |done|done].
    + cbn [snd ret]. rewrite lookup_insert_ne; [done|]. congruence.
    + rewrite Hfs1. apply lookup_insert_eq.
Qed.

End KeepsEntries.

Lemma runs_keep_existing_entries_witness :
  (forall tdl vdl model metrics epochs checkpoints logs save_every one_hot,
      (train (C := replay demo_table) tdl vdl model metrics epochs checkpoints logs
         save_every one_hot fs_two_runs).2
        !! "ck/1/best_0_0.10.pt" = Some (File None EmptyString)) /\
  (forall dl model metrics logs one_hot,
      (test (C := replay demo_table) dl model metrics logs one_hot fs_two_runs).2
        !! "ck/1/best_0_0.10.pt" = Some (File None EmptyString)).
Proof.
  apply (runs_keep_existing_entries (C := replay demo_table) fs_two_runs
           "ck/1/best_0_0.10.pt" (File None EmptyString)).
  - vm_compute. reflexivity.
  - vm_compute. reflexivity.
Defined.

(** ** [save_every = 0], a NaN loss, the layout of a record *)

Section SaveEveryZero.
Context `{C : Collaborators}.

(** X6.  With [save_every = 0], at least one epoch and non-empty
    dataloaders, [train] raises [ZeroDivisionError] at line 121 of the first
    epoch, after the two passes over the data: the two run directories have
    been created and nothing is written to them. *)
Theorem train_save_every_zero (tdl vdl : list (Imgs * Labels)) (model : Net)
    (metrics : list Metric) (epochs : Z) (checkpoints logs : string)
    (one_hot : bool) (fs0 fs1 fs2 : gmap string (node StateDict)) (ck lg : string) :
  alloc_run_dir checkpoints fs0 = (Ok ck, fs1) ->
  alloc_run_dir logs fs1 = (Ok lg, fs2) ->
  tdl <> [] -> vdl <> [] -> 0 < epochs ->
  train tdl vdl model metrics epochs checkpoints logs 0 one_hot fs0
  = (Raise ZeroDivisionError, fs2).
Proof.
  intros Hck Hlg Ht Hv He.
  rewrite (train_unfold _ _ _ _ _ _ _ _ _ _ _ _ _ _ Hck Hlg).
  unfold train_loop, bind, py_range. rewrite (seqZ_cons 0 epochs He).
  cbn [for_each]. unfold bind at 1. unfold epoch_body at 1. cbv zeta.
  unfold bind, lift.
  rewrite !py_truediv_Ok by (by destruct tdl, vdl).
  reflexivity.
Qed.

End SaveEveryZero.

Lemma train_save_every_zero_witness :
  train (C := replay demo_table) (one_batch demo_table) (one_batch demo_table) 0%nat
    [steps_metric demo_table] 3 "ck" "lg" 0 false fs_empty_parents
  = (Raise ZeroDivisionError, fs_ck0_lg0).
Proof.
  apply (train_save_every_zero (C := replay demo_table) (one_batch demo_table)
           (one_batch demo_table) 0%nat [steps_metric demo_table] 3 "ck" "lg" false
           fs_empty_parents fs_ck0 fs_ck0_lg0 "ck/0" "lg/0").
  - vm_compute. reflexivity.
  - vm_compute. reflexivity.
  - discriminate.
  - discriminate.
  - lia.
Defined.

(** A NaN is below nothing. *)
Lemma flt_nan_l (x y : float) : PrimFloat.is_nan x = true -> flt x y = false.
Proof.
  unfold PrimFloat.is_nan, flt. rewrite FloatAxioms.eqb_spec, ltb_spec. unfold SFeqb, SFltb.
  destruct (Prim2SF x) as [s|s| |s m e].
  - done.
  - by destruct s.
  - done.
  - intros H. exfalso. revert H. destruct s; simpl;
      change (PosDef.Pos.compare_cont Eq m m) with (Pos.compare m m);
      rewrite Z.compare_refl, Pos.compare_refl; done.
Qed.

Section NaN.
Context `{C : Collaborators}.
Variables (train_dataloader valid_dataloader : list (Imgs * Labels)).
Variables (model : Net) (metrics : list Metric) (epochs : Z).
Variables (checkpoints logs : string) (save_every : Z) (one_hot : bool).
Variables (fs0 fs1 fs2 : gmap string (node StateDict)) (ck lg : string).

Hypothesis Hwf : wf_fs fs0 = true.
Hypothesis Hck : alloc_run_dir checkpoints fs0 = (Ok ck, fs1).
Hypothesis Hlg : alloc_run_dir logs fs1 = (Ok lg, fs2).
Hypothesis Htrain : train_dataloader <> [].
Hypothesis Hvalid : valid_dataloader <> [].
Hypothesis Hevery : save_every <> 0.

(** X7.  An epoch whose validation loss is a NaN never becomes the best
    epoch: the comparison of line 125 is false, so [best_loss], [best_epoch]
    and the file [best.pt] are after that epoch what they were before
    it. *)
Theorem nan_loss_never_best (n : nat) :
  PrimFloat.is_nan
    (valid_loss_at train_dataloader valid_dataloader metrics one_hot model n) = true ->
  exists st st' f f',
    epochs_prefix train_dataloader valid_dataloader metrics epochs ck lg save_every
      one_hot n model fs2 = (Ok st, f) /\
    epochs_prefix train_dataloader valid_dataloader metrics epochs ck lg save_every
      one_hot (S n) model fs2 = (Ok st', f') /\
    best_loss st' = best_loss st /\
    best_epoch st' = best_epoch st /\
    f' !! (ck ++ "/best.pt") = f !! (ck ++ "/best.pt").
Proof.
  intros Hnan.
  pose proof (prefix_Ok train_dataloader valid_dataloader model metrics epochs
                checkpoints logs save_every one_hot fs0 fs1 fs2 ck lg Hwf Hck Hlg
                Htrain Hvalid Hevery) as HP.
  cbv beta in HP.
  do 4 eexists. split; [apply (HP n)|]. split; [apply (HP (S n))|].
  cbn [best_loss best_epoch best_after].
  rewrite (flt_nan_l _ _ Hnan). split; [done|]. split; [done|].
  rewrite fs_after_S. rewrite (flt_nan_l _ _ Hnan).
  rewrite lookup_insert_ne by (symmetry; apply best_path_neq_log).
  unfold id. destruct (save_due _ _ _); [|done].
  rewrite lookup_insert_ne by apply plan_path_neq_best. done.
Qed.

End NaN.

Lemma nan_loss_never_best_witness :
  exists st st' f f',
    epochs_prefix (C := replay nan_table) (one_batch nan_table) (one_batch nan_table)
      [] 2 "ck/0" "lg/0" 1 false 1 0%nat fs_ck0_lg0 = (Ok st, f) /\
    epochs_prefix (C := replay nan_table) (one_batch nan_table) (one_batch nan_table)
      [] 2 "ck/0" "lg/0" 1 false 2 0%nat fs_ck0_lg0 = (Ok st', f') /\
    best_loss st' = best_loss st /\
    best_epoch st' = best_epoch st /\
    f' !! ("ck/0" ++ "/best.pt") = f !! ("ck/0" ++ "/best.pt").
Proof.
  apply (nan_loss_never_best (C := replay nan_table) (one_batch nan_table)
           (one_batch nan_table) 0%nat [] 2 "ck" "lg" 1 false
           fs_empty_parents fs_ck0 fs_ck0_lg0 "ck/0" "lg/0").
  - vm_compute. reflexivity.
  - vm_compute. reflexivity.
  - vm_compute. reflexivity.
  - discriminate.
  - discriminate.
  - lia.
  - vm_compute. reflexivity.
Defined.

Section RecordFormat.
Context `{C : Collaborators}.

(** X8.  The layout of a record of [trainval.log] and of [test.log].  The
    metrics appear in the order of their registration, each with its own
    name and value; the line feed is written with the last validation (or
    test) metric only, so that a record has no line terminator when no
    metric is registered. *)
Theorem log_record_format (names : list string) :
  (forall epoch epochs train_loss valid_loss (train_mvct valid_mvct : list Scalar),
      length train_mvct = length names -> length valid_mvct = length names ->
      epoch_line epoch epochs train_loss valid_loss names train_mvct valid_mvct
      = "epoch: " ++ py_str (epoch + 1) ++ "/" ++ py_str epochs
          ++ " train loss: " ++ float_repr train_loss
          ++ " valid loss: " ++ float_repr valid_loss ++ " "
          ++ String.concat EmptyString
               (map (fun s => s ++ " ") (zip_with (metric_entry "train_") names train_mvct))
          ++ match names with
             | [] => EmptyString
             | _ => String.concat " " (zip_with (metric_entry "valid_") names valid_mvct)
                      ++ String (ascii_of_nat 10) EmptyString
             end) /\
  (forall test_loss (test_mvct : list Scalar),
      length test_mvct = length names ->
      test_line test_loss names test_mvct
      = "test loss: " ++ float_repr test_loss ++ " "
          ++ match names with
             | [] => EmptyString
             | _ => String.concat " " (zip_with (metric_entry EmptyString) names test_mvct)
                      ++ String (ascii_of_nat 10) EmptyString
             end).
Proof.
  split.
  - intros epoch epochs train_loss valid_loss train_mvct valid_mvct Ht Hv.
    unfold epoch_line.
    by rewrite (last_str_entries "valid_" names valid_mvct Hv),
      (train_str_entries names train_mvct Ht).
  - intros test_loss test_mvct Ht. unfold test_line.
    by rewrite (last_str_entries EmptyString names test_mvct Ht).
Qed.

End RecordFormat.

Lemma log_record_format_witness :
  test_line (C := replay demo_table) 0.5%float ["steps"; "accuracy"]
    [1%float; 0.5%float]
  = "test loss: " ++ float_repr (Collaborators := replay demo_table) 0.5%float ++ " "
      ++ String.concat " "
           (zip_with (metric_entry (C := replay demo_table) EmptyString)
              ["steps"; "accuracy"] [1%float; 0.5%float])
      ++ String (ascii_of_nat 10) EmptyString.
Proof.
  apply (proj2 (log_record_format (C := replay demo_table) ["steps"; "accuracy"])).
  reflexivity.
Defined.

(** ** [accuracy.calc] on labels of two axes, and on tensors of one axis *)

Local Close Scope string_scope.

(** *** Integers that [torch.float32] holds exactly *)

Lemma digits2_pos_bound (p : positive) (n : Z) :
  0 <= n -> Z.pos p < 2 ^ n -> Z.pos (digits2_pos p) <= n.
Proof.
  revert n; induction p as [p IH | p IH |]; intros n Hn Hp; cbn [digits2_pos].
  - assert (n <> 0) by (intros ->; change (2 ^ 0) with 1 in Hp; lia).
    replace n with (Z.succ (n - 1)) in Hp by lia. rewrite Z.pow_succ_r in Hp by lia.
    specialize (IH (n - 1)). lia.
  - assert (n <> 0) by (intros ->; change (2 ^ 0) with 1 in Hp; lia).
    replace n with (Z.succ (n - 1)) in Hp by lia. rewrite Z.pow_succ_r in Hp by lia.
    specialize (IH (n - 1)). lia.
  - assert (n <> 0) by (intros ->; change (2 ^ 0) with 1 in Hp; lia). lia.
Qed.

Lemma digits2_pos_iter (p k : positive) :
  digits2_pos (Pos.iter xO p k) = (digits2_pos p + k)%positive.
Proof.
  induction k as [|k IH] using Pos.peano_ind.
  - cbn. lia.
  - rewrite Pos.iter_succ. cbn [digits2_pos]. rewrite IH. lia.
Qed.

Lemma iter_xO_inj (p q k : positive) : Pos.iter xO p k = Pos.iter xO q k -> p = q.
Proof.
  induction k as [|k IH] using Pos.peano_ind.
  - cbn. congruence.
  - rewrite !Pos.iter_succ. intros [= H]. auto.
Qed.

(** A positive integer below 2^24 is converted to [torch.float32] without
    rounding: its digits are shifted to the 24 of the format. *)
Lemma round_Z_pos (p : positive) :
  Z.pos p < 2 ^ 24 ->
  round_Z Float32 (Z.pos p)
  = match Z.pos (digits2_pos p) - 24 with
    | Z.neg k => S754_finite false (Pos.iter xO p k) (Z.pos (digits2_pos p) - 24)
    | _ => S754_finite false p 0
    end.
Proof.
  intros Hp. pose proof (digits2_pos_bound p 24 ltac:(lia) Hp) as Hd.
  unfold round_Z, binary_normalize, binary_round. cbn [float_format fst snd].
  unfold shl_align, fexp, emin.
  rewrite Z.add_0_r, Z.sub_0_r.
  rewrite Z.max_l by lia.
  destruct (Z.pos (digits2_pos p) - 24) as [|k|k] eqn:Ek; [| lia |].
  - unfold binary_round_aux, shr_fexp, fexp, emin. cbn [shr_record_of_loc Zdigits2].
    rewrite Z.add_0_r, Z.sub_0_r. rewrite Z.max_l by lia. rewrite Ek.
    cbn [shr shr_m loc_of_shr_record round_nearest_even Zdigits2 shr_record_of_loc].
    rewrite Z.add_0_r, Z.sub_0_r. rewrite Z.max_l by lia. rewrite Ek.
    cbn [shr shr_m]. reflexivity.
  - unfold binary_round_aux, shr_fexp, fexp, emin. cbn [shr_record_of_loc Zdigits2].
    change (PosDef.Pos.iter xO p k) with (Pos.iter xO p k).
    rewrite digits2_pos_iter.
    replace (Z.pos (digits2_pos p + k) + Z.neg k) with (Z.pos (digits2_pos p)) by lia.
    rewrite Z.max_l by lia. rewrite Ek, Z.sub_diag.
    cbn [shr shr_m loc_of_shr_record round_nearest_even Zdigits2 shr_record_of_loc].
    rewrite digits2_pos_iter.
    replace (Z.pos (digits2_pos p + k) + Z.neg k) with (Z.pos (digits2_pos p)) by lia.
    rewrite Z.max_l by lia. rewrite Ek, Z.sub_diag. cbn [shr shr_m].
    destruct (Z.leb_spec (Z.neg k) (128 - 24)); [reflexivity | lia].
Qed.

Lemma SFeqb_finite (m1 m2 : positive) (e1 e2 : Z) :
  SFeqb (S754_finite false m1 e1) (S754_finite false m2 e2)
  = (e1 =? e2) && (m1 =? m2)%positive.
Proof.
  unfold SFeqb, SFcompare. rewrite Z.eqb_compare, Pos.eqb_compare.
  change (PosDef.Pos.compare_cont Eq m1 m2) with (Pos.compare m1 m2).
  destruct (e1 ?= e2); [| reflexivity | reflexivity].
  now destruct (m1 ?= m2)%positive.
Qed.

Lemma round_Z_pos_eqb (p q : positive) :
  Z.pos p < 2 ^ 24 -> Z.pos q < 2 ^ 24 ->
  SFeqb (round_Z Float32 (Z.pos p)) (round_Z Float32 (Z.pos q)) = (p =? q)%positive.
Proof.
  intros Hp Hq. rewrite (round_Z_pos p Hp), (round_Z_pos q Hq).
  pose proof (digits2_pos_bound p 24 ltac:(lia) Hp) as Hdp.
  pose proof (digits2_pos_bound q 24 ltac:(lia) Hq) as Hdq.
  destruct (Pos.eqb_spec p q) as [-> | Hne].
  - destruct (Z.pos (digits2_pos q) - 24); rewrite SFeqb_finite, Z.eqb_refl, Pos.eqb_refl;
      reflexivity.
  - destruct (Z.pos (digits2_pos p) - 24) as [|k|k] eqn:Ep; [| lia |];
      destruct (Z.pos (digits2_pos q) - 24) as [|k'|k'] eqn:Eq'; try lia;
      rewrite SFeqb_finite.
    + rewrite Z.eqb_refl. cbn [andb]. now apply Pos.eqb_neq.
    + reflexivity.
    + reflexivity.
    + destruct (Z.eqb_spec (Z.neg k) (Z.neg k')) as [E | E]; [| reflexivity].
      cbn [andb]. apply Pos.eqb_neq. injection E as <-.
      intros H. now apply iter_xO_inj in H.
Qed.

(** Two class indices below 2^24 are equal as numbers of [torch.float32]
    exactly when they are equal. *)
Lemma round_Z_eqb (a b : nat) :
  Z.of_nat a < 2 ^ 24 -> Z.of_nat b < 2 ^ 24 ->
  SFeqb (round_Z Float32 (Z.of_nat a)) (round_Z Float32 (Z.of_nat b)) = (a =? b)%nat.
Proof.
  intros Ha Hb.
  destruct (Z.of_nat a) as [|p|p] eqn:Ea, (Z.of_nat b) as [|q|q] eqn:Eb; try lia.
  - assert (a = b) as -> by lia. now rewrite Nat.eqb_refl.
  - rewrite (round_Z_pos q Hb).
    destruct (Nat.eqb_spec a b); [lia |].
    now destruct (Z.pos (digits2_pos q) - 24).
  - rewrite (round_Z_pos p Ha).
    destruct (Nat.eqb_spec a b); [lia |].
    now destruct (Z.pos (digits2_pos p) - 24).
  - rewrite round_Z_pos_eqb by assumption.
    destruct (Pos.eqb_spec p q) as [-> | Hne], (Nat.eqb_spec a b); try reflexivity; lia.
Qed.

(** *** Class indices compared in [torch.float32] *)

Lemma flat_map_singleton_const {A B} (b : B) (l : list A) :
  flat_map (fun _ => [b]) l = replicate (length l) b.
Proof. induction l as [|x l IH]; [done|]. simpl. by rewrite IH. Qed.

Lemma indices_zeros (b : nat) :
  replicate b (EInt 0) = map (fun a => EInt (Z.of_nat a)) (replicate b 0%nat).
Proof. induction b as [|b IH]; [done|]. cbn [replicate map]. by rewrite IH. Qed.

(** The arg-max along an axis of size one is the index zero everywhere,
    whatever the elements are. *)
Lemma argmax_dim1_column (t : tensor) (b : nat) :
  shape t = [b; 1%nat] ->
  argmax_dim1 t
  = Ok {| dtype := Int64; shape := [b];
          data := map (fun a => EInt (Z.of_nat a)) (replicate b 0%nat) |}.
Proof.
  intros Hs. unfold argmax_dim1. rewrite Hs. cbn.
  rewrite (flat_map_singleton_const (EInt 0) (seq 0 b)), length_seq.
  by rewrite indices_zeros.
Qed.

Lemma count_equal_indices (amp aml : list nat) :
  Forall (fun a => Z.of_nat a < 2 ^ 24) amp -> Forall (fun a => Z.of_nat a < 2 ^ 24) aml ->
  count_equal (map (cast Float32) (map (fun a => EInt (Z.of_nat a)) amp))
              (map (cast Float32) (map (fun a => EInt (Z.of_nat a)) aml))
  = length (List.filter (fun p : nat * nat => (p.1 =? p.2)%nat) (combine amp aml)).
Proof.
  unfold count_equal. intros Hp. revert aml.
  induction Hp as [|a amp Ha Hp IH]; intros aml Hl; [done|].
  destruct Hl as [|a' aml Ha' Hl]; [done|].
  cbn [map zip_with combine List.filter fst snd cast elt_eqb]. rewrite filter_cons.
  rewrite (round_Z_eqb a a' Ha Ha').
  destruct (a =? a')%nat.
  - rewrite decide_True by reflexivity. cbn [length]. by rewrite IH.
  - rewrite decide_False by discriminate. by apply IH.
Qed.

(** [(p.float() == l.float()).sum()] on two tensors of [b] class indices. *)
Lemma eq_sum_indices (amp aml : list nat) (b : nat) :
  length amp = b -> length aml = b ->
  Forall (fun a => Z.of_nat a < 2 ^ 24) amp -> Forall (fun a => Z.of_nat a < 2 ^ 24) aml ->
  eq_sum (to_float {| dtype := Int64; shape := [b];
                      data := map (fun a => EInt (Z.of_nat a)) amp |})
         (to_float {| dtype := Int64; shape := [b];
                      data := map (fun a => EInt (Z.of_nat a)) aml |})
  = Ok (length (List.filter (fun p : nat * nat => (p.1 =? p.2)%nat) (combine amp aml))).
Proof.
  intros Hlp Hll Hp Hl. rewrite eq_sum_same_shape.
  - f_equal. by apply count_equal_indices.
  - done.
  - done.
  - change (length (map (cast Float32) (map (fun a => EInt (Z.of_nat a)) amp)) = numel [b]).
    by rewrite !length_map, numel_singleton.
  - change (length (map (cast Float32) (map (fun a => EInt (Z.of_nat a)) aml)) = numel [b]).
    by rewrite !length_map, numel_singleton.
Qed.

Lemma Forall_zeros (b : nat) : Forall (fun a => Z.of_nat a < 2 ^ 24) (replicate b 0%nat).
Proof. apply Forall_replicate. reflexivity. Qed.

Lemma agree_zeros (b : nat) :
  length (List.filter (fun p : nat * nat => (p.1 =? p.2)%nat)
            (combine (replicate b 0%nat) (replicate b 0%nat))) = b.
Proof. induction b as [|b IH]; [done|]. cbn. by rewrite IH. Qed.

Lemma agree_with_zeros (am : list nat) :
  length (List.filter (fun p : nat * nat => (p.1 =? p.2)%nat)
            (combine (replicate (length am) 0%nat) am))
  = length (List.filter (Nat.eqb 0) am).
Proof.
  induction am as [|a am IH]; [done|].
  cbn [length replicate combine List.filter fst snd].
  destruct (0 =? a)%nat; cbn [length]; by rewrite IH.
Qed.

(** The class indices of the rows of a well-formed tensor of two axes. *)
Lemma argmax_dim1_rows (t : tensor) (b c : nat) :
  shape t = [b; c] -> c <> 0%nat -> wf_tensor t = true ->
  exists am : list nat,
    length am = b /\
    (forall i, (i < b)%nat ->
       exists j, am !! i = Some j /\ is_argmax (slice1 t c 1 i 0) j) /\
    Forall (fun a => (a < c)%nat) am /\
    argmax_dim1 t
    = Ok {| dtype := Int64; shape := [b]; data := map (fun a => EInt (Z.of_nat a)) am |}.
Proof.
  intros Hs Hc Hwf.
  destruct (argmax_dim1_spec t b c [] Hs Hc Hwf) as (am & Hlen & Ham & Harg).
  change (numel []) with 1%nat in *.
  exists am. split; [lia|]. split; [|split; [|done]].
  - intros i Hi. destruct (Ham i 0%nat Hi ltac:(lia)) as (j & Hj & _ & Hmax).
    exists j. split; [|done]. by replace (i * 1 + 0)%nat with i in Hj by lia.
  - apply Forall_lookup. intros i a Hi.
    assert (i < b)%nat as Hlt by (apply lookup_lt_Some in Hi; lia).
    destruct (Ham i 0%nat Hlt ltac:(lia)) as (j & Hj & Hjc & _).
    replace (i * 1 + 0)%nat with i in Hj by lia. congruence.
Qed.

Lemma Forall_below (am : list nat) (c : nat) :
  Z.of_nat c <= 2 ^ 24 -> Forall (fun a => (a < c)%nat) am ->
  Forall (fun a => Z.of_nat a < 2 ^ 24) am.
Proof. intros Hc H. eapply Forall_impl; [exact H|]. intros a Ha. cbn beta in *. lia. Qed.

(** The rest of [calc] once the two arg-maxes of lines 11 and 12 are known. *)
Ltac calc_reduce Hap Hal Heq :=
  cbn [rbind]; rewrite Hap, Hal; cbn [rbind]; rewrite Heq; cbn [rbind];
  rewrite shape_to_float; cbn [shape]; rewrite label_count, numel_singleton.

(** X9.  When the labels are a column of shape [b, 1] and the predictions
    have the shape [b, c], [calc] returns [b / b] whatever the elements of
    the two tensors are: both are reduced by an arg-max over an axis of size
    one, which is zero everywhere. *)
Theorem accuracy_column_labels (preds labels : tensor) (b c : nat) :
  shape preds = [b; c] -> shape labels = [b; 1%nat] -> c <> 0%nat ->
  accuracy.calc preds labels
  = Ok (SFdiv 24 128 (binary_normalize 24 128 (Z.of_nat b) 0 false)
                     (binary_normalize 24 128 (Z.of_nat b) 0 false)).
Proof.
  intros Hp Hl Hc.
  pose proof (argmax_dim1_column labels b Hl) as Hal.
  pose proof (eq_sum_indices (replicate b 0%nat) (replicate b 0%nat) b
                (length_replicate _ _) (length_replicate _ _)
                (Forall_zeros b) (Forall_zeros b)) as Heq.
  rewrite agree_zeros in Heq.
  assert (Hlen : length (shape labels) = 2%nat) by (by rewrite Hl).
  assert (Hidx : py_index (shape labels) 1 = Ok 1%nat) by (by rewrite Hl).
  unfold accuracy.calc. cbv zeta. rewrite Hp, Hlen, Hidx.
  cbn [length Nat.eqb py_index lookup list_lookup rbind].
  destruct (Nat.eqb_spec c 1) as [->|Hne]; cbn [negb].
  - calc_reduce (argmax_dim1_column preds b Hp) Hal Heq. done.
  - destruct (argmax_dim1_shape preds b c [] Hp Hc) as (p & -> & Hps).
    cbn [rbind]. unfold unsqueeze1 at 1. rewrite Hps.
    calc_reduce (argmax_dim1_column
                   {| dtype := dtype p; shape := [b; 1%nat]; data := data p |} b eq_refl)
                Hal Heq.
    done.
Qed.

Lemma accuracy_column_labels_witness :
  accuracy.calc ex_preds ex_column
  = Ok (SFdiv 24 128 (binary_normalize 24 128 (Z.of_nat 2) 0 false)
                     (binary_normalize 24 128 (Z.of_nat 2) 0 false)).
Proof.
  apply (accuracy_column_labels ex_preds ex_column 2 2); [reflexivity|reflexivity|lia].
Defined.

(** X10.  When predictions of shape [b, c] meet labels of shape [b, c'] with
    a different number of columns (at most 2^24), the result does not depend
    on the predictions at all: it is, in [torch.float32], the number of label
    rows whose first greatest element is at the class zero, divided by the
    number of rows. *)
Theorem accuracy_width_mismatch (preds labels : tensor) (b c c' : nat) :
  shape preds = [b; c] -> shape labels = [b; c'] ->
  c <> 0%nat -> c' <> 0%nat -> c <> c' ->
  wf_tensor labels = true -> Z.of_nat c' <= 2 ^ 24 ->
  exists am : list nat,
    length am = b /\
    (forall i, (i < b)%nat ->
       exists j, am !! i = Some j /\ is_argmax (slice1 labels c' 1 i 0) j) /\
    accuracy.calc preds labels
    = Ok (SFdiv 24 128
            (binary_normalize 24 128 (Z.of_nat (length (List.filter (Nat.eqb 0) am))) 0 false)
            (binary_normalize 24 128 (Z.of_nat b) 0 false)) /\
    forall preds', shape preds' = [b; c] ->
                   accuracy.calc preds' labels = accuracy.calc preds labels.
Proof.
  intros Hp Hl Hc Hc' Hne Hwf Hbound.
  destruct (argmax_dim1_rows labels b c' Hl Hc' Hwf) as (am & Hlen & Ham & Hlt & Hal).
  exists am. split; [done|]. split; [done|]. subst b.
  pose proof (eq_sum_indices (replicate (length am) 0%nat) am (length am)
                (length_replicate _ _) eq_refl
                (Forall_zeros _) (Forall_below am c' Hbound Hlt)) as Heq.
  rewrite agree_with_zeros in Heq.
  assert (Hall : forall q, shape q = [length am; c] ->
            accuracy.calc q labels
            = Ok (SFdiv 24 128
                    (binary_normalize 24 128
                       (Z.of_nat (length (List.filter (Nat.eqb 0) am))) 0 false)
                    (binary_normalize 24 128 (Z.of_nat (length am)) 0 false))).
  { intros q Hq.
    assert (Hlen2 : length (shape labels) = 2%nat) by (by rewrite Hl).
    assert (Hidx : py_index (shape labels) 1 = Ok c') by (by rewrite Hl).
    unfold accuracy.calc. cbv zeta. rewrite Hq, Hlen2, Hidx.
    cbn [length Nat.eqb py_index lookup list_lookup rbind].
    destruct (Nat.eqb_spec c c') as [|_]; [done|]. cbn [negb].
    destruct (argmax_dim1_shape q (length am) c [] Hq Hc) as (p & -> & Hps).
    cbn [rbind]. unfold unsqueeze1 at 1. rewrite Hps.
    calc_reduce (argmax_dim1_column
                   {| dtype := dtype p; shape := [length am; 1%nat]; data := data p |}
                   (length am) eq_refl)
                Hal Heq.
    done. }
  split; [by apply Hall|].
  intros preds' Hp'. by rewrite !Hall.
Qed.

Lemma accuracy_width_mismatch_witness :
  (exists am : list nat,
     length am = 3%nat /\
     (forall i, (i < 3)%nat ->
        exists j, am !! i = Some j /\ is_argmax (slice1 ex_labels_0_2_0 3 1 i 0) j) /\
     accuracy.calc ex_preds32 ex_labels_0_2_0
     = Ok (SFdiv 24 128
             (binary_normalize 24 128 (Z.of_nat (length (List.filter (Nat.eqb 0) am))) 0 false)
             (binary_normalize 24 128 (Z.of_nat 3) 0 false)) /\
     forall preds', shape preds' = [3; 2]%nat ->
                    accuracy.calc preds' ex_labels_0_2_0
                    = accuracy.calc ex_preds32 ex_labels_0_2_0) /\
  accuracy.calc ex_preds32 ex_labels_0_2_0 = Ok f32_two_thirds.
Proof.
  split.
  - apply (accuracy_width_mismatch ex_preds32 ex_labels_0_2_0 3 2 3);
      [reflexivity|reflexivity|lia|lia|lia|reflexivity|vm_compute; discriminate].
  - vm_compute. reflexivity.
Defined.

(** X12.  On labels of shape [b, c] (one-hot, at most 2^24 classes) and
    predictions of the same shape, [calc] compares the index of the first
    greatest element of every row of the predictions with that of the same
    row of the labels, and divides, in [torch.float32], the number of rows
    that agree by [b], the number of rows (not by the [b * c] elements of
    the label tensor). *)
Theorem accuracy_one_hot_labels (preds labels : tensor) (b c : nat) :
  shape preds = [b; c] -> shape labels = [b; c] -> c <> 0%nat ->
  wf_tensor preds = true -> wf_tensor labels = true -> Z.of_nat c <= 2 ^ 24 ->
  exists amp aml : list nat,
    length amp = b /\ length aml = b /\
    (forall i, (i < b)%nat ->
       exists j, amp !! i = Some j /\ is_argmax (slice1 preds c 1 i 0) j) /\
    (forall i, (i < b)%nat ->
       exists j, aml !! i = Some j /\ is_argmax (slice1 labels c 1 i 0) j) /\
    accuracy.calc preds labels
    = Ok (SFdiv 24 128
            (binary_normalize 24 128
               (Z.of_nat (length (List.filter (fun p : nat * nat => (p.1 =? p.2)%nat)
                                    (combine amp aml)))) 0 false)
            (binary_normalize 24 128 (Z.of_nat b) 0 false)).
Proof.
  intros Hp Hl Hc Hwfp Hwfl Hbound.
  destruct (argmax_dim1_rows preds b c Hp Hc Hwfp) as (amp & Hlenp & Hamp & Hltp & Hap).
  destruct (argmax_dim1_rows labels b c Hl Hc Hwfl) as (aml & Hlenl & Haml & Hltl & Hal).
  exists amp, aml. split; [done|]. split; [done|]. split; [done|]. split; [done|].
  pose proof (eq_sum_indices amp aml b Hlenp Hlenl
                (Forall_below amp c Hbound Hltp) (Forall_below aml c Hbound Hltl)) as Heq.
  assert (Hlen : length (shape labels) = 2%nat) by (by rewrite Hl).
  assert (Hidx : py_index (shape labels) 1 = Ok c) by (by rewrite Hl).
  unfold accuracy.calc. cbv zeta. rewrite Hp, Hlen, Hidx.
  cbn [length Nat.eqb py_index lookup list_lookup rbind].
  rewrite Nat.eqb_refl. cbn [negb].
  calc_reduce Hap Hal Heq. done.
Qed.

Lemma accuracy_one_hot_labels_witness :
  (exists amp aml : list nat,
     length amp = 3%nat /\ length aml = 3%nat /\
     (forall i, (i < 3)%nat ->
        exists j, amp !! i = Some j /\ is_argmax (slice1 ex_preds3 3 1 i 0) j) /\
     (forall i, (i < 3)%nat ->
        exists j, aml !! i = Some j /\ is_argmax (slice1 ex_one_hot33 3 1 i 0) j) /\
     accuracy.calc ex_preds3 ex_one_hot33
     = Ok (SFdiv 24 128
             (binary_normalize 24 128
                (Z.of_nat (length (List.filter (fun p : nat * nat => (p.1 =? p.2)%nat)
                                     (combine amp aml)))) 0 false)
             (binary_normalize 24 128 (Z.of_nat 3) 0 false))) /\
  accuracy.calc ex_preds3 ex_one_hot33 = Ok f32_third.
Proof.
  split.
  - apply (accuracy_one_hot_labels ex_preds3 ex_one_hot33 3 3);
      [reflexivity|reflexivity|lia|reflexivity|reflexivity|vm_compute; discriminate].
  - vm_compute. reflexivity.
Defined.

(** X11.  Predictions and labels of the same number of axes, fewer than two
    (class indices against class indices, say), make [calc] raise
    [IndexError]: line 6 reads [shapes[1]]. *)
Theorem accuracy_one_axis_raises (preds labels : tensor) :
  length (shape preds) = length (shape labels) ->
  (length (shape preds) < 2)%nat ->
  accuracy.calc preds labels = Raise IndexError.
Proof.
  intros He Hlt. unfold accuracy.calc. rewrite <- He, Nat.eqb_refl.
  destruct (shape preds) as [|d0 [|d1 rest]]; [done|done|]. cbn in Hlt. lia.
Qed.

Lemma accuracy_one_axis_raises_witness :
  accuracy.calc ex_classes ex_labels = Raise IndexError.
Proof.
  apply (accuracy_one_axis_raises ex_classes ex_labels); [reflexivity|cbn; lia].
Defined.

Local Open Scope string_scope.

(** ** [transforms_lst] *)

Lemma list_getitem_nat {A} (l : list A) (i : nat) (x : A) :
  l !! i = Some x -> list_getitem l (Z.of_nat i) = Done x.
Proof.
  intros H. pose proof (lookup_lt_Some _ _ _ H) as Hlt. unfold list_getitem.
  destruct (Z.ltb_spec (Z.of_nat i) 0) as [|_]; [lia|].
  destruct (Z.ltb_spec (Z.of_nat i) 0) as [|_]; [lia|].
  destruct (Z.leb_spec (Z.of_nat (length l)) (Z.of_nat i)) as [|_]; [lia|].
  cbn [orb]. by rewrite Nat2Z.id, H.
Qed.


Lemma key_is_true (k : yaml) (s : string) : key_is k s = true <-> k = YStr s.
Proof.
  destruct k; cbn; try (split; [done|intros [=]]).
  destruct (String.eqb_spec s0 s) as [->|Hne]; split; try done.
  intros [= ->]. done.
Qed.

Lemma dict_get_key (d : list (yaml * yaml)) (k : string) (v : yaml) :
  dict_get d k = Some v -> (YStr k, v) ∈ d.
Proof.
  induction d as [|[k' v'] d IH]; [done|]. cbn [dict_get].
  destruct (key_is k' k) eqn:E.
  - apply key_is_true in E as ->. intros [= ->]. left.
  - intros H. right. by apply IH.
Qed.

Lemma dict_get_is_Some (d : list (yaml * yaml)) (k : string) (v : yaml) :
  (YStr k, v) ∈ d -> is_Some (dict_get d k).
Proof.
  induction d as [|[k' v'] d IH]; [by intros ?%not_elem_of_nil|].
  intros [[= <- <-]|H]%elem_of_cons; cbn [dict_get].
  - cbn. rewrite String.eqb_refl. by eexists.
  - destruct (key_is k' k); [by eexists|by apply IH].
Qed.

(** The transform the key [k] of the mapping [d] stands for. *)
Lemma transforms_loop_spec (d : list (yaml * yaml)) (keys : list yaml)
    (lst ts : list transform) :
  transforms_loop d keys lst = Done ts
  <-> exists ts',
      ts = (lst ++ ts')%list /\
      Forall2 (fun k t =>
                 (k = YStr "tensor" /\
                  exists v, dict_get d "tensor" = Some v /\ truthy v = true /\
                            t = ToTensor)
                 \/ (k = YStr "resize" /\
                     exists v z, dict_get d "resize" = Some v /\
                                 yaml_int v = Done z /\ t = Resize z z))
        keys ts'.
Proof.
  revert lst. induction keys as [|el keys IH]; intros lst; cbn [transforms_loop].
  - split.
    + intros [= <-]. exists []. split; [by rewrite app_nil_r|constructor].
    + intros (ts' & -> & H). apply Forall2_nil_inv_l in H as ->. by rewrite app_nil_r.
  - destruct (key_is el "tensor") eqn:Et.
    + apply key_is_true in Et as ->. unfold dict_getitem.
      destruct (dict_get d "tensor") as [v|] eqn:Ev; cbn [obind].
      * destruct (truthy v) eqn:Tv.
        -- rewrite IH. split.
           ++ intros (ts' & -> & H). exists (ToTensor :: ts').
              split; [by rewrite <- app_assoc|]. constructor; [|done].
              left. split; [done|]. by exists v.
           ++ intros (ts' & -> & H). apply Forall2_cons_inv_l in H
                as (t & ts'' & Ht & H & ->).
              exists ts''. split; [|done]. rewrite <- app_assoc.
              destruct Ht as [(_ & ? & _ & _ & ->)|([=] & _)]. done.
        -- cbn. split; [done|]. intros (ts' & -> & H).
           apply Forall2_cons_inv_l in H as (t & ts'' & Ht & H & ->).
           destruct Ht as [(_ & v' & [= <-] & ? & _)|([=] & _)]. congruence.
      * split; [done|]. intros (ts' & -> & H).
        apply Forall2_cons_inv_l in H as (t & ts'' & Ht & H & ->).
        destruct Ht as [(_ & v' & [=] & _)|([=] & _)].
    + cbn [obind]. destruct (key_is el "resize") eqn:Er.
      * apply key_is_true in Er as ->. unfold dict_getitem.
        destruct (dict_get d "resize") as [v|] eqn:Ev; cbn [obind].
        -- destruct (yaml_int v) as [z|e] eqn:Ez; cbn [obind].
           ++ rewrite IH. split.
              ** intros (ts' & -> & H). exists (Resize z z :: ts').
                 split; [by rewrite <- app_assoc|]. constructor; [|done].
                 right. split; [done|]. by exists v, z.
              ** intros (ts' & -> & H). apply Forall2_cons_inv_l in H
                   as (t & ts'' & Ht & H & ->).
                 exists ts''. split; [|done]. rewrite <- app_assoc.
                 destruct Ht as [([=] & _)|(_ & v' & z' & [= <-] & Hz & ->)].
                 rewrite Ez in Hz. by injection Hz as ->.
           ++ split; [done|]. intros (ts' & -> & H).
              apply Forall2_cons_inv_l in H as (t & ts'' & Ht & H & ->).
              destruct Ht as [([=] & _)|(_ & v' & z' & [= <-] & Hz & _)]. congruence.
        -- split; [done|]. intros (ts' & -> & H).
           apply Forall2_cons_inv_l in H as (t & ts'' & Ht & H & ->).
           destruct Ht as [([=] & _)|(_ & v' & z' & [=] & _)].
      * split; [done|]. intros (ts' & -> & H).
        apply Forall2_cons_inv_l in H as (t & ts'' & Ht & H & ->).
        destruct Ht as [(-> & _)|(-> & _)]; cbn in Et, Er; done.
Qed.

(** X13.  [transforms_lst] succeeds exactly on a mapping all of whose keys
    are [resize] or a [tensor] with a true value; the list it returns has
    one transform for every key, in the order of the keys in the document:
    [ToTensor] for [tensor], and for [resize] the square [Resize] of
    [int] of its value. *)
Theorem transforms_lst_spec (transform_config : yaml) (ts : list transform) :
  transforms_lst transform_config = Done ts
  <-> exists d,
      transform_config = YDict d /\
      Forall2 (fun (kv : yaml * yaml) t =>
                 (kv.1 = YStr "tensor" /\
                  exists v, dict_get d "tensor" = Some v /\ truthy v = true /\
                            t = ToTensor)
                 \/ (kv.1 = YStr "resize" /\
                     exists v z, dict_get d "resize" = Some v /\
                                 yaml_int v = Done z /\ t = Resize z z))
        d ts.
Proof.
  unfold transforms_lst. split.
  - destruct transform_config as [| | | | | |d]; try done.
    intros H. apply transforms_loop_spec in H as (ts' & -> & H).
    exists d. split; [done|]. cbn [app]. by apply Forall2_fmap_l in H.
  - intros (d & -> & H). apply transforms_loop_spec. exists ts. split; [done|].
    by apply Forall2_fmap_l.
Qed.

(** X14.  A key that is neither [resize] nor a [tensor] with a true value
    makes [transforms_lst] raise, wherever it stands in the document; in
    particular [tensor: false] does not switch the conversion off, it is an
    error. *)
Theorem transforms_lst_rejects (d : list (yaml * yaml)) (k v : yaml) :
  (k, v) ∈ d ->
  k <> YStr "resize" ->
  (k = YStr "tensor" -> exists v', dict_get d "tensor" = Some v' /\ truthy v' = false) ->
  exists e, transforms_lst (YDict d) = Raises e.
Proof.
  intros Hin Hr Ht.
  destruct (transforms_lst (YDict d)) as [ts|e] eqn:E; [|by exists e].
  exfalso. apply transforms_lst_spec in E as (d' & [= <-] & H).
  apply list_elem_of_lookup in Hin as [i Hi].
  destruct (Forall2_lookup_l _ _ _ _ _ H Hi) as (t & _ & Hrel). cbn [fst] in Hrel.
  destruct Hrel as [(-> & v1 & Hv1 & Htrue & _)|(-> & _)]; [|done].
  destruct (Ht eq_refl) as (v2 & Hv2 & Hfalse). congruence.
Qed.

Lemma transforms_lst_rejects_witness :
  exists e, transforms_lst (YDict cfg_tensor_off) = Raises e.
Proof.
  apply (transforms_lst_rejects cfg_tensor_off (YStr "tensor") (YBool false)).
  - left.
  - discriminate.
  - intros _. exists (YBool false). split; reflexivity.
Defined.

(** ** [CustomDataset] *)

Section CustomDatasetFacts.
Context {W : Type} {Transform Image Sample : Type}.
Variable image_open : option W -> string -> outcome Image.
Variable apply_transform : Transform -> Image -> outcome Sample.
Variable safe_load : option W -> string -> outcome yaml.
Implicit Types (fs : gmap string (node W)) (ds : custom.CustomDataset Transform).

Lemma init_inv img_dir annotation_file tr fs ds :
  custom.init safe_load img_dir annotation_file tr fs = Done ds ->
  fs !! img_dir = Some Dir /\
  custom.images ds = map (fun img => img_dir ++ "/" ++ img) (children img_dir fs) /\
  custom.transform ds = tr /\
  exists b t, fs !! annotation_file = Some (File b t) /\
              safe_load b t = Done (custom.labels ds).
Proof.
  unfold custom.init, os_listdir, custom.open_read.
  destruct (fs !! img_dir) as [[|b0 t0]|]; [|done|done]. cbn [fst of_result obind].
  destruct (fs !! annotation_file) as [[|b t]|].
  - done.
  - cbn [obind fst snd]. destruct (safe_load b t) as [y|e] eqn:E; [|done].
    cbn [obind]. intros [= <-]. cbn. split; [done|]. split; [done|]. split; [done|].
    by exists b, t.
  - by destruct (check_parent fs annotation_file) as [[]|[]].
Qed.

(** X15.  A dataset that [CustomDataset] could build has one sample for
    every entry of the image directory, whatever the entry is (a
    sub-directory counts as well); its paths are the entries joined to the
    directory, each of them once, and every one of them exists. *)
Theorem init_lists_directory img_dir annotation_file tr fs ds :
  custom.init safe_load img_dir annotation_file tr fs = Done ds ->
  custom.len ds = length (children img_dir fs) /\
  NoDup (custom.images ds) /\
  (forall p, p ∈ custom.images ds
             <-> exists n, p = img_dir ++ "/" ++ n /\ has_slash n = false /\
                           n <> EmptyString /\ is_Some (fs !! p)).
Proof.
  intros H. destruct (init_inv _ _ _ _ _ H) as (Hd & Hi & _ & _).
  unfold custom.len. rewrite Hi. split; [by rewrite length_map|]. split.
  - apply NoDup_fmap_2; [|apply children_NoDup].
    intros a b E. by apply string_app_inv_head, string_app_inv_head in E.
  - intros p. rewrite list_elem_of_fmap. split.
    + intros (n & -> & Hn). exists n. apply children_elem in Hn as (H1 & H2 & H3).
      done.
    + intros (n & -> & H1 & H2 & H3). exists n. split; [done|].
      by apply children_elem.
Qed.

(** X16.  The label of a sample is looked up under the path of the image,
    the directory joined to the file name: an annotation that has no such
    key (one keyed by the bare file names, say) makes [__getitem__] raise
    [KeyError] before the image is opened; and when [__getitem__] returns,
    the label is [int] of the value under that path. *)
Theorem getitem_label_by_path img_dir annotation_file tr fs ds (i : nat) (n : string) :
  custom.init safe_load img_dir annotation_file tr fs = Done ds ->
  children img_dir fs !! i = Some n ->
  let file := img_dir ++ "/" ++ n in
  (forall d, custom.labels ds = YDict d -> dict_get d file = None ->
             forall fs', custom.getitem image_open apply_transform ds (Z.of_nat i) fs'
                         = Raises (KeyError file)) /\
  (forall fs' s z,
      custom.getitem image_open apply_transform ds (Z.of_nat i) fs' = Done (s, z) ->
      exists v img,
        yaml_getitem (custom.labels ds) file = Done v /\ yaml_int v = Done z /\
        custom.load_sample image_open file fs' = Done img /\
        apply_transform tr img = Done s).
Proof.
  intros H Hn file. destruct (init_inv _ _ _ _ _ H) as (Hd & Hi & Ht & _).
  assert (Hfile : list_getitem (custom.images ds) (Z.of_nat i) = Done file).
  { apply list_getitem_nat. rewrite Hi, list_lookup_fmap, Hn. done. }
  split.
  - intros d Hl Hnone fs'. unfold custom.getitem. rewrite Hfile. cbn [obind].
    rewrite Hl. cbn [yaml_getitem]. unfold dict_getitem. by rewrite Hnone.
  - intros fs' s z. unfold custom.getitem. rewrite Hfile. cbn [obind].
    destruct (yaml_getitem (custom.labels ds) file) as [v|e] eqn:Ev; [|done].
    cbn [obind].
    destruct (yaml_int v) as [z'|e] eqn:Ez; [|done]. cbn [obind].
    destruct (custom.load_sample image_open file fs') as [img|e] eqn:El; [|done].
    cbn [obind]. rewrite Ht.
    destruct (apply_transform tr img) as [s'|e] eqn:Ea; [|done]. cbn [obind].
    intros [= <- <-]. by exists v, img.
Qed.

End CustomDatasetFacts.

Lemma init_lists_directory_witness :
  custom.len ds_bare = length (children "imgs" fs_images) /\
  NoDup (custom.images ds_bare) /\
  (forall p, p ∈ custom.images ds_bare
             <-> exists n, p = "imgs" ++ "/" ++ n /\ has_slash n = false /\
                           n <> EmptyString /\ is_Some (fs_images !! p)).
Proof.
  apply (init_lists_directory (stub_load ann_bare) "imgs" "ann.yaml" tt fs_images ds_bare).
  vm_compute. reflexivity.
Defined.

Lemma getitem_label_by_path_witness :
  let file := "imgs" ++ "/" ++ "a.png" in
  (forall d, custom.labels ds_bare = YDict d -> dict_get d file = None ->
             forall fs', custom.getitem stub_open stub_apply ds_bare (Z.of_nat 0) fs'
                         = Raises (KeyError file)) /\
  (forall fs' s z,
      custom.getitem stub_open stub_apply ds_bare (Z.of_nat 0) fs' = Done (s, z) ->
      exists v img,
        yaml_getitem (custom.labels ds_bare) file = Done v /\ yaml_int v = Done z /\
        custom.load_sample stub_open file fs' = Done img /\
        stub_apply tt img = Done s).
Proof.
  apply (getitem_label_by_path stub_open stub_apply (stub_load ann_bare) "imgs"
           "ann.yaml" tt fs_images ds_bare 0 "a.png").
  - vm_compute. reflexivity.
  - vm_compute. reflexivity.
Defined.

(** ** [run]: what a configuration must provide *)

Section RunFacts.
Context `{E : run_py.Env}.
Local Open Scope world_scope.

Lemma yaml_getitem_Done (config : yaml) (k : string) (v : yaml) :
  yaml_getitem config k = Done v ->
  exists d, config = YDict d /\ dict_get d k = Some v.
Proof.
  destruct config as [| | | | | |d]; try done. cbn [yaml_getitem]. unfold dict_getitem.
  destruct (dict_get d k) as [v'|] eqn:Ev; [|done]. intros [= <-]. by exists d.
Qed.

Lemma obind_Done {A B} (m : outcome A) (k : A -> outcome B) (b : B) :
  obind m k = Done b -> exists a, m = Done a /\ k a = Done b.
Proof. destruct m as [a|e]; [|done]. intros H. by exists a. Qed.

(** X17.  A configuration that [run] can read is a mapping with the
    nineteen keys below and with [decoder] or [multidecoder]; when both are
    given, [decoder] is used and [multidecoder] is ignored; and the class
    names are read in the algorithm [test] only. *)
Theorem read_config_required_keys (config : yaml) (s : run_py.settings) :
  run_py.read_config config = Done s ->
  exists d,
    config = YDict d /\
    Forall (fun k => is_Some (dict_get d k))
      ["encoder"; "in_channels"; "number_classes"; "device"; "algorithm"; "dataset";
       "train_part"; "valid_part"; "seed"; "batch_size"; "epochs"; "logs"; "loss";
       "metrics"; "checkpoints"; "save_every"; "learning_rate"; "optimizer";
       "scheduler"] /\
    match dict_get d "decoder" with
    | Some v => run_py.decoder_name s = v /\ run_py.decoder_mode s = None
    | None => dict_get d "multidecoder" = Some (run_py.decoder_name s) /\
              run_py.decoder_mode s = Some "multidecoder"
    end /\
    (is_Some (run_py.names s)
     <-> run_py.algorithm s = YStr "test" /\ is_Some (dict_get d "class_names")).
Proof.
  intros H. unfold run_py.read_config in H.
  apply obind_Done in H as (encoder_name & Henc & H).
  apply yaml_getitem_Done in Henc as (d & -> & Henc).
  exists d. split; [done|].
  cbn [yaml_has obind] in H.
  apply obind_Done in H as (decoder & Hdec & H).
  apply obind_Done in H as (inc & Hinc & H).
  apply obind_Done in Hinc as (v1 & Hv1%yaml_getitem_Done & _).
  apply obind_Done in H as (nc & Hnc & H).
  apply obind_Done in Hnc as (v2 & Hv2%yaml_getitem_Done & _).
  apply obind_Done in H as (device & Hdev%yaml_getitem_Done & H).
  apply obind_Done in H as (algorithm & Halg%yaml_getitem_Done & H).
  apply obind_Done in H as (dataset & Hdat%yaml_getitem_Done & H).
  apply obind_Done in H as (train_part & Htp & H).
  apply obind_Done in Htp as (v3 & Hv3%yaml_getitem_Done & _).
  apply obind_Done in H as (valid_part & Hvp & H).
  apply obind_Done in Hvp as (v4 & Hv4%yaml_getitem_Done & _).
  apply obind_Done in H as (seed & Hseed & H).
  apply obind_Done in Hseed as (v5 & Hv5%yaml_getitem_Done & _).
  apply obind_Done in H as (bs & Hbs & H).
  apply obind_Done in Hbs as (v6 & Hv6%yaml_getitem_Done & _).
  apply obind_Done in H as (epochs & Hep & H).
  apply obind_Done in Hep as (v7 & Hv7%yaml_getitem_Done & _).
  apply obind_Done in H as (logs & Hlogs%yaml_getitem_Done & H).
  apply obind_Done in H as (loss_fn & Hloss%yaml_getitem_Done & H).
  apply obind_Done in H as (metrics & Hmet%yaml_getitem_Done & H).
  apply obind_Done in H as (checkpoints & Hcks%yaml_getitem_Done & H).
  apply obind_Done in H as (names & Hnames & H).
  apply obind_Done in H as (checkpoint & _ & H).
  apply obind_Done in H as (se & Hse & H).
  apply obind_Done in Hse as (v8 & Hv8%yaml_getitem_Done & _).
  apply obind_Done in H as (lr & Hlr & H).
  apply obind_Done in Hlr as (v9 & Hv9%yaml_getitem_Done & _).
  apply obind_Done in H as (wd & _ & H).
  apply obind_Done in H as (opt_eps & _ & H).
  apply obind_Done in H as (betas & _ & H).
  apply obind_Done in H as (optim & Hopt%yaml_getitem_Done & H).
  apply obind_Done in H as (sched & Hsch%yaml_getitem_Done & H).
  apply obind_Done in H as (step & _ & H).
  apply obind_Done in H as (gamma & _ & H).
  apply obind_Done in H as (milestones & _ & H).
  injection H as <-. cbn [run_py.decoder_name run_py.decoder_mode run_py.names
                          run_py.algorithm].
  split; [|split].
  - repeat match goal with
           | H : exists d0, YDict d = YDict d0 /\ _ |- _ =>
               let E := fresh in destruct H as (? & E & H); injection E as <-
           end.
    repeat (constructor; [by eexists|]). constructor.
  - unfold dict_has in Hdec. destruct (dict_get d "decoder") as [v|] eqn:Ed.
    + cbn [yaml_getitem] in Hdec. unfold dict_getitem in Hdec. rewrite Ed in Hdec.
      cbn [obind] in Hdec. by injection Hdec as <-.
    + apply obind_Done in Hdec as (v & Hv%yaml_getitem_Done & Hd).
      destruct Hv as (? & [= <-] & Hv). by injection Hd as <-.
  - destruct (key_is algorithm "test") eqn:Ealg.
    + apply key_is_true in Ealg as ->. cbn [yaml_has obind] in Hnames.
      unfold dict_has in Hnames.
      destruct (dict_get d "class_names") as [v|] eqn:Ec.
      * apply obind_Done in Hnames as (v' & _ & [= <-]). split; [|by eexists].
        intros _. split; [done|by eexists].
      * injection Hnames as <-. split; [by intros [? [=]]|].
        by intros [_ [? [=]]].
    + injection Hnames as <-. split; [by intros [? [=]]|].
      intros [-> _]. cbn in Ealg. done.
Qed.

Lemma wbind_Done {A B} (m : Act run_py.World A) (k : A -> Act run_py.World B)
    (w : run_py.World) (b : B) :
  (wbind m k w).1 = Done b ->
  exists a w', m w = (Done a, w') /\ (k a w').1 = Done b.
Proof.
  unfold wbind. destruct (m w) as [[a|e] w']; [|done]. intros H. by exists a, w'.
Qed.

Lemma run_configs_Done (config transform_config : yaml)
    (w : run_py.World) :
  (run_py.run_configs config transform_config w).1 = Done tt ->
  exists ts s,
    transforms_lst transform_config = Done ts /\
    run_py.read_config config = Done s /\
    (run_py.device s = YStr "cpu" \/ run_py.device s = YStr "cuda") /\
    (run_py.algorithm s = YStr "train" \/ run_py.algorithm s = YStr "test").
Proof.
  unfold run_py.run_configs. intros H.
  apply wbind_Done in H as (ts & w0 & Hts & H). injection Hts as Hts _.
  apply wbind_Done in H as (s & w1 & Hs & H). injection Hs as Hs _.
  exists ts, s. split; [done|]. split; [done|].
  apply wbind_Done in H as (? & w2 & _ & H).
  apply wbind_Done in H as (? & w3 & _ & H).
  assert (Hdev : run_py.device s = YStr "cpu" \/ run_py.device s = YStr "cuda").
  { destruct (key_is (run_py.device s) "cpu") eqn:Ecpu;
      [apply key_is_true in Ecpu; by left|].
    destruct (key_is (run_py.device s) "cuda") eqn:Ecuda;
      [apply key_is_true in Ecuda; by right|].
    done. }
  split; [done|].
  assert (negb (key_is (run_py.device s) "cpu") && negb (key_is (run_py.device s) "cuda")
          = false) as Hb by (by destruct Hdev as [-> | ->]).
  rewrite Hb in H.
  apply wbind_Done in H as (encoder & w4 & _ & H).
  apply wbind_Done in H as (encoder' & w5 & _ & H).
  apply wbind_Done in H as (model & w6 & _ & H).
  apply wbind_Done in H as (model' & w7 & _ & H).
  apply wbind_Done in H as (model'' & w8 & _ & H).
  apply wbind_Done in H as ([[train_data valid_data] test_data] & w9 & _ & H).
  apply wbind_Done in H as (optimizer & w10 & _ & H).
  apply wbind_Done in H as (scheduler & w11 & _ & H).
  apply wbind_Done in H as ([loss_fn one_hot] & w12 & _ & H).
  apply wbind_Done in H as (metrics_fn & w13 & _ & H).
  apply wbind_Done in H as (train_dataloader & w14 & _ & H).
  apply wbind_Done in H as (valid_dataloader & w15 & _ & H).
  apply wbind_Done in H as (test_dataloader & w16 & _ & H).
  destruct (key_is (run_py.algorithm s) "train") eqn:Et;
    [apply key_is_true in Et; by left|].
  destruct (key_is (run_py.algorithm s) "test") eqn:Ete;
    [apply key_is_true in Ete; by right|].
  done.
Qed.

(** X18.  [run] returns only if its two files can be opened and parsed,
    [transforms_lst] accepts the transform configuration, the configuration
    can be read, the device is [cpu] or [cuda] and the algorithm is [train]
    or [test]: whatever the collaborators do, every other input makes it
    raise. *)
Theorem run_returns_only_if (config_path transform_path : string) (w : run_py.World) :
  (run_py.run config_path transform_path w).1 = Done tt ->
  exists config transform_config ts s,
    (exists w1 w2 w3,
        run_py.empty_cache w = (Done tt, w1) /\
        run_py.parse_yaml config_path w1 = (Done config, w2) /\
        run_py.parse_yaml transform_path w2 = (Done transform_config, w3)) /\
    transforms_lst transform_config = Done ts /\
    run_py.read_config config = Done s /\
    (run_py.device s = YStr "cpu" \/ run_py.device s = YStr "cuda") /\
    (run_py.algorithm s = YStr "train" \/ run_py.algorithm s = YStr "test").
Proof.
  unfold run_py.run. intros H.
  apply wbind_Done in H as ([] & w1 & H1 & H).
  apply wbind_Done in H as (config & w2 & H2 & H).
  apply wbind_Done in H as (transform_config & w3 & H3 & H).
  apply run_configs_Done in H as (ts & s & Hts & Hs & Hd & Ha).
  exists config, transform_config, ts, s. split; [by exists w1, w2, w3|]. done.
Qed.

(** X19.  A device other than [cpu] and [cuda] is rejected with
    [ValueError] right after the two generators are seeded: once the files
    are parsed, nothing else is called, so that no encoder, model, dataset,
    optimizer or loader is built for it. *)
Theorem run_unknown_device (config_path transform_path : string)
    (config transform_config : yaml)
    (ts : list transform) (s : run_py.settings) (w w1 w2 w3 : run_py.World) :
  run_py.empty_cache w = (Done tt, w1) ->
  run_py.parse_yaml config_path w1 = (Done config, w2) ->
  run_py.parse_yaml transform_path w2 = (Done transform_config, w3) ->
  transforms_lst transform_config = Done ts ->
  run_py.read_config config = Done s ->
  run_py.device s <> YStr "cpu" -> run_py.device s <> YStr "cuda" ->
  run_py.run config_path transform_path w
  = (call_ run_py.np_random_seed (run_py.seed s);
     call_ run_py.torch_manual_seed (run_py.seed s);
     wraise (Exn ValueError)) w3.
Proof.
  intros H1 H2 H3 Ht Hs Hcpu Hcuda. unfold run_py.run.
  unfold wbind at 1. rewrite H1.
  unfold wbind at 1. rewrite H2.
  unfold wbind at 1. rewrite H3.
  unfold run_py.run_configs.
  unfold wbind at 1. unfold wlift at 1. rewrite Ht.
  unfold wbind at 1. unfold wlift at 1. rewrite Hs.
  assert (key_is (run_py.device s) "cpu" = false) as ->.
  { destruct (key_is _ _) eqn:Ek; [|done]. by apply key_is_true in Ek. }
  assert (key_is (run_py.device s) "cuda" = false) as ->.
  { destruct (key_is _ _) eqn:Ek; [|done]. by apply key_is_true in Ek. }
  done.
Qed.

End RunFacts.

Lemma map_outcome_Done {A B} (f : A -> outcome B) (l : list A) (ys : list B) :
  map_outcome f l = Done ys <-> Forall2 (fun x y => f x = Done y) l ys.
Proof.
  revert ys. induction l as [|x l IH]; intros ys; cbn [map_outcome].
  - split; [intros [= <-]; constructor|]. intros H. by apply Forall2_nil_inv_l in H as ->.
  - destruct (f x) as [y|e] eqn:Ex; cbn [obind].
    + destruct (map_outcome f l) as [ys'|e] eqn:El; cbn [obind].
      * split.
        -- intros [= <-]. constructor; [done|]. by apply IH.
        -- intros H. apply Forall2_cons_inv_l in H as (y' & ys'' & Hy & H & ->).
           apply IH in H. congruence.
      * split; [done|]. intros H.
        apply Forall2_cons_inv_l in H as (y' & ys'' & Hy & H & ->).
        apply IH in H. done.
    + split; [done|]. intros H.
      apply Forall2_cons_inv_l in H as (y' & ys'' & Hy & H & ->). congruence.
Qed.

Lemma list_getitem_nat_inv {A} (l : list A) (i : nat) (x : A) :
  list_getitem l (Z.of_nat i) = Done x -> l !! i = Some x.
Proof.
  unfold list_getitem.
  destruct (Z.ltb_spec (Z.of_nat i) 0) as [|_]; [lia|].
  destruct (_ || _); [done|]. rewrite Nat2Z.id.
  destruct (l !! i); [|done]. by intros [= ->].
Qed.

Lemma map_outcome_Raises {A B} (f : A -> outcome B) (l : list A) (e : py_exn) :
  map_outcome f l = Raises e -> exists x, x ∈ l /\ f x = Raises e.
Proof.
  induction l as [|x l IH]; [done|]. cbn [map_outcome].
  destruct (f x) as [y|e'] eqn:Ex; cbn [obind].
  - destruct (map_outcome f l) as [ys|e'] eqn:El; cbn [obind]; [done|].
    intros [= ->]. destruct (IH eq_refl) as (x' & Hx' & Hf). exists x'.
    split; [by right|done].
  - intros [= ->]. exists x. split; [left|done].
Qed.

Lemma list_getitem_Raises {A} (l : list A) (i : Z) (e : py_exn) :
  list_getitem l i = Raises e -> e = Exn IndexError.
Proof.
  unfold list_getitem. destruct (_ || _); [by intros [= <-]|].
  destruct (l !! _); [done|by intros [= <-]].
Qed.

Lemma names_dict_Done (l : list yaml) (nc : Z) (d : list (Z * yaml)) :
  run_py.names_dict (YList l) nc = Done d
  <-> nc <= Z.of_nat (length l) /\ d = zip (seqZ 0 nc) (take (Z.to_nat nc) l).
Proof.
  unfold run_py.names_dict. rewrite map_outcome_Done, Forall2_same_length_lookup.
  rewrite length_seqZ. split.
  - intros [Hlen H].
    assert (Hk : forall k, (k < Z.to_nat nc)%nat ->
                 exists x, l !! k = Some x /\ d !! k = Some (Z.of_nat k, x)).
    { intros k Hk. destruct (lookup_lt_is_Some_2 d k) as [p Hp]; [lia|].
      assert (Hs : seqZ 0 nc !! k = Some (Z.of_nat k)).
      { rewrite lookup_seqZ. split; lia. }
      pose proof (H k _ _ Hs Hp) as Hr. cbn [yaml_getitem_int] in Hr.
      destruct (list_getitem l (Z.of_nat k)) as [x|e] eqn:Ex; [|done].
      cbn [obind] in Hr. injection Hr as <-. exists x. split; [|done].
      by apply list_getitem_nat_inv. }
    assert (Hle : nc <= Z.of_nat (length l)).
    { destruct (Z.to_nat nc) as [|m] eqn:Em; [lia|].
      destruct (Hk m) as (x & Hx & _); [lia|]. apply lookup_lt_Some in Hx. lia. }
    split; [done|]. apply list_eq. intros k.
    rewrite lookup_zip_with.
    destruct (decide (k < Z.to_nat nc)%nat) as [Hlt|Hge].
    + destruct (Hk k Hlt) as (x & Hx & ->).
      rewrite (proj2 (lookup_seqZ 0 nc k (Z.of_nat k))) by lia. cbn.
      rewrite lookup_take_lt by done. by rewrite Hx.
    + rewrite (lookup_ge_None_2 d) by lia.
      rewrite (lookup_ge_None_2 (seqZ 0 nc)) by (rewrite length_seqZ; lia). done.
  - intros [Hle ->]. split.
    { rewrite length_zip_with, length_seqZ, length_take. lia. }
    intros k i p Hi Hp. apply lookup_seqZ in Hi as [-> Hk].
    rewrite lookup_zip_with in Hp.
    rewrite (proj2 (lookup_seqZ 0 nc k (0 + Z.of_nat k))) in Hp by lia.
    cbn in Hp. rewrite lookup_take_lt in Hp by lia.
    destruct (l !! k) as [x|] eqn:Ex; [|done]. injection Hp as <-.
    cbn [yaml_getitem_int]. replace (0 + Z.of_nat k) with (Z.of_nat k) by lia.
    by rewrite (list_getitem_nat _ _ _ Ex).
Qed.

(** X20.  The mapping of class names that [run] hands to [vizualize] pairs
    the indices below [number_classes] with the first names of the list:
    it can be built exactly when the list has at least [number_classes]
    names, names beyond that number are dropped, and a shorter list makes
    the comprehension raise [IndexError]. *)
Theorem names_dict_of_list (l : list yaml) (nc : Z) :
  (forall d, run_py.names_dict (YList l) nc = Done d
             <-> nc <= Z.of_nat (length l) /\
                 d = zip (seqZ 0 nc) (take (Z.to_nat nc) l)) /\
  (run_py.names_dict (YList l) nc = Raises (Exn IndexError)
   <-> Z.of_nat (length l) < nc).
Proof.
  split; [intros d; apply names_dict_Done|]. split.
  - intros H. destruct (Z.lt_ge_cases (Z.of_nat (length l)) nc) as [|Hle]; [done|].
    assert (run_py.names_dict (YList l) nc
            = Done (zip (seqZ 0 nc) (take (Z.to_nat nc) l))) as Hd
      by (apply names_dict_Done; split; [lia|done]).
    congruence.
  - intros Hlt. destruct (run_py.names_dict (YList l) nc) as [d|e] eqn:E.
    + apply names_dict_Done in E as [Hle _]. lia.
    + unfold run_py.names_dict in E.
      apply map_outcome_Raises in E as (i & _ & Hi). cbn [yaml_getitem_int] in Hi.
      destruct (list_getitem l i) as [x|e'] eqn:Ex; [done|]. cbn [obind] in Hi.
      injection Hi as <-. by rewrite (list_getitem_Raises _ _ _ Ex).
Qed.

Lemma read_config_required_keys_witness :
  exists d,
    demo_config "cpu" "train" = YDict d /\
    Forall (fun k => is_Some (dict_get d k))
      ["encoder"; "in_channels"; "number_classes"; "device"; "algorithm"; "dataset";
       "train_part"; "valid_part"; "seed"; "batch_size"; "epochs"; "logs"; "loss";
       "metrics"; "checkpoints"; "save_every"; "learning_rate"; "optimizer";
       "scheduler"] /\
    match dict_get d "decoder" with
    | Some v => run_py.decoder_name (demo_settings "cpu" "train") = v /\
                run_py.decoder_mode (demo_settings "cpu" "train") = None
    | None => dict_get d "multidecoder"
              = Some (run_py.decoder_name (demo_settings "cpu" "train")) /\
              run_py.decoder_mode (demo_settings "cpu" "train") = Some "multidecoder"
    end /\
    (is_Some (run_py.names (demo_settings "cpu" "train"))
     <-> run_py.algorithm (demo_settings "cpu" "train") = YStr "test" /\
         is_Some (dict_get d "class_names")).
Proof.
  apply (read_config_required_keys (E := demo_env) (demo_config "cpu" "train")
           (demo_settings "cpu" "train")).
  vm_compute. reflexivity.
Defined.

Lemma run_returns_only_if_witness :
  exists config transform_config ts s,
    (exists w1 w2 w3,
        run_py.empty_cache (Env := demo_env) [] = (Done tt, w1) /\
        run_py.parse_yaml (E := demo_env) "cpu.yaml" w1 = (Done config, w2) /\
        run_py.parse_yaml (E := demo_env) "transform.yaml" w2
        = (Done transform_config, w3)) /\
    transforms_lst transform_config = Done ts /\
    run_py.read_config (E := demo_env) config = Done s /\
    (run_py.device s = YStr "cpu" \/ run_py.device s = YStr "cuda") /\
    (run_py.algorithm s = YStr "train" \/ run_py.algorithm s = YStr "test").
Proof.
  apply (run_returns_only_if (E := demo_env) "cpu.yaml" "transform.yaml" []).
  vm_compute. reflexivity.
Defined.

Lemma run_unknown_device_witness :
  run_py.run (E := demo_env) "gpu.yaml" "transform.yaml" []
  = (Raises (Exn ValueError),
     ["empty_cache"; "open"; "open"; "np.random.seed"; "torch.manual_seed"]).
Proof.
  apply (run_unknown_device (E := demo_env) "gpu.yaml" "transform.yaml"
           (demo_config "gpu" "train") (YDict cfg_resize_tensor)
           [Resize 32 32; ToTensor] (demo_settings "gpu" "train")
           [] ["empty_cache"] ["empty_cache"; "open"] ["empty_cache"; "open"; "open"]).
  - vm_compute. reflexivity.
  - vm_compute. reflexivity.
  - vm_compute. reflexivity.
  - vm_compute. reflexivity.
  - vm_compute. reflexivity.
  - discriminate.
  - discriminate.
Defined.
